(** * Scanner: the crop-box state machine of document_crop

    A shallow embedding of [src/index.ts] (class [Scanner]) and the
    properties of it that the specification states.

    Conventions of the embedding.
    - A private field [#f] is the record field [f] of [Scanner]; a method
      that mutates [this] takes the instance and returns the new one.
    - The browser is a [World]: the DOM tree, the listener table, the
      allocation counters, the console and the few globals the class reads.
    - An exception is an [outcome]; what was mutated before a [throw] stays
      mutated, as in JavaScript.
    - Functions of the platform ([isPointInPath], [Math.sqrt], the OpenCV
      calls, the raster encoders) are parameters of a section.
    - A JavaScript [number] is a rational ([Q]); [===] on numbers is numeric
      equality ([Qeq_bool]); [NaN] and the infinities are outside the model,
      and every statement that divides says that the divisor is not zero.

    The class is embedded twice.
    - First over the exact rationals, with the size of a canvas kept as it is
      assigned.  This is the class for what does not depend on how numbers
      are computed: the construction, the DOM and the listeners, the order
      of the calls, what each method leaves untouched.  Results about
      computed coordinates are stated there up to numeric equality ([==])
      and hold of the exact arithmetic only.
    - Then in the module [Machine], on doubles and with the integer
      attributes of the canvas element: every [+], [-], [*] and [/] is
      rounded, and [canvas.width] and [canvas.height] hold the integer that
      the DOM makes of the number assigned.  The properties of the layout,
      of the corners and of the drags that depend on the numbers are stated
      of this one, for every rounding, and run on the doubles of
      JavaScript. *)

From Stdlib Require Import QArith Qround Lqa ZArith List String Bool Lia.
Import ListNotations.
Local Open Scope Q_scope.

Set Implicit Arguments.

(** ** Numbers *)

Definition lt_num (a b : Q) : bool := negb (Qle_bool b a).
Definition le_num (a b : Q) : bool := Qle_bool a b.
Definition ge_num (a b : Q) : bool := Qle_bool b a.
Definition gt_num (a b : Q) : bool := negb (Qle_bool a b).
Definition strict_eq (a b : Q) : bool := Qeq_bool a b.

(** [if (v)] on a number: zero is falsy. *)
Definition truthy (a : Q) : bool := negb (Qeq_bool a 0).

(** [if (v)] on an optional number: [undefined] is falsy too. *)
Definition truthy_opt (o : option Q) : bool :=
  match o with Some a => truthy a | None => false end.

(** [if (s)] on an optional string: [undefined] and the empty string are falsy. *)
Definition truthy_str (o : option string) : bool :=
  match o with Some EmptyString => false | Some _ => true | None => false end.

Definition Math_max (a b : Q) : Q := if Qle_bool a b then b else a.
Definition Math_min (a b : Q) : Q := if Qle_bool a b then a else b.
Definition Math_floor (a : Q) : Q := inject_Z (Qfloor a).

(** ** Exceptions *)

Inductive Exn : Type :=
| Error (message : string)
| TypeError
| NotFoundError.

Inductive outcome (A : Type) : Type :=
| Normal (a : A)
| Throw (e : Exn).
Arguments Normal {A} a.
Arguments Throw {A} e.

Definition obind {A B} (o : outcome A) (f : A -> outcome B) : outcome B :=
  match o with Normal a => f a | Throw e => Throw e end.

(** ** Data model *)

Record Position : Type := { x : Q; y : Q }.

(** A property of an options object: the key may be missing, or present with
    a value that may be [undefined]; ["k" in options] sees the difference. *)
Inductive Property (A : Type) : Type :=
| absent
| present (v : option A).
Arguments absent {A}.
Arguments present {A} v.

Definition has_key {A} (p : Property A) : bool :=
  match p with absent => false | present _ => true end.

Definition value_of {A} (p : Property A) : option A :=
  match p with absent => None | present v => v end.

(** A destructuring default, [k = d]: used when the value is [undefined]. *)
Definition default {A} (d : A) (o : option A) : A :=
  match o with Some a => a | None => d end.

Definition node := nat.

Record ScannerOptions : Type := {
  opt_parent : node;
  opt_width : option Q;
  opt_height : option Q;
  opt_maxWidth : option Q;
  opt_maxHeight : option Q;
  opt_cornerRadius : option Q;
  opt_cornerColor : option string;
  opt_cropBoxColor : Property string;
  opt_backdropColor : Property string;
  opt_minCropBoxWidth : option Q;
  opt_minCropBoxHeight : option Q;
  opt_cropBoxBorderWidth : option Q;
  opt_cropBoxBorderColor : option string;
  opt_initialCorners : option (list Position)
}.

(** ** The browser *)

Inductive EventType : Type :=
| touchstart | touchmove | touchend | mousedown | mousemove | mouseup.

(** The private methods that the constructor registers as listeners. *)
Inductive Handler : Type :=
| HTouchStart | HTouchMove | HTouchEnd | HMouseDown | HMouseMove.

(** A function value.  [this.#h] is the method itself; [this.#h.bind(this)]
    is a new function object on every evaluation, told apart by [fid]. *)
Inductive FnRef : Type :=
| MethodOf (h : Handler)
| BoundFn (fid : nat) (h : Handler).

Definition EventType_eqb (a b : EventType) : bool :=
  match a, b with
  | touchstart, touchstart | touchmove, touchmove | touchend, touchend
  | mousedown, mousedown | mousemove, mousemove | mouseup, mouseup => true
  | _, _ => false
  end.

Definition Handler_eqb (a b : Handler) : bool :=
  match a, b with
  | HTouchStart, HTouchStart | HTouchMove, HTouchMove | HTouchEnd, HTouchEnd
  | HMouseDown, HMouseDown | HMouseMove, HMouseMove => true
  | _, _ => false
  end.

(** Identity of function objects, as [removeEventListener] compares them. *)
Definition FnRef_eqb (f g : FnRef) : bool :=
  match f, g with
  | MethodOf a, MethodOf b => Handler_eqb a b
  | BoundFn i a, BoundFn j b => Nat.eqb i j && Handler_eqb a b
  | _, _ => false
  end.

Record Listener : Type := {
  target : node;
  type : EventType;
  callback : FnRef
}.

Definition Listener_eqb (a b : Listener) : bool :=
  Nat.eqb a.(target) b.(target) && EventType_eqb a.(type) b.(type)
  && FnRef_eqb a.(callback) b.(callback).

(** What the class reads of [canvas.getBoundingClientRect()]. *)
Record DOMRect : Type := { rect_left : Q; rect_top : Q }.

Record World : Type := {
  devicePixelRatio : Q;
  clientRect : DOMRect;
  (** elements made so far by [document.createElement] and [new Image] *)
  nextNode : nat;
  (** function objects made so far by [bind] *)
  nextFn : nat;
  (** the DOM tree as (parent, child) edges, in insertion order *)
  childNodes : list (node * node);
  listeners : list Listener;
  console : list string
}.

Definition set_nextNode (n : nat) (w : World) : World :=
  {| devicePixelRatio := w.(devicePixelRatio); clientRect := w.(clientRect);
     nextNode := n; nextFn := w.(nextFn); childNodes := w.(childNodes);
     listeners := w.(listeners); console := w.(console) |}.

Definition set_nextFn (n : nat) (w : World) : World :=
  {| devicePixelRatio := w.(devicePixelRatio); clientRect := w.(clientRect);
     nextNode := w.(nextNode); nextFn := n; childNodes := w.(childNodes);
     listeners := w.(listeners); console := w.(console) |}.

Definition set_childNodes (c : list (node * node)) (w : World) : World :=
  {| devicePixelRatio := w.(devicePixelRatio); clientRect := w.(clientRect);
     nextNode := w.(nextNode); nextFn := w.(nextFn); childNodes := c;
     listeners := w.(listeners); console := w.(console) |}.

Definition set_listeners (l : list Listener) (w : World) : World :=
  {| devicePixelRatio := w.(devicePixelRatio); clientRect := w.(clientRect);
     nextNode := w.(nextNode); nextFn := w.(nextFn); childNodes := w.(childNodes);
     listeners := l; console := w.(console) |}.

Definition set_console (c : list string) (w : World) : World :=
  {| devicePixelRatio := w.(devicePixelRatio); clientRect := w.(clientRect);
     nextNode := w.(nextNode); nextFn := w.(nextFn); childNodes := w.(childNodes);
     listeners := w.(listeners); console := c |}.

(** [document.createElement(..)] and [new Image()]: a fresh, detached element. *)
Definition createElement (w : World) : node * World :=
  (w.(nextNode), set_nextNode (S w.(nextNode)) w).

(** [f.bind(this)]: a fresh function object. *)
Definition bind (h : Handler) (w : World) : FnRef * World :=
  (BoundFn w.(nextFn) h, set_nextFn (S w.(nextFn)) w).

(** [target.addEventListener(type, f)]: a listener already there is not
    added twice. *)
Definition addEventListener (t : node) (ty : EventType) (f : FnRef) (w : World) : World :=
  let l := {| target := t; type := ty; callback := f |} in
  if existsb (Listener_eqb l) w.(listeners) then w
  else set_listeners (w.(listeners) ++ [l]) w.

(** [target.removeEventListener(type, f)]: removes the listener with this
    very type and function object; does nothing when there is none. *)
Definition removeEventListener (t : node) (ty : EventType) (f : FnRef) (w : World) : World :=
  let l := {| target := t; type := ty; callback := f |} in
  set_listeners (filter (fun l' => negb (Listener_eqb l l')) w.(listeners)) w.

(** [target.addEventListener(type, this.#h.bind(this))], as the constructor
    writes it. *)
Definition listen (t : node) (ty : EventType) (h : Handler) (w : World) : World :=
  let '(f, w) := bind h w in addEventListener t ty f w.

Definition is_child (p c : node) (w : World) : bool :=
  existsb (fun e => Nat.eqb (fst e) p && Nat.eqb (snd e) c) w.(childNodes).

(** [p.appendChild(c)]: [c] leaves its former parent, if any. *)
Definition appendChild (p c : node) (w : World) : World :=
  set_childNodes
    (filter (fun e => negb (Nat.eqb (snd e) c)) w.(childNodes) ++ [(p, c)]) w.

(** [p.removeChild(c)]: throws when [c] is not a child of [p]. *)
Definition removeChild (p c : node) (w : World) : outcome unit * World :=
  if is_child p c w then
    (Normal tt,
     set_childNodes
       (filter (fun e => negb (Nat.eqb (fst e) p && Nat.eqb (snd e) c)) w.(childNodes)) w)
  else (Throw NotFoundError, w).

Definition listeners_of (t : node) (w : World) : list Listener :=
  filter (fun l => Nat.eqb l.(target) t) w.(listeners).

(** ** The instance *)

(** Calls received by a 2D drawing context, oldest first.  [arc] is always
    the full circle (from [0] to [2 * Math.PI]); [drawImage] always draws
    the loaded image at the origin. *)
Module Ctx.
Inductive DrawCmd : Type :=
| clearRect (px py w h : Q)
| setFillStyle (c : string)
| fillRect (px py w h : Q)
| setGlobalCompositeOperation (op : string)
| setStrokeStyle (c : string)
| setLineWidth (w : Q)
| beginPath
| moveTo (px py : Q)
| lineTo (px py : Q)
| closePath
| fill
| stroke
| arc (px py radius : Q)
| drawImage (w h : Q).
End Ctx.

(** A canvas element: the [width] and [height] attributes (the backing
    store) and the lengths, in pixels, that the class writes to its style.
    A new canvas is 300 by 150.  The style properties that only place the
    element ([position], [display], [zIndex], ...) are not represented. *)
Record Canvas : Type := {
  el : node;
  el_width : Q;
  el_height : Q;
  style_padding : option Q;
  style_width : option Q;
  style_height : option Q
}.

Definition new_canvas (n : node) : Canvas :=
  {| el := n; el_width := 300; el_height := 150;
     style_padding := None; style_width := None; style_height := None |}.

Record Image : Type := {
  img_el : node;
  src : option string;
  crossOrigin : option string;
  naturalWidth : Q;
  naturalHeight : Q;
  (** whether [onload] and [onerror] hold the closures of [loadImg] *)
  onload : bool;
  onerror : bool
}.

Record Move : Type := { active : bool; prevTouch : Position }.

Record Scanner : Type := {
  parent : node;
  relativePostionedDiv : node;
  canvas : Canvas;
  width : option Q;
  height : option Q;
  maxWidth : option Q;
  maxHeight : option Q;
  ctx : list Ctx.DrawCmd;
  canvasBorderPoints : option (list Position);
  img : Image;
  cornerRadius : Q;
  cornerColor : string;
  cropBoxColor : option string;
  backdropColor : string;
  minCropBoxWidth : Q;
  minCropBoxHeight : Q;
  move : Move;
  corners : option (list Position);
  selectedCornerIndex : Z;
  overlayCanvas : Canvas;
  overlayCtx : list Ctx.DrawCmd;
  cropBoxBorderWidth : Q;
  cropBoxBorderColor : string;
  initialCorners : option (list Position)
}.

(** Assignments to the fields that change after construction. *)

Definition set_canvas (v : Canvas) (s : Scanner) : Scanner :=
  {| parent := s.(parent); relativePostionedDiv := s.(relativePostionedDiv);
     canvas := v; width := s.(width); height := s.(height);
     maxWidth := s.(maxWidth); maxHeight := s.(maxHeight); ctx := s.(ctx);
     canvasBorderPoints := s.(canvasBorderPoints); img := s.(img);
     cornerRadius := s.(cornerRadius); cornerColor := s.(cornerColor);
     cropBoxColor := s.(cropBoxColor); backdropColor := s.(backdropColor);
     minCropBoxWidth := s.(minCropBoxWidth); minCropBoxHeight := s.(minCropBoxHeight);
     move := s.(move); corners := s.(corners);
     selectedCornerIndex := s.(selectedCornerIndex);
     overlayCanvas := s.(overlayCanvas); overlayCtx := s.(overlayCtx);
     cropBoxBorderWidth := s.(cropBoxBorderWidth);
     cropBoxBorderColor := s.(cropBoxBorderColor);
     initialCorners := s.(initialCorners) |}.

Definition set_overlayCanvas (v : Canvas) (s : Scanner) : Scanner :=
  {| parent := s.(parent); relativePostionedDiv := s.(relativePostionedDiv);
     canvas := s.(canvas); width := s.(width); height := s.(height);
     maxWidth := s.(maxWidth); maxHeight := s.(maxHeight); ctx := s.(ctx);
     canvasBorderPoints := s.(canvasBorderPoints); img := s.(img);
     cornerRadius := s.(cornerRadius); cornerColor := s.(cornerColor);
     cropBoxColor := s.(cropBoxColor); backdropColor := s.(backdropColor);
     minCropBoxWidth := s.(minCropBoxWidth); minCropBoxHeight := s.(minCropBoxHeight);
     move := s.(move); corners := s.(corners);
     selectedCornerIndex := s.(selectedCornerIndex);
     overlayCanvas := v; overlayCtx := s.(overlayCtx);
     cropBoxBorderWidth := s.(cropBoxBorderWidth);
     cropBoxBorderColor := s.(cropBoxBorderColor);
     initialCorners := s.(initialCorners) |}.

Definition set_ctx (v : list Ctx.DrawCmd) (s : Scanner) : Scanner :=
  {| parent := s.(parent); relativePostionedDiv := s.(relativePostionedDiv);
     canvas := s.(canvas); width := s.(width); height := s.(height);
     maxWidth := s.(maxWidth); maxHeight := s.(maxHeight); ctx := v;
     canvasBorderPoints := s.(canvasBorderPoints); img := s.(img);
     cornerRadius := s.(cornerRadius); cornerColor := s.(cornerColor);
     cropBoxColor := s.(cropBoxColor); backdropColor := s.(backdropColor);
     minCropBoxWidth := s.(minCropBoxWidth); minCropBoxHeight := s.(minCropBoxHeight);
     move := s.(move); corners := s.(corners);
     selectedCornerIndex := s.(selectedCornerIndex);
     overlayCanvas := s.(overlayCanvas); overlayCtx := s.(overlayCtx);
     cropBoxBorderWidth := s.(cropBoxBorderWidth);
     cropBoxBorderColor := s.(cropBoxBorderColor);
     initialCorners := s.(initialCorners) |}.

Definition set_overlayCtx (v : list Ctx.DrawCmd) (s : Scanner) : Scanner :=
  {| parent := s.(parent); relativePostionedDiv := s.(relativePostionedDiv);
     canvas := s.(canvas); width := s.(width); height := s.(height);
     maxWidth := s.(maxWidth); maxHeight := s.(maxHeight); ctx := s.(ctx);
     canvasBorderPoints := s.(canvasBorderPoints); img := s.(img);
     cornerRadius := s.(cornerRadius); cornerColor := s.(cornerColor);
     cropBoxColor := s.(cropBoxColor); backdropColor := s.(backdropColor);
     minCropBoxWidth := s.(minCropBoxWidth); minCropBoxHeight := s.(minCropBoxHeight);
     move := s.(move); corners := s.(corners);
     selectedCornerIndex := s.(selectedCornerIndex);
     overlayCanvas := s.(overlayCanvas); overlayCtx := v;
     cropBoxBorderWidth := s.(cropBoxBorderWidth);
     cropBoxBorderColor := s.(cropBoxBorderColor);
     initialCorners := s.(initialCorners) |}.

Definition set_canvasBorderPoints (v : option (list Position)) (s : Scanner) : Scanner :=
  {| parent := s.(parent); relativePostionedDiv := s.(relativePostionedDiv);
     canvas := s.(canvas); width := s.(width); height := s.(height);
     maxWidth := s.(maxWidth); maxHeight := s.(maxHeight); ctx := s.(ctx);
     canvasBorderPoints := v; img := s.(img);
     cornerRadius := s.(cornerRadius); cornerColor := s.(cornerColor);
     cropBoxColor := s.(cropBoxColor); backdropColor := s.(backdropColor);
     minCropBoxWidth := s.(minCropBoxWidth); minCropBoxHeight := s.(minCropBoxHeight);
     move := s.(move); corners := s.(corners);
     selectedCornerIndex := s.(selectedCornerIndex);
     overlayCanvas := s.(overlayCanvas); overlayCtx := s.(overlayCtx);
     cropBoxBorderWidth := s.(cropBoxBorderWidth);
     cropBoxBorderColor := s.(cropBoxBorderColor);
     initialCorners := s.(initialCorners) |}.

Definition set_img (v : Image) (s : Scanner) : Scanner :=
  {| parent := s.(parent); relativePostionedDiv := s.(relativePostionedDiv);
     canvas := s.(canvas); width := s.(width); height := s.(height);
     maxWidth := s.(maxWidth); maxHeight := s.(maxHeight); ctx := s.(ctx);
     canvasBorderPoints := s.(canvasBorderPoints); img := v;
     cornerRadius := s.(cornerRadius); cornerColor := s.(cornerColor);
     cropBoxColor := s.(cropBoxColor); backdropColor := s.(backdropColor);
     minCropBoxWidth := s.(minCropBoxWidth); minCropBoxHeight := s.(minCropBoxHeight);
     move := s.(move); corners := s.(corners);
     selectedCornerIndex := s.(selectedCornerIndex);
     overlayCanvas := s.(overlayCanvas); overlayCtx := s.(overlayCtx);
     cropBoxBorderWidth := s.(cropBoxBorderWidth);
     cropBoxBorderColor := s.(cropBoxBorderColor);
     initialCorners := s.(initialCorners) |}.

Definition set_move (v : Move) (s : Scanner) : Scanner :=
  {| parent := s.(parent); relativePostionedDiv := s.(relativePostionedDiv);
     canvas := s.(canvas); width := s.(width); height := s.(height);
     maxWidth := s.(maxWidth); maxHeight := s.(maxHeight); ctx := s.(ctx);
     canvasBorderPoints := s.(canvasBorderPoints); img := s.(img);
     cornerRadius := s.(cornerRadius); cornerColor := s.(cornerColor);
     cropBoxColor := s.(cropBoxColor); backdropColor := s.(backdropColor);
     minCropBoxWidth := s.(minCropBoxWidth); minCropBoxHeight := s.(minCropBoxHeight);
     move := v; corners := s.(corners);
     selectedCornerIndex := s.(selectedCornerIndex);
     overlayCanvas := s.(overlayCanvas); overlayCtx := s.(overlayCtx);
     cropBoxBorderWidth := s.(cropBoxBorderWidth);
     cropBoxBorderColor := s.(cropBoxBorderColor);
     initialCorners := s.(initialCorners) |}.

Definition set_corners (v : option (list Position)) (s : Scanner) : Scanner :=
  {| parent := s.(parent); relativePostionedDiv := s.(relativePostionedDiv);
     canvas := s.(canvas); width := s.(width); height := s.(height);
     maxWidth := s.(maxWidth); maxHeight := s.(maxHeight); ctx := s.(ctx);
     canvasBorderPoints := s.(canvasBorderPoints); img := s.(img);
     cornerRadius := s.(cornerRadius); cornerColor := s.(cornerColor);
     cropBoxColor := s.(cropBoxColor); backdropColor := s.(backdropColor);
     minCropBoxWidth := s.(minCropBoxWidth); minCropBoxHeight := s.(minCropBoxHeight);
     move := s.(move); corners := v;
     selectedCornerIndex := s.(selectedCornerIndex);
     overlayCanvas := s.(overlayCanvas); overlayCtx := s.(overlayCtx);
     cropBoxBorderWidth := s.(cropBoxBorderWidth);
     cropBoxBorderColor := s.(cropBoxBorderColor);
     initialCorners := s.(initialCorners) |}.

Definition set_selectedCornerIndex (v : Z) (s : Scanner) : Scanner :=
  {| parent := s.(parent); relativePostionedDiv := s.(relativePostionedDiv);
     canvas := s.(canvas); width := s.(width); height := s.(height);
     maxWidth := s.(maxWidth); maxHeight := s.(maxHeight); ctx := s.(ctx);
     canvasBorderPoints := s.(canvasBorderPoints); img := s.(img);
     cornerRadius := s.(cornerRadius); cornerColor := s.(cornerColor);
     cropBoxColor := s.(cropBoxColor); backdropColor := s.(backdropColor);
     minCropBoxWidth := s.(minCropBoxWidth); minCropBoxHeight := s.(minCropBoxHeight);
     move := s.(move); corners := s.(corners);
     selectedCornerIndex := v;
     overlayCanvas := s.(overlayCanvas); overlayCtx := s.(overlayCtx);
     cropBoxBorderWidth := s.(cropBoxBorderWidth);
     cropBoxBorderColor := s.(cropBoxBorderColor);
     initialCorners := s.(initialCorners) |}.

Definition set_size (w h : Q) (c : Canvas) : Canvas :=
  {| el := c.(el); el_width := w; el_height := h;
     style_padding := c.(style_padding);
     style_width := c.(style_width); style_height := c.(style_height) |}.

Definition set_style_size (w h : Q) (c : Canvas) : Canvas :=
  {| el := c.(el); el_width := c.(el_width); el_height := c.(el_height);
     style_padding := c.(style_padding);
     style_width := Some w; style_height := Some h |}.

Definition set_style_padding (p : Q) (c : Canvas) : Canvas :=
  {| el := c.(el); el_width := c.(el_width); el_height := c.(el_height);
     style_padding := Some p;
     style_width := c.(style_width); style_height := c.(style_height) |}.

(** ** constructor *)

Definition keep_truthy (o : option Q) : option Q :=
  if truthy_opt o then o else None.

Definition constructor (options : ScannerOptions) (w : World) : outcome Scanner * World :=
  let cornerRadius' := default 12 options.(opt_cornerRadius) in
  let cornerColor' := default "lightgreen"%string options.(opt_cornerColor) in
  let cropBoxColor' := value_of options.(opt_cropBoxColor) in
  let backdropColor' :=
    default "rgba(0, 0, 0, 0.5)"%string (value_of options.(opt_backdropColor)) in
  let cropBoxBorderWidth' := default 1 options.(opt_cropBoxBorderWidth) in
  let cropBoxBorderColor' :=
    default "rgba(255, 255, 255)"%string options.(opt_cropBoxBorderColor) in
  if has_key options.(opt_backdropColor) && has_key options.(opt_cropBoxColor) then
    (Throw (Error "Only one of backdropColor or cropBoxColor is to be set."), w)
  else if truthy_opt options.(opt_width) && truthy_opt options.(opt_maxWidth) then
    (Throw (Error "Only one of width or maxWidth is to be set."), w)
  else if truthy_opt options.(opt_height) && truthy_opt options.(opt_maxHeight) then
    (Throw (Error "Only one of height or maxHeight is to be set."), w)
  else
    let '(img', w) := createElement w in
    let '(canvas', w) := createElement w in
    let '(relativePostionedDiv', w) := createElement w in
    let '(overlayCanvas', w) := createElement w in
    let w := listen overlayCanvas' touchstart HTouchStart w in
    let w := listen overlayCanvas' touchmove HTouchMove w in
    let w := listen overlayCanvas' touchend HTouchEnd w in
    let w := listen overlayCanvas' mousedown HMouseDown w in
    let w := listen overlayCanvas' mousemove HMouseMove w in
    let w := listen overlayCanvas' mouseup HTouchEnd w in
    let w := appendChild relativePostionedDiv' canvas' w in
    let w := appendChild relativePostionedDiv' overlayCanvas' w in
    let w := appendChild options.(opt_parent) relativePostionedDiv' w in
    (Normal
       {| parent := options.(opt_parent);
          relativePostionedDiv := relativePostionedDiv';
          canvas := set_style_padding cornerRadius' (new_canvas canvas');
          width := keep_truthy options.(opt_width);
          height := keep_truthy options.(opt_height);
          maxWidth := keep_truthy options.(opt_maxWidth);
          maxHeight := keep_truthy options.(opt_maxHeight);
          ctx := [];
          canvasBorderPoints := None;
          img := {| img_el := img'; src := None; crossOrigin := None;
                    naturalWidth := 0; naturalHeight := 0;
                    onload := false; onerror := false |};
          cornerRadius := cornerRadius';
          cornerColor := cornerColor';
          cropBoxColor := cropBoxColor';
          backdropColor := backdropColor';
          minCropBoxWidth := default 100 options.(opt_minCropBoxWidth);
          minCropBoxHeight := default 100 options.(opt_minCropBoxHeight);
          move := {| active := false; prevTouch := {| x := 0; y := 0 |} |};
          corners := None;
          selectedCornerIndex := (-1)%Z;
          overlayCanvas := new_canvas overlayCanvas';
          overlayCtx := [];
          cropBoxBorderWidth := cropBoxBorderWidth';
          cropBoxBorderColor := cropBoxBorderColor';
          initialCorners := options.(opt_initialCorners) |},
     w).

(** ** Layout: #initializeCanvasDimensions *)

(** The array literal that each branch assigns to [#canvasBorderPoints]:
    the rectangle of width [cw] and height [ch] moved by [r] in both axes,
    clockwise from the top-left corner. *)
Definition borderPoints (r cw ch : Q) : list Position :=
  [ {| x := r; y := r |};
    {| x := cw + r; y := r |};
    {| x := cw + r; y := ch + r |};
    {| x := r; y := ch + r |} ].

(** The width and height that the four branches give to the canvas, and
    whether the last branch warns. *)
Definition resolveDimensions (s : Scanner) : Q * Q * bool :=
  let nW := s.(img).(naturalWidth) in
  let nH := s.(img).(naturalHeight) in
  if truthy_opt s.(width) && negb (truthy_opt s.(height)) then
    let width' := default 0 s.(width) in
    let cw := width' in
    let ch := Math_floor ((width' / nW) * nH) in
    if truthy_opt s.(maxHeight) && gt_num ch (default 0 s.(maxHeight)) then
      let maxHeight' := default 0 s.(maxHeight) in
      (Math_floor ((maxHeight' / nH) * nW), maxHeight', false)
    else (cw, ch, false)
  else if truthy_opt s.(height) && negb (truthy_opt s.(width)) then
    let height' := default 0 s.(height) in
    let cw := Math_floor ((height' / nH) * nW) in
    let ch := height' in
    if truthy_opt s.(maxWidth) && gt_num cw (default 0 s.(maxWidth)) then
      let maxWidth' := default 0 s.(maxWidth) in
      (maxWidth', Math_floor ((maxWidth' / nW) * nH), false)
    else (cw, ch, false)
  else if truthy_opt s.(width) && truthy_opt s.(height) then
    (default 0 s.(width), default 0 s.(height), false)
  else
    (nW, nH, truthy_opt s.(maxWidth) && truthy_opt s.(maxHeight)).

Definition maxIgnoredWarning : string :=
  "maxWidth and maxHeight are ignored when both width and height are not set. Image will be rendered in its original size.".

Definition initializeCanvasDimensions (s : Scanner) (w : World) : Scanner * World :=
  let '(cw, ch, warn) := resolveDimensions s in
  let w := if warn then set_console (w.(console) ++ [maxIgnoredWarning]) w else w in
  let r := s.(cornerRadius) in
  (* canvas.width = x; canvas.height = y; #canvasBorderPoints = [...] *)
  let c := set_size cw ch s.(canvas) in
  let s := set_canvasBorderPoints (Some (borderPoints r cw ch)) (set_canvas c s) in
  (* canvas.style.width / height *)
  let c := set_style_size c.(el_width) c.(el_height) c in
  (* overlayCanvas.width / height *)
  let o := set_size (c.(el_width) + 2 * r) (c.(el_height) + 2 * r) s.(overlayCanvas) in
  (* canvas.width / height scaled by the pixel ratio *)
  let c := set_size (c.(el_width) * w.(devicePixelRatio))
                    (c.(el_height) * w.(devicePixelRatio)) c in
  (set_overlayCanvas o (set_canvas c s), w).

(** ** #initializeCorners *)

Definition initializeCorners (initialCorners' : option (list Position))
    (s : Scanner) (w : World) : Scanner :=
  let dpr := w.(devicePixelRatio) in
  let r := s.(cornerRadius) in
  let cw := s.(canvas).(el_width) in
  let ch := s.(canvas).(el_height) in
  match initialCorners' with
  | Some cs =>
      set_corners
        (Some (map (fun corner =>
                      {| x := ((corner.(x) / 100) * cw) / dpr + r;
                         y := ((corner.(y) / 100) * ch) / dpr + r |}) cs)) s
  | None =>
      set_corners
        (Some [ {| x := r; y := r |};
                {| x := cw / dpr + r; y := r |};
                {| x := cw / dpr + r; y := ch / dpr + r |};
                {| x := r; y := ch / dpr + r |} ]) s
  end.

(** ** Rendering: #drawImage, #drawCropBox *)

Definition drawImage (s : Scanner) : Scanner :=
  set_ctx (s.(ctx) ++ [Ctx.drawImage s.(canvas).(el_width) s.(canvas).(el_height)]) s.

Definition emit (cmds : list Ctx.DrawCmd) (s : Scanner) : Scanner :=
  set_overlayCtx (s.(overlayCtx) ++ cmds) s.

(** The polygon through the corners: [moveTo] the first, [lineTo] the others,
    [closePath]. *)
Definition polygon (c0 : Position) (rest : list Position) : list Ctx.DrawCmd :=
  Ctx.moveTo c0.(x) c0.(y) :: map (fun c => Ctx.lineTo c.(x) c.(y)) rest ++ [Ctx.closePath].

(** [#drawCropBox()]: throws a [TypeError] at [this.#corners[0].x] when there
    are no corners; the calls made before stay made. *)
Definition drawCropBox (s : Scanner) (w : World) : outcome unit * Scanner :=
  let r := s.(cornerRadius) in
  let s := emit [Ctx.clearRect 0 0 s.(overlayCanvas).(el_width) s.(overlayCanvas).(el_height)] s in
  let s :=
    if negb (truthy_str s.(cropBoxColor)) then
      emit [ Ctx.setFillStyle s.(backdropColor);
             Ctx.fillRect r r (s.(canvas).(el_width) / w.(devicePixelRatio))
                          (s.(canvas).(el_height) / w.(devicePixelRatio));
             Ctx.setGlobalCompositeOperation "destination-out" ] s
    else emit [Ctx.setFillStyle (default EmptyString s.(cropBoxColor))] s in
  let s := emit [ Ctx.setStrokeStyle s.(cropBoxBorderColor);
                  Ctx.setLineWidth s.(cropBoxBorderWidth);
                  Ctx.beginPath ] s in
  match s.(corners) with
  | Some (c0 :: rest) =>
      let s := emit (polygon c0 rest) s in
      let s := emit [ Ctx.fill; Ctx.setGlobalCompositeOperation "source-over"; Ctx.stroke;
                      Ctx.setFillStyle s.(cornerColor) ] s in
      let s := emit (flat_map (fun corner =>
                                 [Ctx.beginPath; Ctx.arc corner.(x) corner.(y) r; Ctx.fill])
                              (c0 :: rest)) s in
      let s := emit (Ctx.beginPath :: polygon c0 rest) s in
      let s := emit [Ctx.stroke] s in
      (Normal tt, s)
  | _ => (Throw TypeError, s)
  end.

(** ** Interaction *)

Record PointerEvent : Type := { clientX : Q; clientY : Q }.

(** [a[i]] followed by a property access: a [TypeError] when [a] is
    [undefined] or has no element [i]. *)
Definition at_index (a : list Position) (i : nat) : outcome Position :=
  match nth_error a i with Some p => Normal p | None => Throw TypeError end.

Definition corner_at (a : option (list Position)) (i : nat) : outcome Position :=
  match a with Some l => at_index l i | None => Throw TypeError end.

Fixpoint mapi_from {A B} (f : nat -> A -> B) (i : nat) (l : list A) : list B :=
  match l with
  | [] => []
  | a :: l' => f i a :: mapi_from f (S i) l'
  end.

Fixpoint update_at {A} (i : nat) (f : A -> A) (l : list A) : list A :=
  match l, i with
  | [], _ => []
  | a :: l', O => f a :: l'
  | a :: l', S j => a :: update_at j f l'
  end.

(** One side of the test in [#isPointOnBorder]: [point] is on the segment
    from [borderPoint1] to [borderPoint2]. *)
Definition onSegment (point borderPoint1 borderPoint2 : Position) : bool :=
  strict_eq ((point.(y) - borderPoint1.(y)) * (borderPoint2.(x) - borderPoint1.(x)))
            ((borderPoint2.(y) - borderPoint1.(y)) * (point.(x) - borderPoint1.(x)))
  && ge_num point.(x) (Math_min borderPoint1.(x) borderPoint2.(x))
  && le_num point.(x) (Math_max borderPoint1.(x) borderPoint2.(x))
  && ge_num point.(y) (Math_min borderPoint1.(y) borderPoint2.(y))
  && le_num point.(y) (Math_max borderPoint1.(y) borderPoint2.(y)).

Definition origin : Position := {| x := 0; y := 0 |}.

(** [#isPointOnBorder(point, borderPoints)]: the indices [i] and
    [(i + 1) % length] are always within the array. *)
Definition isPointOnBorder (point : Position) (borderPoints' : list Position) : bool :=
  existsb
    (fun i => onSegment point (nth i borderPoints' origin)
                (nth ((i + 1) mod List.length borderPoints') borderPoints' origin))
    (seq 0 (List.length borderPoints')).

(** [#cropBoxIsTooSmall(corners)]: the disjunction is evaluated left to
    right and stops at the first true side. *)
Definition cropBoxIsTooSmall (corners' : list Position) (s : Scanner) : outcome bool :=
  obind (at_index corners' 1) (fun c1 =>
  obind (at_index corners' 0) (fun c0 =>
  if lt_num (c1.(x) - c0.(x)) s.(minCropBoxWidth) then Normal true else
  obind (at_index corners' 2) (fun c2 =>
  obind (at_index corners' 3) (fun c3 =>
  if lt_num (c2.(x) - c3.(x)) s.(minCropBoxWidth) then Normal true else
  if lt_num (c3.(y) - c0.(y)) s.(minCropBoxHeight) then Normal true else
  Normal (lt_num (c2.(y) - c1.(y)) s.(minCropBoxHeight)))))).

(** The position that both drags store: each coordinate is kept between
    [#cornerRadius] and the overlay size less [#cornerRadius]. *)
Definition clampX (s : Scanner) (v : Q) : Q :=
  Math_max s.(cornerRadius) (Math_min v (s.(overlayCanvas).(el_width) - s.(cornerRadius))).

Definition clampY (s : Scanner) (v : Q) : Q :=
  Math_max s.(cornerRadius) (Math_min v (s.(overlayCanvas).(el_height) - s.(cornerRadius))).

Definition set_prevTouch (touchX touchY : Q) (s : Scanner) : Scanner :=
  set_move {| active := s.(move).(active);
              prevTouch := {| x := touchX; y := touchY |} |} s.

Definition set_active (b : bool) (s : Scanner) : Scanner :=
  set_move {| active := b; prevTouch := s.(move).(prevTouch) |} s.

(** The array [translatedCorners] of [#moveCropBox]. *)
Definition translatedCorners (touchX touchY : Q) (s : Scanner) (cs : list Position)
  : list Position :=
  let dx := touchX - s.(move).(prevTouch).(x) in
  let dy := touchY - s.(move).(prevTouch).(y) in
  map (fun c => {| x := clampX s (c.(x) + dx); y := clampY s (c.(y) + dy) |}) cs.

Definition moveCropBox (touchX touchY : Q) (s : Scanner) (w : World)
  : outcome unit * Scanner :=
  match s.(corners) with
  | None => (Throw TypeError, s)
  | Some cs =>
      let translated := translatedCorners touchX touchY s cs in
      match translated, s.(canvasBorderPoints) with
      | _ :: _, None => (Throw TypeError, s)
      | _, border =>
          let movable :=
            negb (existsb (fun t => isPointOnBorder t (default [] border)) translated) in
          let s := if movable then set_corners (Some translated) s else s in
          let s := set_prevTouch touchX touchY s in
          drawCropBox s w
      end
  end.

(** [#handleTouchEnd()] *)
Definition handleTouchEnd (s : Scanner) : Scanner :=
  set_selectedCornerIndex (-1)%Z (set_active false s).

Definition afterTouchMove (touchX touchY : Q) (s : Scanner) (w : World)
  : outcome unit * Scanner :=
  if s.(move).(active) then moveCropBox touchX touchY s w
  else if negb (Z.eqb s.(selectedCornerIndex) (-1)) then
    match s.(corners) with
    | None => (Throw TypeError, s)
    | Some cs =>
        let points :=
          mapi_from (fun i c =>
                       if Z.eqb (Z.of_nat i) s.(selectedCornerIndex)
                       then {| x := touchX; y := touchY |} else c) 0 cs in
        match cropBoxIsTooSmall points s with
        | Throw e => (Throw e, s)
        | Normal true => (Normal tt, s)
        | Normal false =>
            if (0 <=? s.(selectedCornerIndex))%Z
               && (Z.to_nat s.(selectedCornerIndex) <? List.length cs)%nat then
              let cs' :=
                update_at (Z.to_nat s.(selectedCornerIndex))
                  (fun _ => {| x := clampX s touchX; y := clampY s touchY |}) cs in
              drawCropBox (set_corners (Some cs') s) w
            else (Throw TypeError, s)
        end
    end
  else (Normal tt, s).

Definition handleTouchMove (event : PointerEvent) (s : Scanner) (w : World)
  : outcome unit * Scanner :=
  afterTouchMove (event.(clientX) - w.(clientRect).(rect_left))
                 (event.(clientY) - w.(clientRect).(rect_top)) s w.

Definition handleMouseMove (event : PointerEvent) (s : Scanner) (w : World)
  : outcome unit * Scanner :=
  afterTouchMove (event.(clientX) - w.(clientRect).(rect_left))
                 (event.(clientY) - w.(clientRect).(rect_top)) s w.

(** A fulfilled or rejected promise; [reject] is called with a string. *)
Inductive Reason : Type :=
| thrown (e : Exn)
| message (m : string).

Inductive Promise (A : Type) : Type :=
| fulfilled (a : A)
| rejected (r : Reason).
Arguments fulfilled {A} a.
Arguments rejected {A} r.

(** A canvas that is not the instance's: the one [#applyPerspectiveTransform]
    makes and returns. *)
Record OutputCanvas (Mat : Type) : Type := {
  out_el : node;
  out_width : Q;
  out_height : Q;
  pixels : option Mat
}.

Record File (Blob : Type) : Type := { bits : Blob; name : string }.

(** What the class uses of the platform: the hit test of the 2D context
    ([isPointInPath], on the polygon through the given points), the square
    root, the imaging engine (opencv-ts) and the raster encoders of the
    canvas. *)
Record Platform : Type := {
  isPointInPath : list Position -> Q -> Q -> bool;
  Math_sqrt : Q -> Q;
  Mat : Type;
  Transform : Type;
  Blob : Type;
  getImageData : list Ctx.DrawCmd -> Q -> Q -> Mat;
  getPerspectiveTransform : list Q -> list Q -> Transform;
  warpPerspective : Mat -> Transform -> Q * Q -> Mat;
  cols : Mat -> Q;
  rows : Mat -> Q;
  imshow : OutputCanvas Mat -> Mat -> OutputCanvas Mat;
  toDataURL : OutputCanvas Mat -> string;
  toBlob : OutputCanvas Mat -> option Blob
}.

Section Platform.

Variable P : Platform.

Definition touchOffset : Q := 30.

(** [#isTouchInsideCropBox]: builds the inset polygon on the overlay context
    and asks the platform. *)
Definition isTouchInsideCropBox (touchX touchY : Q) (s : Scanner)
  : outcome bool * Scanner :=
  let s := emit [Ctx.beginPath] s in
  match corner_at s.(corners) 0 with
  | Throw e => (Throw e, s)
  | Normal c0 =>
  let p0 := {| x := c0.(x) + touchOffset; y := c0.(y) + touchOffset |} in
  let s := emit [Ctx.moveTo p0.(x) p0.(y)] s in
  match corner_at s.(corners) 1 with
  | Throw e => (Throw e, s)
  | Normal c1 =>
  let p1 := {| x := c1.(x) - touchOffset; y := c1.(y) + touchOffset |} in
  let s := emit [Ctx.lineTo p1.(x) p1.(y)] s in
  match corner_at s.(corners) 2 with
  | Throw e => (Throw e, s)
  | Normal c2 =>
  let p2 := {| x := c2.(x) - touchOffset; y := c2.(y) - touchOffset |} in
  let s := emit [Ctx.lineTo p2.(x) p2.(y)] s in
  match corner_at s.(corners) 3 with
  | Throw e => (Throw e, s)
  | Normal c3 =>
  let p3 := {| x := c3.(x) + touchOffset; y := c3.(y) - touchOffset |} in
  let s := emit [Ctx.lineTo p3.(x) p3.(y); Ctx.closePath] s in
  (Normal (P.(isPointInPath) [p0; p1; p2; p3] touchX touchY), s)
  end end end end.

(** The loop of [#getSelectedCornerIndex], from index [i] on. *)
Fixpoint firstCornerWithin (mouseX mouseY radius : Q) (cs : list Position) (i : Z) : Z :=
  match cs with
  | [] => (-1)%Z
  | corner :: rest =>
      let distance :=
        P.(Math_sqrt) ((mouseX - corner.(x)) ^ 2 + (mouseY - corner.(y)) ^ 2) in
      if le_num distance radius then i
      else firstCornerWithin mouseX mouseY radius rest (i + 1)%Z
  end.

Definition getSelectedCornerIndex (mouseX mouseY : Q) (s : Scanner) : outcome Z :=
  match s.(corners) with
  | None => Throw TypeError
  | Some cs => Normal (firstCornerWithin mouseX mouseY s.(cornerRadius) cs 0%Z)
  end.

Definition afterTouchStart (touchX touchY : Q) (s : Scanner) : outcome unit * Scanner :=
  match isTouchInsideCropBox touchX touchY s with
  | (Throw e, s) => (Throw e, s)
  | (Normal inside, s) =>
      if inside && negb s.(move).(active) then
        (Normal tt, set_prevTouch touchX touchY (set_active true s))
      else
        match getSelectedCornerIndex touchX touchY s with
        | Throw e => (Throw e, s)
        | Normal i => (Normal tt, set_selectedCornerIndex i s)
        end
  end.

Definition handleTouchStart (event : PointerEvent) (s : Scanner) (w : World)
  : outcome unit * Scanner :=
  afterTouchStart (event.(clientX) - w.(clientRect).(rect_left))
                  (event.(clientY) - w.(clientRect).(rect_top)) s.

Definition handleMouseDown (event : PointerEvent) (s : Scanner) (w : World)
  : outcome unit * Scanner :=
  afterTouchStart (event.(clientX) - w.(clientRect).(rect_left))
                  (event.(clientY) - w.(clientRect).(rect_top)) s.

(** ** Crop execution: #applyPerspectiveTransform *)

(** The size handed to the engine, [dsize]. *)
Definition dsize (p0 p1 p2 p3 : Position) (w : World) : Q * Q :=
  (Math_max
     (P.(Math_sqrt) ((p0.(x) - p1.(x)) ^ 2 + (p0.(y) - p1.(y)) ^ 2))
     (P.(Math_sqrt) ((p2.(x) - p3.(x)) ^ 2 + (p2.(y) - p3.(y)) ^ 2))
   * w.(devicePixelRatio),
   Math_max
     (P.(Math_sqrt) ((p1.(x) - p2.(x)) ^ 2 + (p1.(y) - p2.(y)) ^ 2))
     (P.(Math_sqrt) ((p3.(x) - p0.(x)) ^ 2 + (p3.(y) - p0.(y)) ^ 2))
   * w.(devicePixelRatio)).

(** The source points in the backing store, [srcTri], as a flat array. *)
Definition srcTri (points : list Position) (s : Scanner) (w : World) : list Q :=
  flat_map
    (fun point =>
       [ ((point.(x) - s.(cornerRadius))
          / (s.(canvas).(el_width) / w.(devicePixelRatio))) * s.(canvas).(el_width);
         ((point.(y) - s.(cornerRadius))
          / (s.(canvas).(el_height) / w.(devicePixelRatio))) * s.(canvas).(el_height) ])
    points.

(** The destination corners, [dstTri], as a flat array. *)
Definition dstTri (size : Q * Q) : list Q :=
  [0; 0; fst size; 0; fst size; snd size; 0; snd size].

Definition applyPerspectiveTransform (points : option (list Position))
    (s : Scanner) (w : World) : outcome (OutputCanvas P.(Mat)) * Scanner * World :=
  let src' := P.(getImageData) s.(ctx) s.(canvas).(el_width) s.(canvas).(el_height) in
  match points with
  | Some (p0 :: p1 :: p2 :: p3 :: rest) =>
      let size := dsize p0 p1 p2 p3 w in
      let M := P.(getPerspectiveTransform)
                 (srcTri (p0 :: p1 :: p2 :: p3 :: rest) s w) (dstTri size) in
      let dst := P.(warpPerspective) src' M size in
      let '(n, w) := createElement w in
      let tempCanvas :=
        {| out_el := n;
           out_width := P.(cols) dst * w.(devicePixelRatio);
           out_height := P.(rows) dst * w.(devicePixelRatio);
           pixels := None |} in
      (Normal (P.(imshow) tempCanvas dst), s, w)
  | _ => (Throw TypeError, s, w)
  end.

(** ** Public methods *)

Definition loadImg (imgSrc : string) (s : Scanner) : Scanner :=
  set_img {| img_el := s.(img).(img_el); src := Some imgSrc;
             crossOrigin := Some "anonymous"%string;
             naturalWidth := s.(img).(naturalWidth);
             naturalHeight := s.(img).(naturalHeight);
             onload := true; onerror := true |} s.

(** The closure that [loadImg] stores in [img.onload]. *)
Definition img_onload (s : Scanner) (w : World) : outcome unit * Scanner * World :=
  let '(s, w) := initializeCanvasDimensions s w in
  let s := initializeCorners s.(initialCorners) s w in
  let s := drawImage s in
  let '(r, s) := drawCropBox s w in
  (r, s, w).

(** The closure that [loadImg] stores in [img.onerror]. *)
Definition img_onerror (s : Scanner) : outcome unit * Scanner :=
  (Throw (Error "Error loading image."), s).

Definition crop (s : Scanner) (w : World) : outcome string * Scanner * World :=
  match applyPerspectiveTransform s.(corners) s w with
  | (Normal croppedCanvas, s, w) => (Normal (P.(toDataURL) croppedCanvas), s, w)
  | (Throw e, s, w) => (Throw e, s, w)
  end.

Definition getBlob (s : Scanner) (w : World) : outcome (Promise P.(Blob)) * Scanner * World :=
  match applyPerspectiveTransform s.(corners) s w with
  | (Normal croppedCanvas, s, w) =>
      match P.(toBlob) croppedCanvas with
      | Some blob => (Normal (fulfilled blob), s, w)
      | None => (Normal (rejected (message "Error getting blob.")), s, w)
      end
  | (Throw e, s, w) => (Normal (rejected (thrown e)), s, w)
  end.

Definition getFile (s : Scanner) (w : World) : outcome (Promise (File P.(Blob))) * Scanner * World :=
  match applyPerspectiveTransform s.(corners) s w with
  | (Normal croppedCanvas, s, w) =>
      match P.(toBlob) croppedCanvas with
      | Some blob =>
          (Normal (fulfilled {| bits := blob; name := "cropped-image.png" |}), s, w)
      | None => (Normal (rejected (message "Error getting file.")), s, w)
      end
  | (Throw e, s, w) => (Normal (rejected (thrown e)), s, w)
  end.

Definition getCanvas (s : Scanner) (w : World) : outcome Canvas * Scanner * World :=
  (Normal s.(canvas), s, w).

Definition destroy (s : Scanner) (w : World) : outcome unit * Scanner * World :=
  let o := s.(overlayCanvas).(el) in
  let w := removeEventListener o touchstart (MethodOf HTouchStart) w in
  let w := removeEventListener o touchmove (MethodOf HTouchMove) w in
  let w := removeEventListener o touchend (MethodOf HTouchEnd) w in
  let w := removeEventListener o mousedown (MethodOf HMouseDown) w in
  let w := removeEventListener o mousemove (MethodOf HMouseMove) w in
  let w := removeEventListener o mouseup (MethodOf HTouchEnd) w in
  let '(r, w) := removeChild s.(parent) s.(relativePostionedDiv) w in
  (r, s, w).

(** ** The instance in the browser: events *)

(** The body of a registered handler. *)
Definition run (h : Handler) (event : PointerEvent) (s : Scanner) (w : World)
  : outcome unit * Scanner :=
  match h with
  | HTouchStart => handleTouchStart event s w
  | HTouchMove => handleTouchMove event s w
  | HTouchEnd => (Normal tt, handleTouchEnd s)
  | HMouseDown => handleMouseDown event s w
  | HMouseMove => handleMouseMove event s w
  end.

(** Calling a listener.  A bound function runs the method on the instance;
    the method itself, called by the browser, has the canvas as [this] and
    fails at its first private field. *)
Definition invoke (f : FnRef) (event : PointerEvent) (s : Scanner) (w : World)
  : outcome unit * Scanner :=
  match f with
  | BoundFn _ h => run h event s w
  | MethodOf _ => (Throw TypeError, s)
  end.

(** The listeners run in the order of registration; an exception of one is
    reported and does not stop the others. *)
Fixpoint invokeAll (ls : list Listener) (event : PointerEvent) (s : Scanner) (w : World)
  : Scanner :=
  match ls with
  | [] => s
  | l :: ls' => invokeAll ls' event (snd (invoke l.(callback) event s w)) w
  end.

Definition dispatchEvent (ty : EventType) (event : PointerEvent) (s : Scanner) (w : World)
  : Scanner :=
  invokeAll
    (filter (fun l => Nat.eqb l.(target) s.(overlayCanvas).(el)
                      && EventType_eqb l.(type) ty) w.(listeners))
    event s w.

(** What can happen to an instance: calls of its public methods, and events
    of the browser. *)
Inductive Event : Type :=
| call_loadImg (imgSrc : string)
| img_load (naturalWidth' naturalHeight' : Q)
| img_error
| pointer (ty : EventType) (event : PointerEvent)
| call_crop
| call_getBlob
| call_getFile
| call_getCanvas
| call_destroy.

Definition set_natural (nw nh : Q) (s : Scanner) : Scanner :=
  set_img {| img_el := s.(img).(img_el); src := s.(img).(src);
             crossOrigin := s.(img).(crossOrigin);
             naturalWidth := nw; naturalHeight := nh;
             onload := s.(img).(onload); onerror := s.(img).(onerror) |} s.

Definition step (e : Event) (st : Scanner * World) : Scanner * World :=
  let '(s, w) := st in
  match e with
  | call_loadImg imgSrc => (loadImg imgSrc s, w)
  | img_load nw nh =>
      if s.(img).(onload) then
        let '(_, s, w) := img_onload (set_natural nw nh s) w in (s, w)
      else (s, w)
  | img_error => (s, w)
  | pointer ty event => (dispatchEvent ty event s w, w)
  | call_crop => let '(_, s, w) := crop s w in (s, w)
  | call_getBlob => let '(_, s, w) := getBlob s w in (s, w)
  | call_getFile => let '(_, s, w) := getFile s w in (s, w)
  | call_getCanvas => let '(_, s, w) := getCanvas s w in (s, w)
  | call_destroy => let '(_, s, w) := destroy s w in (s, w)
  end.

Definition run_events (es : list Event) (st : Scanner * World) : Scanner * World :=
  fold_left (fun st e => step e st) es st.

(** The states an instance made by [constructor] can be in. *)
Inductive reachable (options : ScannerOptions) (w0 : World) : Scanner * World -> Prop :=
| reach_new s w :
    constructor options w0 = (Normal s, w) -> reachable options w0 (s, w)
| reach_step e st :
    reachable options w0 st -> reachable options w0 (step e st).

End Platform.

(** * The machine: doubles and integer attributes

    The definitions above compute with exact rationals and keep the size of
    a canvas as it is assigned.  The ones of this part follow the source on
    the machine it runs on.
    - A [number] is a double: a rational that the format holds.  Every
      [+], [-], [*] and [/] of the source is the exact operation followed by
      the rounding of the platform ([round]); comparisons, [Math.max],
      [Math.min] and [Math.floor] are exact.  The operator [**] is a
      function of the platform.  Overflow, underflow, [NaN] and the
      infinities stay outside the model.
    - The [width] and [height] of a canvas element are [unsigned long]
      attributes: a number assigned to one is converted on the way in, and
      the source reads the converted value back.
    The theorems of this part hold for every rounding; what they say of the
    doubles of JavaScript is computed with [binary64]. *)

(** ** Doubles *)

(** The integer nearest to [n / d], for [d > 0]; a tie goes to the even
    one. *)
Definition round_half_even (n d : Z) : Z :=
  let q := (n / d)%Z in
  match (2 * (n mod d) ?= d)%Z with
  | Lt => q
  | Gt => (q + 1)%Z
  | Eq => if Z.even q then q else (q + 1)%Z
  end.

(** [a / d] divided by [2 ^ e], as a fraction of integers. *)
Definition scaled (a d e : Z) : Z * Z :=
  if (0 <=? e)%Z then (a, (d * 2 ^ e)%Z) else ((a * 2 ^ (- e))%Z, d).

(** Rounding to the nearest number with a significand of 53 bits, ties to
    even: the rounding of IEEE 754 binary64 where it neither overflows nor
    underflows. *)
Definition binary64 (q : Q) : Q :=
  let q := Qred q in
  let n := Qnum q in
  let d := Zpos (Qden q) in
  if (n =? 0)%Z then 0
  else
    let a := Z.abs n in
    let e0 := (Z.log2 a - Z.log2 d - 52)%Z in
    let e := if (fst (scaled a d e0) <? 2 ^ 52 * snd (scaled a d e0))%Z
             then (e0 - 1)%Z else e0 in
    let m := round_half_even (fst (scaled a d e)) (snd (scaled a d e)) in
    let v := if (0 <=? e)%Z then inject_Z (m * 2 ^ e)
             else Qmake m (Z.to_pos (2 ^ (- e))) in
    Qred (if (n <? 0)%Z then - v else v).

(** What the machine model takes of the number arithmetic of the platform. *)
Record Arithmetic : Type := {
  round : Q -> Q;
  exponentiate : Q -> Q -> Q
}.

(** The doubles of JavaScript; the source uses [**] with the exponent [2]
    only. *)
Definition double : Arithmetic :=
  {| round := binary64;
     exponentiate := fun a b => binary64 (Qpower a (Qfloor b)) |}.

(** Assigning [v] to an [unsigned long] attribute that reflects a content
    attribute with default [dflt], and reading it back: the integer part,
    modulo [2 ^ 32], and the default when that is above [2 ^ 31 - 1]. *)
Definition unsignedLong (dflt v : Q) : Q :=
  let m := (Z.quot (Qnum v) (Zpos (Qden v)) mod 4294967296)%Z in
  if (m <=? 2147483647)%Z then inject_Z m else dflt.

(** [canvas.width = w; canvas.height = h], on a canvas element. *)
Definition assign_size (w h : Q) (c : Canvas) : Canvas :=
  set_size (unsignedLong 300 w) (unsignedLong 150 h) c.

Module Machine.
Section Machine.

Variable P : Platform.
Variable A : Arithmetic.

Definition add (a b : Q) : Q := A.(round) (a + b).
Definition sub (a b : Q) : Q := A.(round) (a - b).
Definition mul (a b : Q) : Q := A.(round) (a * b).
Definition div (a b : Q) : Q := A.(round) (a / b).

(** *** #initializeCanvasDimensions *)

(** The local variables [x] and [y] of the four branches, and whether the
    last one warns. *)
Definition resolveDimensions (s : Scanner) : Q * Q * bool :=
  let nW := s.(img).(naturalWidth) in
  let nH := s.(img).(naturalHeight) in
  if truthy_opt s.(width) && negb (truthy_opt s.(height)) then
    let width' := default 0 s.(width) in
    let lh := Math_floor (mul (div width' nW) nH) in
    if truthy_opt s.(maxHeight) && gt_num lh (default 0 s.(maxHeight)) then
      let maxHeight' := default 0 s.(maxHeight) in
      (Math_floor (mul (div maxHeight' nH) nW), maxHeight', false)
    else (width', lh, false)
  else if truthy_opt s.(height) && negb (truthy_opt s.(width)) then
    let height' := default 0 s.(height) in
    let lw := Math_floor (mul (div height' nH) nW) in
    if truthy_opt s.(maxWidth) && gt_num lw (default 0 s.(maxWidth)) then
      let maxWidth' := default 0 s.(maxWidth) in
      (maxWidth', Math_floor (mul (div maxWidth' nW) nH), false)
    else (lw, height', false)
  else if truthy_opt s.(width) && truthy_opt s.(height) then
    (default 0 s.(width), default 0 s.(height), false)
  else
    (nW, nH, truthy_opt s.(maxWidth) && truthy_opt s.(maxHeight)).

(** The array literal that each branch assigns to [#canvasBorderPoints],
    from the numbers [lw] and [lh] of the branch as they are (not from the
    size that the canvas took of them). *)
Definition borderPoints (r lw lh : Q) : list Position :=
  [ {| x := r; y := r |};
    {| x := add lw r; y := r |};
    {| x := add lw r; y := add lh r |};
    {| x := r; y := add lh r |} ].

Definition initializeCanvasDimensions (s : Scanner) (w : World) : Scanner * World :=
  let '(lw, lh, warn) := resolveDimensions s in
  let w := if warn then set_console (w.(console) ++ [maxIgnoredWarning]) w else w in
  let r := s.(cornerRadius) in
  (* canvas.width = x; canvas.height = y; #canvasBorderPoints = [...] *)
  let c := assign_size lw lh s.(canvas) in
  let s := set_canvasBorderPoints (Some (borderPoints r lw lh)) (set_canvas c s) in
  (* canvas.style.width / height, from canvas.width / height *)
  let c := set_style_size c.(el_width) c.(el_height) c in
  (* overlayCanvas.width / height *)
  let o := assign_size (add c.(el_width) (mul 2 r)) (add c.(el_height) (mul 2 r))
             s.(overlayCanvas) in
  (* canvas.width / height scaled by the pixel ratio *)
  let c := assign_size (mul c.(el_width) w.(devicePixelRatio))
                       (mul c.(el_height) w.(devicePixelRatio)) c in
  (set_overlayCanvas o (set_canvas c s), w).

(** *** #initializeCorners *)

Definition initializeCorners (initialCorners' : option (list Position))
    (s : Scanner) (w : World) : Scanner :=
  let dpr := w.(devicePixelRatio) in
  let r := s.(cornerRadius) in
  let cw := s.(canvas).(el_width) in
  let ch := s.(canvas).(el_height) in
  match initialCorners' with
  | Some cs =>
      set_corners
        (Some (map (fun corner =>
                      {| x := add (div (mul (div corner.(x) 100) cw) dpr) r;
                         y := add (div (mul (div corner.(y) 100) ch) dpr) r |}) cs)) s
  | None =>
      set_corners
        (Some [ {| x := r; y := r |};
                {| x := add (div cw dpr) r; y := r |};
                {| x := add (div cw dpr) r; y := add (div ch dpr) r |};
                {| x := r; y := add (div ch dpr) r |} ]) s
  end.

(** *** #drawCropBox *)

Definition drawCropBox (s : Scanner) (w : World) : outcome unit * Scanner :=
  let r := s.(cornerRadius) in
  let s := emit [Ctx.clearRect 0 0 s.(overlayCanvas).(el_width) s.(overlayCanvas).(el_height)] s in
  let s :=
    if negb (truthy_str s.(cropBoxColor)) then
      emit [ Ctx.setFillStyle s.(backdropColor);
             Ctx.fillRect r r (div s.(canvas).(el_width) w.(devicePixelRatio))
                          (div s.(canvas).(el_height) w.(devicePixelRatio));
             Ctx.setGlobalCompositeOperation "destination-out" ] s
    else emit [Ctx.setFillStyle (default EmptyString s.(cropBoxColor))] s in
  let s := emit [ Ctx.setStrokeStyle s.(cropBoxBorderColor);
                  Ctx.setLineWidth s.(cropBoxBorderWidth);
                  Ctx.beginPath ] s in
  match s.(corners) with
  | Some (c0 :: rest) =>
      let s := emit (polygon c0 rest) s in
      let s := emit [ Ctx.fill; Ctx.setGlobalCompositeOperation "source-over"; Ctx.stroke;
                      Ctx.setFillStyle s.(cornerColor) ] s in
      let s := emit (flat_map (fun corner =>
                                 [Ctx.beginPath; Ctx.arc corner.(x) corner.(y) r; Ctx.fill])
                              (c0 :: rest)) s in
      let s := emit (Ctx.beginPath :: polygon c0 rest) s in
      let s := emit [Ctx.stroke] s in
      (Normal tt, s)
  | _ => (Throw TypeError, s)
  end.

(** *** Pressing *)

Definition isTouchInsideCropBox (touchX touchY : Q) (s : Scanner)
  : outcome bool * Scanner :=
  let s := emit [Ctx.beginPath] s in
  match corner_at s.(corners) 0 with
  | Throw e => (Throw e, s)
  | Normal c0 =>
  let p0 := {| x := add c0.(x) touchOffset; y := add c0.(y) touchOffset |} in
  let s := emit [Ctx.moveTo p0.(x) p0.(y)] s in
  match corner_at s.(corners) 1 with
  | Throw e => (Throw e, s)
  | Normal c1 =>
  let p1 := {| x := sub c1.(x) touchOffset; y := add c1.(y) touchOffset |} in
  let s := emit [Ctx.lineTo p1.(x) p1.(y)] s in
  match corner_at s.(corners) 2 with
  | Throw e => (Throw e, s)
  | Normal c2 =>
  let p2 := {| x := sub c2.(x) touchOffset; y := sub c2.(y) touchOffset |} in
  let s := emit [Ctx.lineTo p2.(x) p2.(y)] s in
  match corner_at s.(corners) 3 with
  | Throw e => (Throw e, s)
  | Normal c3 =>
  let p3 := {| x := add c3.(x) touchOffset; y := sub c3.(y) touchOffset |} in
  let s := emit [Ctx.lineTo p3.(x) p3.(y); Ctx.closePath] s in
  (Normal (P.(isPointInPath) [p0; p1; p2; p3] touchX touchY), s)
  end end end end.

Fixpoint firstCornerWithin (mouseX mouseY radius : Q) (cs : list Position) (i : Z) : Z :=
  match cs with
  | [] => (-1)%Z
  | corner :: rest =>
      let distance :=
        P.(Math_sqrt) (add (A.(exponentiate) (sub mouseX corner.(x)) 2)
                           (A.(exponentiate) (sub mouseY corner.(y)) 2)) in
      if le_num distance radius then i
      else firstCornerWithin mouseX mouseY radius rest (i + 1)%Z
  end.

Definition getSelectedCornerIndex (mouseX mouseY : Q) (s : Scanner) : outcome Z :=
  match s.(corners) with
  | None => Throw TypeError
  | Some cs => Normal (firstCornerWithin mouseX mouseY s.(cornerRadius) cs 0%Z)
  end.

Definition afterTouchStart (touchX touchY : Q) (s : Scanner) : outcome unit * Scanner :=
  match isTouchInsideCropBox touchX touchY s with
  | (Throw e, s) => (Throw e, s)
  | (Normal inside, s) =>
      if inside && negb s.(move).(active) then
        (Normal tt, set_prevTouch touchX touchY (set_active true s))
      else
        match getSelectedCornerIndex touchX touchY s with
        | Throw e => (Throw e, s)
        | Normal i => (Normal tt, set_selectedCornerIndex i s)
        end
  end.

Definition handleTouchStart (event : PointerEvent) (s : Scanner) (w : World)
  : outcome unit * Scanner :=
  afterTouchStart (sub event.(clientX) w.(clientRect).(rect_left))
                  (sub event.(clientY) w.(clientRect).(rect_top)) s.

Definition handleMouseDown (event : PointerEvent) (s : Scanner) (w : World)
  : outcome unit * Scanner :=
  afterTouchStart (sub event.(clientX) w.(clientRect).(rect_left))
                  (sub event.(clientY) w.(clientRect).(rect_top)) s.

(** *** Dragging *)

Definition onSegment (point borderPoint1 borderPoint2 : Position) : bool :=
  strict_eq (mul (sub point.(y) borderPoint1.(y)) (sub borderPoint2.(x) borderPoint1.(x)))
            (mul (sub borderPoint2.(y) borderPoint1.(y)) (sub point.(x) borderPoint1.(x)))
  && ge_num point.(x) (Math_min borderPoint1.(x) borderPoint2.(x))
  && le_num point.(x) (Math_max borderPoint1.(x) borderPoint2.(x))
  && ge_num point.(y) (Math_min borderPoint1.(y) borderPoint2.(y))
  && le_num point.(y) (Math_max borderPoint1.(y) borderPoint2.(y)).

Definition isPointOnBorder (point : Position) (borderPoints' : list Position) : bool :=
  existsb
    (fun i => onSegment point (nth i borderPoints' origin)
                (nth ((i + 1) mod List.length borderPoints') borderPoints' origin))
    (seq 0 (List.length borderPoints')).

Definition cropBoxIsTooSmall (corners' : list Position) (s : Scanner) : outcome bool :=
  obind (at_index corners' 1) (fun c1 =>
  obind (at_index corners' 0) (fun c0 =>
  if lt_num (sub c1.(x) c0.(x)) s.(minCropBoxWidth) then Normal true else
  obind (at_index corners' 2) (fun c2 =>
  obind (at_index corners' 3) (fun c3 =>
  if lt_num (sub c2.(x) c3.(x)) s.(minCropBoxWidth) then Normal true else
  if lt_num (sub c3.(y) c0.(y)) s.(minCropBoxHeight) then Normal true else
  Normal (lt_num (sub c2.(y) c1.(y)) s.(minCropBoxHeight)))))).

Definition clampX (s : Scanner) (v : Q) : Q :=
  Math_max s.(cornerRadius)
           (Math_min v (sub s.(overlayCanvas).(el_width) s.(cornerRadius))).

Definition clampY (s : Scanner) (v : Q) : Q :=
  Math_max s.(cornerRadius)
           (Math_min v (sub s.(overlayCanvas).(el_height) s.(cornerRadius))).

Definition translatedCorners (touchX touchY : Q) (s : Scanner) (cs : list Position)
  : list Position :=
  let dx := sub touchX s.(move).(prevTouch).(x) in
  let dy := sub touchY s.(move).(prevTouch).(y) in
  map (fun c => {| x := clampX s (add c.(x) dx); y := clampY s (add c.(y) dy) |}) cs.

Definition moveCropBox (touchX touchY : Q) (s : Scanner) (w : World)
  : outcome unit * Scanner :=
  match s.(corners) with
  | None => (Throw TypeError, s)
  | Some cs =>
      let translated := translatedCorners touchX touchY s cs in
      match translated, s.(canvasBorderPoints) with
      | _ :: _, None => (Throw TypeError, s)
      | _, border =>
          let movable :=
            negb (existsb (fun t => isPointOnBorder t (default [] border)) translated) in
          let s := if movable then set_corners (Some translated) s else s in
          let s := set_prevTouch touchX touchY s in
          drawCropBox s w
      end
  end.

Definition afterTouchMove (touchX touchY : Q) (s : Scanner) (w : World)
  : outcome unit * Scanner :=
  if s.(move).(active) then moveCropBox touchX touchY s w
  else if negb (Z.eqb s.(selectedCornerIndex) (-1)) then
    match s.(corners) with
    | None => (Throw TypeError, s)
    | Some cs =>
        let points :=
          mapi_from (fun i c =>
                       if Z.eqb (Z.of_nat i) s.(selectedCornerIndex)
                       then {| x := touchX; y := touchY |} else c) 0 cs in
        match cropBoxIsTooSmall points s with
        | Throw e => (Throw e, s)
        | Normal true => (Normal tt, s)
        | Normal false =>
            if (0 <=? s.(selectedCornerIndex))%Z
               && (Z.to_nat s.(selectedCornerIndex) <? List.length cs)%nat then
              let cs' :=
                update_at (Z.to_nat s.(selectedCornerIndex))
                  (fun _ => {| x := clampX s touchX; y := clampY s touchY |}) cs in
              drawCropBox (set_corners (Some cs') s) w
            else (Throw TypeError, s)
        end
    end
  else (Normal tt, s).

Definition handleTouchMove (event : PointerEvent) (s : Scanner) (w : World)
  : outcome unit * Scanner :=
  afterTouchMove (sub event.(clientX) w.(clientRect).(rect_left))
                 (sub event.(clientY) w.(clientRect).(rect_top)) s w.

Definition handleMouseMove (event : PointerEvent) (s : Scanner) (w : World)
  : outcome unit * Scanner :=
  afterTouchMove (sub event.(clientX) w.(clientRect).(rect_left))
                 (sub event.(clientY) w.(clientRect).(rect_top)) s w.

(** *** #applyPerspectiveTransform *)

Definition dsize (p0 p1 p2 p3 : Position) (w : World) : Q * Q :=
  (mul (Math_max
          (P.(Math_sqrt) (add (A.(exponentiate) (sub p0.(x) p1.(x)) 2)
                              (A.(exponentiate) (sub p0.(y) p1.(y)) 2)))
          (P.(Math_sqrt) (add (A.(exponentiate) (sub p2.(x) p3.(x)) 2)
                              (A.(exponentiate) (sub p2.(y) p3.(y)) 2))))
       w.(devicePixelRatio),
   mul (Math_max
          (P.(Math_sqrt) (add (A.(exponentiate) (sub p1.(x) p2.(x)) 2)
                              (A.(exponentiate) (sub p1.(y) p2.(y)) 2)))
          (P.(Math_sqrt) (add (A.(exponentiate) (sub p3.(x) p0.(x)) 2)
                              (A.(exponentiate) (sub p3.(y) p0.(y)) 2))))
       w.(devicePixelRatio)).

Definition srcTri (points : list Position) (s : Scanner) (w : World) : list Q :=
  flat_map
    (fun point =>
       [ mul (div (sub point.(x) s.(cornerRadius))
                  (div s.(canvas).(el_width) w.(devicePixelRatio)))
             s.(canvas).(el_width);
         mul (div (sub point.(y) s.(cornerRadius))
                  (div s.(canvas).(el_height) w.(devicePixelRatio)))
             s.(canvas).(el_height) ])
    points.

Definition dstTri (size : Q * Q) : list Q :=
  [0; 0; fst size; 0; fst size; snd size; 0; snd size].

Definition applyPerspectiveTransform (points : option (list Position))
    (s : Scanner) (w : World) : outcome (OutputCanvas P.(Mat)) * Scanner * World :=
  let src' := P.(getImageData) s.(ctx) s.(canvas).(el_width) s.(canvas).(el_height) in
  match points with
  | Some (p0 :: p1 :: p2 :: p3 :: rest) =>
      let size := dsize p0 p1 p2 p3 w in
      let M := P.(getPerspectiveTransform)
                 (srcTri (p0 :: p1 :: p2 :: p3 :: rest) s w) (dstTri size) in
      let dst := P.(warpPerspective) src' M size in
      let '(n, w) := createElement w in
      let tempCanvas :=
        {| out_el := n;
           out_width := unsignedLong 300 (mul (P.(cols) dst) w.(devicePixelRatio));
           out_height := unsignedLong 150 (mul (P.(rows) dst) w.(devicePixelRatio));
           pixels := None |} in
      (Normal (P.(imshow) tempCanvas dst), s, w)
  | _ => (Throw TypeError, s, w)
  end.

(** *** Public methods and events *)

Definition img_onload (s : Scanner) (w : World) : outcome unit * Scanner * World :=
  let '(s, w) := initializeCanvasDimensions s w in
  let s := initializeCorners s.(initialCorners) s w in
  let s := drawImage s in
  let '(r, s) := drawCropBox s w in
  (r, s, w).

Definition crop (s : Scanner) (w : World) : outcome string * Scanner * World :=
  match applyPerspectiveTransform s.(corners) s w with
  | (Normal croppedCanvas, s, w) => (Normal (P.(toDataURL) croppedCanvas), s, w)
  | (Throw e, s, w) => (Throw e, s, w)
  end.

Definition getBlob (s : Scanner) (w : World) : outcome (Promise P.(Blob)) * Scanner * World :=
  match applyPerspectiveTransform s.(corners) s w with
  | (Normal croppedCanvas, s, w) =>
      match P.(toBlob) croppedCanvas with
      | Some blob => (Normal (fulfilled blob), s, w)
      | None => (Normal (rejected (message "Error getting blob.")), s, w)
      end
  | (Throw e, s, w) => (Normal (rejected (thrown e)), s, w)
  end.

Definition getFile (s : Scanner) (w : World)
  : outcome (Promise (File P.(Blob))) * Scanner * World :=
  match applyPerspectiveTransform s.(corners) s w with
  | (Normal croppedCanvas, s, w) =>
      match P.(toBlob) croppedCanvas with
      | Some blob =>
          (Normal (fulfilled {| bits := blob; name := "cropped-image.png" |}), s, w)
      | None => (Normal (rejected (message "Error getting file.")), s, w)
      end
  | (Throw e, s, w) => (Normal (rejected (thrown e)), s, w)
  end.

Definition run (h : Handler) (event : PointerEvent) (s : Scanner) (w : World)
  : outcome unit * Scanner :=
  match h with
  | HTouchStart => handleTouchStart event s w
  | HTouchMove => handleTouchMove event s w
  | HTouchEnd => (Normal tt, handleTouchEnd s)
  | HMouseDown => handleMouseDown event s w
  | HMouseMove => handleMouseMove event s w
  end.

Definition invoke (f : FnRef) (event : PointerEvent) (s : Scanner) (w : World)
  : outcome unit * Scanner :=
  match f with
  | BoundFn _ h => run h event s w
  | MethodOf _ => (Throw TypeError, s)
  end.

Fixpoint invokeAll (ls : list Listener) (event : PointerEvent) (s : Scanner) (w : World)
  : Scanner :=
  match ls with
  | [] => s
  | l :: ls' => invokeAll ls' event (snd (invoke l.(callback) event s w)) w
  end.

Definition dispatchEvent (ty : EventType) (event : PointerEvent) (s : Scanner) (w : World)
  : Scanner :=
  invokeAll
    (filter (fun l => Nat.eqb l.(target) s.(overlayCanvas).(el)
                      && EventType_eqb l.(type) ty) w.(listeners))
    event s w.

Definition step (e : Event) (st : Scanner * World) : Scanner * World :=
  let '(s, w) := st in
  match e with
  | call_loadImg imgSrc => (loadImg imgSrc s, w)
  | img_load nw nh =>
      if s.(img).(onload) then
        let '(_, s, w) := img_onload (set_natural nw nh s) w in (s, w)
      else (s, w)
  | img_error => (s, w)
  | pointer ty event => (dispatchEvent ty event s w, w)
  | call_crop => let '(_, s, w) := crop s w in (s, w)
  | call_getBlob => let '(_, s, w) := getBlob s w in (s, w)
  | call_getFile => let '(_, s, w) := getFile s w in (s, w)
  | call_getCanvas => let '(_, s, w) := getCanvas s w in (s, w)
  | call_destroy => let '(_, s, w) := destroy s w in (s, w)
  end.

Definition run_events (es : list Event) (st : Scanner * World) : Scanner * World :=
  fold_left (fun st e => step e st) es st.

Inductive reachable (options : ScannerOptions) (w0 : World) : Scanner * World -> Prop :=
| reach_new s w :
    constructor options w0 = (Normal s, w) -> reachable options w0 (s, w)
| reach_step e st :
    reachable options w0 st -> reachable options w0 (step e st).

End Machine.
End Machine.

(** * Properties *)

(** ** Comparisons and bounds *)

Lemma lt_num_true a b : lt_num a b = true <-> a < b.
Proof.
  unfold lt_num. rewrite negb_true_iff, <- not_true_iff_false, Qle_bool_iff.
  split; [apply Qnot_le_lt | apply Qlt_not_le].
Qed.

Lemma lt_num_false a b : lt_num a b = false <-> b <= a.
Proof. unfold lt_num. rewrite negb_false_iff. apply Qle_bool_iff. Qed.

Lemma gt_num_true a b : gt_num a b = true <-> b < a.
Proof. apply (lt_num_true b a). Qed.

Lemma gt_num_false a b : gt_num a b = false <-> a <= b.
Proof. apply (lt_num_false b a). Qed.

Lemma le_num_true a b : le_num a b = true <-> a <= b.
Proof. apply Qle_bool_iff. Qed.

Lemma le_num_false a b : le_num a b = false <-> b < a.
Proof.
  unfold le_num. rewrite <- not_true_iff_false, Qle_bool_iff.
  split; [apply Qnot_le_lt | apply Qlt_not_le].
Qed.

Lemma ge_num_true a b : ge_num a b = true <-> b <= a.
Proof. apply Qle_bool_iff. Qed.

Lemma ge_num_false a b : ge_num a b = false <-> a < b.
Proof. apply (le_num_false b a). Qed.

Lemma strict_eq_true a b : strict_eq a b = true <-> a == b.
Proof. apply Qeq_bool_iff. Qed.

Lemma strict_eq_false a b : strict_eq a b = false <-> ~ a == b.
Proof.
  unfold strict_eq. rewrite <- not_true_iff_false, Qeq_bool_iff. tauto.
Qed.

Lemma truthy_true a : truthy a = true <-> ~ a == 0.
Proof.
  unfold truthy. rewrite negb_true_iff, <- not_true_iff_false, Qeq_bool_iff. tauto.
Qed.

Lemma Math_max_cases a b :
  (a <= b /\ Math_max a b = b) \/ (b < a /\ Math_max a b = a).
Proof.
  unfold Math_max. destruct (Qle_bool a b) eqn:E.
  - left. split; [now apply Qle_bool_iff | reflexivity].
  - right. split; [| reflexivity].
    apply Qnot_le_lt. rewrite <- Qle_bool_iff. congruence.
Qed.

Lemma Math_min_cases a b :
  (a <= b /\ Math_min a b = a) \/ (b < a /\ Math_min a b = b).
Proof.
  unfold Math_min. destruct (Qle_bool a b) eqn:E.
  - left. split; [now apply Qle_bool_iff | reflexivity].
  - right. split; [| reflexivity].
    apply Qnot_le_lt. rewrite <- Qle_bool_iff. congruence.
Qed.

(** Boolean tests of the code, read as order facts for [lra]. *)
Ltac num_prop :=
  repeat match goal with
  | H : _ && _ = true |- _ => apply andb_prop in H; destruct H
  | H : lt_num _ _ = true |- _ => apply lt_num_true in H
  | H : lt_num _ _ = false |- _ => apply lt_num_false in H
  | H : gt_num _ _ = true |- _ => apply gt_num_true in H
  | H : gt_num _ _ = false |- _ => apply gt_num_false in H
  | H : le_num _ _ = true |- _ => apply le_num_true in H
  | H : le_num _ _ = false |- _ => apply le_num_false in H
  | H : ge_num _ _ = true |- _ => apply ge_num_true in H
  | H : ge_num _ _ = false |- _ => apply ge_num_false in H
  | H : strict_eq _ _ = true |- _ => apply strict_eq_true in H
  | H : strict_eq _ _ = false |- _ => apply strict_eq_false in H
  end.

(** Case analysis on every [Math.max] and [Math.min] in sight. *)
Ltac minmax :=
  repeat match goal with
  | |- context [Math_max ?a ?b] =>
      let H := fresh in let E := fresh in
      destruct (Math_max_cases a b) as [[H E] | [H E]]; rewrite E in *; clear E
  | |- context [Math_min ?a ?b] =>
      let H := fresh in let E := fresh in
      destruct (Math_min_cases a b) as [[H E] | [H E]]; rewrite E in *; clear E
  | _ : context [Math_max ?a ?b] |- _ =>
      let H := fresh in let E := fresh in
      destruct (Math_max_cases a b) as [[H E] | [H E]]; rewrite E in *; clear E
  | _ : context [Math_min ?a ?b] |- _ =>
      let H := fresh in let E := fresh in
      destruct (Math_min_cases a b) as [[H E] | [H E]]; rewrite E in *; clear E
  end.


Lemma clamp_id r hi v :
  r <= v <= hi -> Math_max r (Math_min v hi) = v.
Proof.
  intros [H1 H2]. unfold Math_min, Math_max.
  apply Qle_bool_iff in H1, H2. now rewrite H2, H1.
Qed.

(** ** Construction *)

(** An option that is set to a number other than zero. *)
Definition nonzero (o : option Q) : Prop := exists a, o = Some a /\ ~ a == 0.

(** The combinations of options that the constructor refuses: both colour
    keys present, or a dimension and its maximum both set to a number other
    than zero. *)
Definition ConfigurationConflict (options : ScannerOptions) : Prop :=
  (has_key options.(opt_backdropColor) = true /\ has_key options.(opt_cropBoxColor) = true)
  \/ (nonzero options.(opt_width) /\ nonzero options.(opt_maxWidth))
  \/ (nonzero options.(opt_height) /\ nonzero options.(opt_maxHeight)).

Lemma truthy_opt_nonzero o : truthy_opt o = true <-> nonzero o.
Proof.
  unfold nonzero. destruct o as [a |]; simpl.
  - rewrite truthy_true. split.
    + intros H. now exists a.
    + intros (b & E & H). now inversion E; subst.
  - split; [discriminate | intros (b & E & _); discriminate].
Qed.

Lemma constructor_throws options w :
  ConfigurationConflict options ->
  exists m, constructor options w = (Throw (Error m), w).
Proof.
  unfold ConfigurationConflict, constructor.
  intros [[H1 H2] | [[H1 H2] | [H1 H2]]].
  - rewrite H1, H2. simpl. eauto.
  - apply truthy_opt_nonzero in H1, H2. rewrite H1, H2.
    destruct (has_key _ && has_key _); simpl; eauto.
  - apply truthy_opt_nonzero in H1, H2. rewrite H1, H2.
    destruct (has_key _ && has_key _); [simpl; eauto |].
    destruct (truthy_opt _ && truthy_opt _); simpl; eauto.
Qed.

Lemma constructor_returns options w :
  ~ ConfigurationConflict options ->
  exists s w',
    constructor options w = (Normal s, w')
    /\ s.(parent) = options.(opt_parent)
    /\ is_child s.(parent) s.(relativePostionedDiv) w' = true.
Proof.
  unfold ConfigurationConflict. intros H.
  assert (E1 : has_key options.(opt_backdropColor) && has_key options.(opt_cropBoxColor) = false).
  { apply not_true_iff_false. rewrite andb_true_iff. tauto. }
  assert (E2 : truthy_opt options.(opt_width) && truthy_opt options.(opt_maxWidth) = false).
  { apply not_true_iff_false. rewrite andb_true_iff, !truthy_opt_nonzero. tauto. }
  assert (E3 : truthy_opt options.(opt_height) && truthy_opt options.(opt_maxHeight) = false).
  { apply not_true_iff_false. rewrite andb_true_iff, !truthy_opt_nonzero. tauto. }
  unfold constructor. rewrite E1, E2, E3.
  eexists. eexists. split; [reflexivity |]. split; [reflexivity |].
  cbn [parent relativePostionedDiv].
  unfold is_child, appendChild. cbn [childNodes set_childNodes].
  rewrite existsb_app. apply orb_true_iff. right. simpl.
  now rewrite !Nat.eqb_refl.
Qed.

(** C5, as the code has it: construction fails, with an [Error] and before
    anything of the browser has changed, exactly when both colour keys are
    present or a dimension and its maximum are both set to a number other
    than zero; in every other case it returns an instance whose subtree is
    mounted under the parent.  A dimension set to [0] counts as not set. *)
Theorem constructor_rejects_exactly_the_conflicts (options : ScannerOptions) (w : World) :
  (ConfigurationConflict options ->
     exists m, constructor options w = (Throw (Error m), w))
  /\ (~ ConfigurationConflict options ->
     exists s w',
       constructor options w = (Normal s, w')
       /\ s.(parent) = options.(opt_parent)
       /\ is_child s.(parent) s.(relativePostionedDiv) w' = true).
Proof.
  split; [apply constructor_throws | apply constructor_returns].
Qed.

(** ** Layout *)

Definition resolvedWidth (s : Scanner) : Q := fst (fst (resolveDimensions s)).
Definition resolvedHeight (s : Scanner) : Q := snd (fst (resolveDimensions s)).

(** The geometry that [#initializeCanvasDimensions] leaves: the boundary
    polygon is the rectangle of the display size [cw] by [ch] moved by the
    corner radius, and the overlay is larger by the radius on each side. *)
Definition Geometry (s : Scanner) (cw ch : Q) : Prop :=
  s.(canvasBorderPoints) = Some (borderPoints s.(cornerRadius) cw ch)
  /\ s.(overlayCanvas).(el_width) = cw + 2 * s.(cornerRadius)
  /\ s.(overlayCanvas).(el_height) = ch + 2 * s.(cornerRadius).

Lemma initializeCanvasDimensions_fields (s : Scanner) (w : World) :
  let s' := fst (initializeCanvasDimensions s w) in
  let w' := snd (initializeCanvasDimensions s w) in
  let cw := resolvedWidth s in
  let ch := resolvedHeight s in
  s'.(canvas).(style_width) = Some cw
  /\ s'.(canvas).(style_height) = Some ch
  /\ s'.(canvas).(el_width) = cw * w.(devicePixelRatio)
  /\ s'.(canvas).(el_height) = ch * w.(devicePixelRatio)
  /\ Geometry s' cw ch
  /\ s'.(cornerRadius) = s.(cornerRadius)
  /\ s'.(initialCorners) = s.(initialCorners)
  /\ s'.(move) = s.(move)
  /\ s'.(selectedCornerIndex) = s.(selectedCornerIndex)
  /\ w'.(devicePixelRatio) = w.(devicePixelRatio)
  /\ s'.(minCropBoxWidth) = s.(minCropBoxWidth)
  /\ s'.(minCropBoxHeight) = s.(minCropBoxHeight)
  /\ s'.(corners) = s.(corners).
Proof.
  unfold resolvedWidth, resolvedHeight, Geometry, initializeCanvasDimensions.
  destruct (resolveDimensions s) as [[cw ch] warn]. cbn -[Qmult Qplus].
  destruct warn; repeat split; reflexivity.
Qed.


(** ** Rendering changes the overlay context only *)

Lemma emit_emit (a b : list Ctx.DrawCmd) (s : Scanner) :
  emit b (emit a s) = emit (a ++ b) s.
Proof. unfold emit. cbn. now rewrite <- app_assoc. Qed.

Lemma drawCropBox_only_draws (s : Scanner) (w : World) :
  exists rest,
    snd (drawCropBox s w)
    = emit (Ctx.clearRect 0 0 s.(overlayCanvas).(el_width)
                              s.(overlayCanvas).(el_height) :: rest) s.
Proof.
  unfold drawCropBox. cbv zeta.
  destruct (negb (truthy_str _)); rewrite !emit_emit;
    change (corners (emit ?l s)) with (corners s);
    destruct s.(corners) as [[| c0 rest] |]; cbn [snd];
    rewrite ?emit_emit; eexists; reflexivity.
Qed.

(** ** Initial corners *)

Lemma img_onload_fields (s : Scanner) (w : World) :
  let s1 := fst (initializeCanvasDimensions s w) in
  let w1 := snd (initializeCanvasDimensions s w) in
  let s' := snd (fst (img_onload s w)) in
  s'.(corners) = (initializeCorners s1.(initialCorners) s1 w1).(corners)
  /\ s'.(canvasBorderPoints) = s1.(canvasBorderPoints)
  /\ s'.(overlayCanvas) = s1.(overlayCanvas)
  /\ s'.(canvas) = s1.(canvas)
  /\ s'.(cornerRadius) = s.(cornerRadius)
  /\ s'.(minCropBoxWidth) = s.(minCropBoxWidth)
  /\ s'.(minCropBoxHeight) = s.(minCropBoxHeight)
  /\ s'.(move) = s.(move)
  /\ s'.(selectedCornerIndex) = s.(selectedCornerIndex).
Proof.
  destruct (initializeCanvasDimensions_fields s w)
    as (_ & _ & _ & _ & _ & Hr & _ & Hm & Hi & _ & Hmw & Hmh & _).
  unfold img_onload.
  destruct (initializeCanvasDimensions s w) as [s1 w1]. cbn [fst snd] in *.
  destruct (drawCropBox_only_draws
              (drawImage (initializeCorners s1.(initialCorners) s1 w1)) w1) as [log E].
  destruct (drawCropBox _ w1) as [r s3]. cbn [fst snd] in *. subst s3.
  rewrite <- Hr, <- Hm, <- Hi, <- Hmw, <- Hmh.
  destruct s1.(initialCorners); repeat split; reflexivity.
Qed.

(** ** The boundary test *)

Lemma onSegment_true (p a b : Position) :
  onSegment p a b = true <->
  (p.(y) - a.(y)) * (b.(x) - a.(x)) == (b.(y) - a.(y)) * (p.(x) - a.(x))
  /\ Math_min a.(x) b.(x) <= p.(x) <= Math_max a.(x) b.(x)
  /\ Math_min a.(y) b.(y) <= p.(y) <= Math_max a.(y) b.(y).
Proof.
  unfold onSegment.
  rewrite !andb_true_iff, strict_eq_true, !ge_num_true, !le_num_true. tauto.
Qed.

(** On the rectangle of the layout, the test of [#isPointOnBorder] holds
    exactly for the points of the closed rectangle that lie on one of its
    four sides. *)
Lemma isPointOnBorder_rectangle (p : Position) (r cw ch : Q) :
  0 <= cw -> 0 <= ch ->
  isPointOnBorder p (borderPoints r cw ch) = true <->
  (r <= p.(x) <= cw + r /\ r <= p.(y) <= ch + r)
  /\ (p.(x) == r \/ p.(x) == cw + r \/ p.(y) == r \/ p.(y) == ch + r).
Proof.
  intros Hw Hh. unfold isPointOnBorder, borderPoints.
  cbn [List.length seq existsb nth Nat.add Nat.modulo Nat.divmod fst snd Nat.sub].
  rewrite !orb_true_iff, !onSegment_true. cbn [x y].
  split.
  - intros [H | [H | [H | [H | H]]]]; try discriminate;
      destruct H as (_ & Hx & Hy); revert Hx Hy; minmax; intros; lra.
  - intros [[Hx Hy] [E | [E | [E | E]]]].
    + right; right; right; left. split; [| minmax; lra].
      setoid_replace (p.(x) - r) with 0 by lra. ring.
    + right; left. split; [| minmax; lra].
      setoid_replace (p.(x) - (cw + r)) with 0 by lra. ring.
    + left. split; [| minmax; lra].
      setoid_replace (p.(y) - r) with 0 by lra. ring.
    + right; right; left. split; [| minmax; lra].
      setoid_replace (p.(y) - (ch + r)) with 0 by lra. ring.
Qed.

(** ** Dragging the whole box *)

(** Strictly inside the rectangle whose corners are listed clockwise from
    the top-left one. *)
Definition strictlyInside (polygon' : list Position) (p : Position) : Prop :=
  match polygon' with
  | [tl; tr; br; bl] =>
      tl.(x) < p.(x) < br.(x) /\ tl.(y) < p.(y) < br.(y)
  | _ => False
  end.

(** ** Dragging one corner *)

(** The array [points] of [#afterTouchMove]: the corners with the selected
    one replaced by the pointer position as it came. *)
Definition candidate (i : Z) (touchX touchY : Q) (cs : list Position) : list Position :=
  mapi_from (fun j c => if Z.eqb (Z.of_nat j) i
                        then {| x := touchX; y := touchY |} else c) 0 cs.



(** ** Producing the cropped image changes nothing of the instance *)

Lemma applyPerspectiveTransform_frame (P : Platform) (points : option (list Position))
    (s : Scanner) (w : World) :
  snd (fst (applyPerspectiveTransform P points s w)) = s.
Proof.
  unfold applyPerspectiveTransform.
  destruct points as [[| p0 [| p1 [| p2 [| p3 rest]]]] |]; reflexivity.
Qed.

Lemma crop_frame (P : Platform) (s : Scanner) (w : World) :
  snd (fst (crop P s w)) = s.
Proof.
  unfold crop. pose proof (applyPerspectiveTransform_frame P s.(corners) s w) as F.
  destruct (applyPerspectiveTransform P s.(corners) s w) as [[[c | e] s1] w1]; exact F.
Qed.

Lemma getBlob_frame (P : Platform) (s : Scanner) (w : World) :
  snd (fst (getBlob P s w)) = s.
Proof.
  unfold getBlob. pose proof (applyPerspectiveTransform_frame P s.(corners) s w) as F.
  destruct (applyPerspectiveTransform P s.(corners) s w) as [[[c | e] s1] w1];
    [destruct (P.(toBlob) c) |]; exact F.
Qed.

Lemma getFile_frame (P : Platform) (s : Scanner) (w : World) :
  snd (fst (getFile P s w)) = s.
Proof.
  unfold getFile. pose proof (applyPerspectiveTransform_frame P s.(corners) s w) as F.
  destruct (applyPerspectiveTransform P s.(corners) s w) as [[[c | e] s1] w1];
    [destruct (P.(toBlob) c) |]; exact F.
Qed.

Lemma destroy_frame (s : Scanner) (w : World) : snd (fst (destroy s w)) = s.
Proof. unfold destroy. now destruct (removeChild _ _ _). Qed.

(** What a step leaves of the instance when it is the call of a method that
    produces an image, hands out the canvas or tears down. *)
Lemma step_call_frame (P : Platform) (e : Event) (s : Scanner) (w : World) :
  e = call_crop \/ e = call_getBlob \/ e = call_getFile
  \/ e = call_getCanvas \/ e = call_destroy ->
  fst (step P e (s, w)) = s.
Proof.
  intros [-> | [-> | [-> | [-> | ->]]]]; cbn [step].
  - pose proof (crop_frame P s w) as F. now destruct (crop P s w) as [[r s1] w1].
  - pose proof (getBlob_frame P s w) as F. now destruct (getBlob P s w) as [[r s1] w1].
  - pose proof (getFile_frame P s w) as F. now destruct (getFile P s w) as [[r s1] w1].
  - reflexivity.
  - pose proof (destroy_frame s w) as F. now destruct (destroy s w) as [[r s1] w1].
Qed.

(** C10: [crop], [getBlob], [getFile] and [getCanvas] return the instance
    as it was, so the corners, the drag state, the selected corner and both
    canvases are unchanged; of the browser they change neither the tree nor
    the listeners. *)
Theorem output_methods_change_nothing (P : Platform) (s : Scanner) (w : World) :
  (snd (fst (crop P s w)) = s
   /\ snd (fst (getBlob P s w)) = s
   /\ snd (fst (getFile P s w)) = s
   /\ snd (fst (getCanvas s w)) = s)
  /\ (forall s', s' = snd (fst (crop P s w)) \/ s' = snd (fst (getBlob P s w))
                 \/ s' = snd (fst (getFile P s w)) \/ s' = snd (fst (getCanvas s w)) ->
        s'.(corners) = s.(corners)
        /\ s'.(move) = s.(move)
        /\ s'.(selectedCornerIndex) = s.(selectedCornerIndex)
        /\ s'.(canvas) = s.(canvas)
        /\ s'.(overlayCanvas) = s.(overlayCanvas))
  /\ (forall w', w' = snd (crop P s w) \/ w' = snd (getBlob P s w)
                 \/ w' = snd (getFile P s w) \/ w' = snd (getCanvas s w) ->
        w'.(childNodes) = w.(childNodes) /\ w'.(listeners) = w.(listeners)).
Proof.
  pose proof (crop_frame P s w) as C. pose proof (getBlob_frame P s w) as B.
  pose proof (getFile_frame P s w) as F.
  split; [repeat split; assumption |]. split.
  - intros s' [-> | [-> | [-> | ->]]]; rewrite ?C, ?B, ?F; repeat split.
  - assert (A : forall points,
              (snd (applyPerspectiveTransform P points s w)).(childNodes) = w.(childNodes)
              /\ (snd (applyPerspectiveTransform P points s w)).(listeners) = w.(listeners)).
    { intros points. unfold applyPerspectiveTransform.
      destruct points as [[| p0 [| p1 [| p2 [| p3 rest]]]] |]; split; reflexivity. }
    intros w' [-> | [-> | [-> | ->]]]; unfold crop, getBlob, getFile, getCanvas;
      try (pose proof (A s.(corners)) as A';
           destruct (applyPerspectiveTransform P s.(corners) s w) as [[[c | e] s1] w1];
           try destruct (P.(toBlob) c); exact A').
    split; reflexivity.
Qed.

(** ** Teardown *)

Lemma Handler_eqb_eq (a b : Handler) : Handler_eqb a b = true -> a = b.
Proof. destruct a, b; (reflexivity || discriminate). Qed.

Lemma EventType_eqb_eq (a b : EventType) : EventType_eqb a b = true -> a = b.
Proof. destruct a, b; (reflexivity || discriminate). Qed.

Lemma Listener_eqb_eq (a b : Listener) : Listener_eqb a b = true -> a = b.
Proof.
  destruct a as [t1 y1 f1], b as [t2 y2 f2]. unfold Listener_eqb. cbn [target type callback].
  intros H. apply andb_prop in H. destruct H as [H Hf].
  apply andb_prop in H. destruct H as [Ht Hy].
  apply Nat.eqb_eq in Ht. apply EventType_eqb_eq in Hy. subst.
  destruct f1 as [h1 | i1 h1], f2 as [h2 | i2 h2]; cbn [FnRef_eqb] in Hf;
    try discriminate.
  - apply Handler_eqb_eq in Hf. now subst.
  - apply andb_prop in Hf. destruct Hf as [Hi Hh].
    apply Nat.eqb_eq in Hi. apply Handler_eqb_eq in Hh. now subst.
Qed.

(** After [addEventListener] the listener is there, whether or not it was. *)
Lemma addEventListener_In (t : node) (ty : EventType) (f : FnRef) (w : World) :
  In {| target := t; type := ty; callback := f |}
     (addEventListener t ty f w).(listeners).
Proof.
  unfold addEventListener.
  destruct (existsb _ w.(listeners)) eqn:E.
  - apply existsb_exists in E. destruct E as (l & Hin & Heq).
    apply Listener_eqb_eq in Heq. now subst.
  - cbn [listeners set_listeners]. apply in_or_app. right. now left.
Qed.

Lemma addEventListener_keeps (t : node) (ty : EventType) (f : FnRef) (w : World)
    (l : Listener) :
  In l w.(listeners) -> In l (addEventListener t ty f w).(listeners).
Proof.
  unfold addEventListener. intros H.
  destruct (existsb _ w.(listeners)); [exact H |].
  cbn [listeners set_listeners]. apply in_or_app. now left.
Qed.

(** [removeEventListener] with the method itself removes no bound function. *)
Lemma removeEventListener_keeps_bound (t : node) (ty : EventType) (h : Handler)
    (w : World) (l : Listener) (fid : nat) (h' : Handler) :
  l.(callback) = BoundFn fid h' ->
  In l w.(listeners) ->
  In l (removeEventListener t ty (MethodOf h) w).(listeners).
Proof.
  intros Hb Hin. unfold removeEventListener. cbn [listeners set_listeners].
  apply filter_In. split; [exact Hin |].
  unfold Listener_eqb. cbn [callback]. rewrite Hb. cbn [FnRef_eqb].
  now rewrite andb_false_r.
Qed.

Lemma is_child_removed (p c : node) (w : World) :
  is_child p c (snd (removeChild p c w)) = is_child p c w && false
  \/ (is_child p c w = false /\ snd (removeChild p c w) = w).
Proof.
  unfold removeChild. destruct (is_child p c w) eqn:E.
  - left. cbn [snd andb]. unfold is_child. cbn [childNodes set_childNodes].
    apply not_true_iff_false. rewrite existsb_exists.
    intros (e & Hin & He). apply filter_In in Hin. destruct Hin as [_ Hn].
    rewrite He in Hn. discriminate.
  - right. now split.
Qed.

(** The listeners of the constructor: event type and method. *)
Definition registered : list (EventType * Handler) :=
  [ (touchstart, HTouchStart); (touchmove, HTouchMove); (touchend, HTouchEnd);
    (mousedown, HMouseDown); (mousemove, HMouseMove); (mouseup, HTouchEnd) ].

Lemma listen_In (t : node) (ty : EventType) (h : Handler) (w : World) :
  In {| target := t; type := ty; callback := BoundFn w.(nextFn) h |}
     (listen t ty h w).(listeners).
Proof. unfold listen, bind. apply addEventListener_In. Qed.

Lemma listen_keeps (t : node) (ty : EventType) (h : Handler) (w : World) (l : Listener) :
  In l w.(listeners) -> In l (listen t ty h w).(listeners).
Proof. unfold listen, bind. intros H. now apply addEventListener_keeps. Qed.

(** The six registrations of the constructor, on any element and in any
    browser. *)
Definition registerAll (o : node) (w : World) : World :=
  listen o mouseup HTouchEnd
    (listen o mousemove HMouseMove
       (listen o mousedown HMouseDown
          (listen o touchend HTouchEnd
             (listen o touchmove HTouchMove
                (listen o touchstart HTouchStart w))))).

Lemma registerAll_In (o : node) (w : World) (ty : EventType) (h : Handler) :
  In (ty, h) registered ->
  exists fid,
    In {| target := o; type := ty; callback := BoundFn fid h |}
       (registerAll o w).(listeners).
Proof.
  unfold registerAll.
  intros [R | [R | [R | [R | [R | [R | []]]]]]]; injection R as <- <-;
    eexists; repeat first [ apply listen_In | apply listen_keeps ].
Qed.

Lemma appendChild_listeners (p c : node) (w : World) :
  (appendChild p c w).(listeners) = w.(listeners).
Proof. reflexivity. Qed.

(** The browser that a successful construction leaves: the six listeners
    on the overlay, and the subtree under the parent. *)
Lemma constructor_world (options : ScannerOptions) (w w1 : World) (s : Scanner) :
  constructor options w = (Normal s, w1) ->
  exists c r o wd,
    w1 = appendChild options.(opt_parent) r
           (appendChild r o (appendChild r c (registerAll o wd)))
    /\ s.(overlayCanvas).(el) = o
    /\ s.(relativePostionedDiv) = r
    /\ s.(parent) = options.(opt_parent).
Proof.
  unfold constructor.
  destruct (has_key _ && has_key _); [discriminate |].
  destruct (truthy_opt _ && truthy_opt _); [discriminate |].
  destruct (truthy_opt _ && truthy_opt _); [discriminate |].
  destruct (createElement w) as [img' wa].
  destruct (createElement wa) as [canvas' wb].
  destruct (createElement wb) as [relativePostionedDiv' wc].
  destruct (createElement wc) as [overlayCanvas' wd].
  intros E. injection E as Es Ew.
  exists canvas', relativePostionedDiv', overlayCanvas', wd.
  split; [symmetry; unfold registerAll; exact Ew |].
  rewrite <- Es. repeat split.
Qed.

Lemma constructor_registers (options : ScannerOptions) (w w1 : World) (s : Scanner)
    (ty : EventType) (h : Handler) :
  constructor options w = (Normal s, w1) ->
  In (ty, h) registered ->
  exists fid,
    In {| target := s.(overlayCanvas).(el); type := ty; callback := BoundFn fid h |}
       w1.(listeners).
Proof.
  intros C R. destruct (@constructor_world options w w1 s C) as (c & r & o & wd & -> & <- & _).
  rewrite !appendChild_listeners. now apply registerAll_In.
Qed.

(** C8, as the code does it: [destroy] detaches the subtree from the parent,
    but every listener that the constructor registered is still attached to
    the overlay afterwards, because [removeEventListener] is given the
    methods and not the bound functions that were registered. *)
Theorem destroy_leaves_the_listeners (options : ScannerOptions) (w w1 : World)
    (s : Scanner) :
  constructor options w = (Normal s, w1) ->
  let w2 := snd (destroy s w1) in
  is_child s.(parent) s.(relativePostionedDiv) w2 = false
  /\ forall ty h, In (ty, h) registered ->
       exists fid,
         In {| target := s.(overlayCanvas).(el); type := ty; callback := BoundFn fid h |}
            w2.(listeners).
Proof.
  intros C w2. split.
  - unfold w2, destroy.
    set (w' := removeEventListener _ mouseup _ _).
    assert (P : s.(parent) = s.(parent)) by reflexivity.
    destruct (is_child_removed s.(parent) s.(relativePostionedDiv) w') as [H | [H E]].
    + destruct (removeChild _ _ w') as [r w3]. cbn [snd] in *.
      now rewrite andb_false_r in H.
    + destruct (removeChild _ _ w') as [r w3]. cbn [snd] in *. now subst.
  - intros ty h R. destruct (@constructor_registers options w w1 s ty h C R) as [fid H].
    exists fid. unfold w2, destroy.
    assert (K : In {| target := s.(overlayCanvas).(el); type := ty; callback := BoundFn fid h |}
                  (removeEventListener s.(overlayCanvas).(el) mouseup (MethodOf HTouchEnd)
                    (removeEventListener s.(overlayCanvas).(el) mousemove (MethodOf HMouseMove)
                    (removeEventListener s.(overlayCanvas).(el) mousedown (MethodOf HMouseDown)
                    (removeEventListener s.(overlayCanvas).(el) touchend (MethodOf HTouchEnd)
                    (removeEventListener s.(overlayCanvas).(el) touchmove (MethodOf HTouchMove)
                    (removeEventListener s.(overlayCanvas).(el) touchstart (MethodOf HTouchStart)
                       w1)))))).(listeners)).
    { repeat (eapply removeEventListener_keeps_bound; [reflexivity |]). exact H. }
    revert K. unfold removeChild. destruct (is_child _ _ _); cbn [snd]; intros K; exact K.
Qed.

Lemma reachable_run_events (P : Platform) (options : ScannerOptions) (w0 : World)
    (es : list Event) (st : Scanner * World) :
  reachable P options w0 st -> reachable P options w0 (run_events P es st).
Proof.
  revert st. induction es as [| e es IH]; intros st R; cbn [run_events fold_left].
  - exact R.
  - apply IH. now apply reach_step.
Qed.

(** * Scenarios

    A platform on which the model runs, and the instances that the examples
    below start from.  The hit test is exact on convex polygons, the square
    root is exact on squares of rationals, and the imaging engine only
    keeps track of sizes. *)

Definition cross (a b p : Position) : Q :=
  (b.(x) - a.(x)) * (p.(y) - a.(y)) - (b.(y) - a.(y)) * (p.(x) - a.(x)).

Definition sample_isPointInPath (polygon' : list Position) (px py : Q) : bool :=
  let p := {| x := px; y := py |} in
  let sides := combine polygon' (List.tl polygon' ++ firstn 1 polygon') in
  let turns := map (fun e => cross (fst e) (snd e) p) sides in
  forallb (fun c => Qle_bool 0 c) turns || forallb (fun c => Qle_bool c 0) turns.

Definition sample_sqrt (q : Q) : Q :=
  inject_Z (Z.sqrt (Qnum q * Zpos (Qden q))) / inject_Z (Zpos (Qden q)).

Definition sample_getImageData (_ : list Ctx.DrawCmd) (w h : Q) : Q * Q := (w, h).
Definition sample_getPerspectiveTransform (_ _ : list Q) : unit := tt.
Definition sample_warpPerspective (_ : Q * Q) (_ : unit) (size : Q * Q) : Q * Q := size.
Definition sample_cols (m : Q * Q) : Q := fst m.
Definition sample_rows (m : Q * Q) : Q := snd m.

Definition sample_imshow (c : OutputCanvas (Q * Q)) (m : Q * Q) : OutputCanvas (Q * Q) :=
  {| out_el := c.(out_el); out_width := fst m; out_height := snd m; pixels := Some m |}.

Definition sample_toDataURL (_ : OutputCanvas (Q * Q)) : string := "data:image/png;base64,".
Definition sample_toBlob (_ : OutputCanvas (Q * Q)) : option unit := Some tt.

Definition sample : Platform :=
  {| isPointInPath := sample_isPointInPath;
     Math_sqrt := sample_sqrt;
     Mat := Q * Q;
     Transform := unit;
     Blob := unit;
     getImageData := sample_getImageData;
     getPerspectiveTransform := sample_getPerspectiveTransform;
     warpPerspective := sample_warpPerspective;
     cols := sample_cols;
     rows := sample_rows;
     imshow := sample_imshow;
     toDataURL := sample_toDataURL;
     toBlob := sample_toBlob |}.

Definition sample_step : Event -> Scanner * World -> Scanner * World := step sample.

Definition sample_run : list Event -> Scanner * World -> Scanner * World :=
  run_events sample.

Definition sample_reachable : ScannerOptions -> World -> Scanner * World -> Prop :=
  reachable sample.

(** A browser at pixel ratio 1 whose document holds the parent element,
    node 0, with the canvas at the origin of the viewport. *)
Definition browser : World :=
  {| devicePixelRatio := 1;
     clientRect := {| rect_left := 0; rect_top := 0 |};
     nextNode := 1; nextFn := 0;
     childNodes := []; listeners := []; console := [] |}.

(** [{ parent }] *)
Definition defaults : ScannerOptions :=
  {| opt_parent := 0%nat;
     opt_width := None; opt_height := None;
     opt_maxWidth := None; opt_maxHeight := None;
     opt_cornerRadius := None; opt_cornerColor := None;
     opt_cropBoxColor := absent; opt_backdropColor := absent;
     opt_minCropBoxWidth := None; opt_minCropBoxHeight := None;
     opt_cropBoxBorderWidth := None; opt_cropBoxBorderColor := None;
     opt_initialCorners := None |}.

(** [{ parent, width: 0, maxWidth: 500 }] *)
Definition zeroWidth : ScannerOptions :=
  {| opt_parent := 0%nat;
     opt_width := Some 0; opt_height := None;
     opt_maxWidth := Some 500; opt_maxHeight := None;
     opt_cornerRadius := None; opt_cornerColor := None;
     opt_cropBoxColor := absent; opt_backdropColor := absent;
     opt_minCropBoxWidth := None; opt_minCropBoxHeight := None;
     opt_cropBoxBorderWidth := None; opt_cropBoxBorderColor := None;
     opt_initialCorners := None |}.

(** [{ parent, width: 400 }] *)
Definition width400 : ScannerOptions :=
  {| opt_parent := 0%nat;
     opt_width := Some 400; opt_height := None;
     opt_maxWidth := None; opt_maxHeight := None;
     opt_cornerRadius := None; opt_cornerColor := None;
     opt_cropBoxColor := absent; opt_backdropColor := absent;
     opt_minCropBoxWidth := None; opt_minCropBoxHeight := None;
     opt_cropBoxBorderWidth := None; opt_cropBoxBorderColor := None;
     opt_initialCorners := None |}.

(** [{ parent, initialCorners: the centred box of the README }] *)
Definition centred : ScannerOptions :=
  {| opt_parent := 0%nat;
     opt_width := None; opt_height := None;
     opt_maxWidth := None; opt_maxHeight := None;
     opt_cornerRadius := None; opt_cornerColor := None;
     opt_cropBoxColor := absent; opt_backdropColor := absent;
     opt_minCropBoxWidth := None; opt_minCropBoxHeight := None;
     opt_cropBoxBorderWidth := None; opt_cropBoxBorderColor := None;
     opt_initialCorners :=
       Some [ {| x := 25; y := 25 |}; {| x := 75; y := 25 |};
              {| x := 75; y := 75 |}; {| x := 25; y := 75 |} ] |}.

(** [{ parent, width: 200, height: 200, minCropBoxWidth: 105,
       initialCorners: a box with a short top edge }] *)
Definition shortTop : ScannerOptions :=
  {| opt_parent := 0%nat;
     opt_width := Some 200; opt_height := Some 200;
     opt_maxWidth := None; opt_maxHeight := None;
     opt_cornerRadius := None; opt_cornerColor := None;
     opt_cropBoxColor := absent; opt_backdropColor := absent;
     opt_minCropBoxWidth := Some 105; opt_minCropBoxHeight := None;
     opt_cropBoxBorderWidth := None; opt_cropBoxBorderColor := None;
     opt_initialCorners :=
       Some [ {| x := 25; y := 0 |}; {| x := 50; y := 0 |};
              {| x := 100; y := 100 |}; {| x := 0; y := 100 |} ] |}.

(** The value of an outcome that is known to be normal. *)
Definition value {A} (o : outcome A) : match o with Normal _ => A | Throw _ => unit end :=
  match o with Normal a => a | Throw _ => tt end.

(** The instance and the browser after [new Scanner(options)]. *)
Definition fresh : Scanner * World :=
  Eval vm_compute in
    (value (fst (constructor defaults browser)), snd (constructor defaults browser)).

Definition fresh400 : Scanner * World :=
  Eval vm_compute in
    (value (fst (constructor width400 browser)), snd (constructor width400 browser)).

Definition freshCentred : Scanner * World :=
  Eval vm_compute in
    (value (fst (constructor centred browser)), snd (constructor centred browser)).

Definition freshShortTop : Scanner * World :=
  Eval vm_compute in
    (value (fst (constructor shortTop browser)), snd (constructor shortTop browser)).

Definition at_ (cx cy : Q) : PointerEvent := {| clientX := cx; clientY := cy |}.

(** After an image of 200 by 200 has loaded. *)
Definition loaded : Scanner * World :=
  Eval vm_compute in
    sample_run [call_loadImg "page.png"; img_load 200 200] fresh.

Definition loadedCentred : Scanner * World :=
  Eval vm_compute in
    sample_run [call_loadImg "page.png"; img_load 200 200] freshCentred.

(** After an image of 50 by 50 has loaded. *)
Definition loadedSmall : Scanner * World :=
  Eval vm_compute in
    sample_run [call_loadImg "stamp.png"; img_load 50 50] fresh.

(** The centred box, pressed in its middle: a whole-box drag is active. *)
Definition dragging : Scanner * World :=
  Eval vm_compute in sample_step (pointer mousedown (at_ 112 112)) loadedCentred.

(** The centred box, pressed on its top-left handle. *)
Definition cornerHeld : Scanner * World :=
  Eval vm_compute in sample_step (pointer mousedown (at_ 62 62)) loadedCentred.

(** The scenario states are states of the instances they start from. *)

Lemma fresh_is_constructed :
  constructor defaults browser = (Normal (fst fresh), snd fresh).
Proof. vm_compute. reflexivity. Qed.

Lemma freshCentred_is_constructed :
  constructor centred browser = (Normal (fst freshCentred), snd freshCentred).
Proof. vm_compute. reflexivity. Qed.

Lemma sample_reachable_run (options : ScannerOptions) (es : list Event)
    (s : Scanner) (w : World) (st : Scanner * World) :
  constructor options browser = (Normal s, w) ->
  sample_run es (s, w) = st ->
  sample_reachable options browser st.
Proof.
  intros C <-. apply reachable_run_events. now apply reach_new.
Qed.

Lemma loadedSmall_reachable : sample_reachable defaults browser loadedSmall.
Proof.
  apply (@sample_reachable_run defaults
           [call_loadImg "stamp.png"; img_load 50 50] (fst fresh) (snd fresh)).
  - exact fresh_is_constructed.
  - vm_compute. reflexivity.
Qed.

Lemma dragging_reachable : sample_reachable centred browser dragging.
Proof.
  apply (@sample_reachable_run centred
           [call_loadImg "page.png"; img_load 200 200; pointer mousedown (at_ 112 112)]
           (fst freshCentred) (snd freshCentred)).
  - exact freshCentred_is_constructed.
  - vm_compute. reflexivity.
Qed.

(** ** Where the specification and the code part *)

(** C5 as stated fails: [{ width: 0, maxWidth: 500 }] sets both [width] and
    [maxWidth], and the constructor returns an instance. *)
Lemma zero_width_with_maxWidth_is_accepted :
  zeroWidth.(opt_width) = Some 0
  /\ zeroWidth.(opt_maxWidth) = Some 500
  /\ exists s w, constructor zeroWidth browser = (Normal s, w).
Proof.
  split; [reflexivity |]. split; [reflexivity |].
  eexists. eexists. vm_compute. reflexivity.
Qed.

(** C8, run: after [destroy] the six listeners of the constructor are the
    listeners of the overlay, and a press on the detached overlay still
    starts a drag. *)
Lemma destroy_then_pointer_still_handled :
  let destroyed := sample_step call_destroy loaded in
  (snd destroyed).(listeners) = (snd loaded).(listeners)
  /\ List.length (listeners_of (fst loaded).(overlayCanvas).(el) (snd destroyed)) = 6%nat
  /\ (snd destroyed).(childNodes) = [(3%nat, 2%nat); (3%nat, 4%nat)]
  /\ (fst destroyed).(move).(active) = false
  /\ (fst (sample_step (pointer mousedown (at_ 112 112)) destroyed)).(move).(active) = true.
Proof. repeat split; vm_compute; reflexivity. Qed.

(** ** The theorems at work *)

(** Closed facts about concrete rationals. *)
Ltac decide_num :=
  vm_compute; repeat split; first [ reflexivity | discriminate ].

Definition centredCorners : list Position :=
  Eval vm_compute in default [] (fst dragging).(corners).

(** The default instance in the sample browser: after [destroy] the subtree
    is detached and each of the six listeners is still on the overlay. *)
Lemma destroy_leaves_the_listeners_witness :
  let w2 := snd (destroy (fst fresh) (snd fresh)) in
  is_child (fst fresh).(parent) (fst fresh).(relativePostionedDiv) w2 = false
  /\ forall ty h, In (ty, h) registered ->
       exists fid,
         In {| target := (fst fresh).(overlayCanvas).(el); type := ty;
               callback := BoundFn fid h |} w2.(listeners).
Proof.
  exact (@destroy_leaves_the_listeners defaults browser (snd fresh) (fst fresh)
           fresh_is_constructed).
Defined.

(** * More of the class

    Properties of the parts of [src/index.ts] that the statements above do
    not reach: the other branches of the layout, hit testing, the wiring of
    the listeners, and the behaviour at the edges. *)

(** ** Layout: the other branches of #initializeCanvasDimensions *)

Lemma not_nonzero_falsy (o : option Q) : ~ nonzero o -> truthy_opt o = false.
Proof.
  intros H. apply not_true_iff_false. now rewrite truthy_opt_nonzero.
Qed.

Lemma nonzero_Some (a : Q) : ~ a == 0 -> nonzero (Some a).
Proof. intros H. now exists a. Qed.

(** X3: with neither [width] nor [height] set the canvas has the natural size of
    the image.  The warning is logged when [maxWidth] and [maxHeight] are
    both set; a single maximum is ignored without a word. *)
Theorem natural_size_layout (s : Scanner) (w : World) :
  ~ nonzero s.(width) -> ~ nonzero s.(height) ->
  let s' := fst (initializeCanvasDimensions s w) in
  let w' := snd (initializeCanvasDimensions s w) in
  s'.(canvas).(style_width) = Some s.(img).(naturalWidth)
  /\ s'.(canvas).(style_height) = Some s.(img).(naturalHeight)
  /\ (nonzero s.(maxWidth) /\ nonzero s.(maxHeight) ->
      w'.(console) = w.(console) ++ [maxIgnoredWarning])
  /\ (~ (nonzero s.(maxWidth) /\ nonzero s.(maxHeight)) -> w' = w).
Proof.
  intros Hw Hh s' w'.
  apply not_nonzero_falsy in Hw, Hh.
  assert (R : resolveDimensions s
              = (s.(img).(naturalWidth), s.(img).(naturalHeight),
                 truthy_opt s.(maxWidth) && truthy_opt s.(maxHeight))).
  { unfold resolveDimensions. rewrite Hw, Hh. reflexivity. }
  unfold s', w', initializeCanvasDimensions. rewrite R.
  split; [reflexivity |]. split; [reflexivity |]. split.
  - intros [A B]. apply truthy_opt_nonzero in A, B. rewrite A, B. reflexivity.
  - intros N.
    assert (E : truthy_opt s.(maxWidth) && truthy_opt s.(maxHeight) = false).
    { apply not_true_iff_false. rewrite andb_true_iff, !truthy_opt_nonzero. exact N. }
    rewrite E. reflexivity.
Qed.

(** ** The aspect ratio *)

Lemma Math_floor_bounds (a : Q) : Math_floor a <= a /\ a < Math_floor a + 1.
Proof.
  unfold Math_floor. split.
  - apply Qfloor_le.
  - pose proof (Qlt_floor a) as H. rewrite inject_Z_plus in H. exact H.
Qed.

(** X5: with only [width] set and an image of positive size, the canvas is never
    wider than [width] nor higher than [maxHeight], and its sides are in the
    ratio of the image to within one pixel: the side that is computed is at
    most what the ratio gives for the other, and at most one below it. *)
Theorem width_only_keeps_aspect_ratio (s : Scanner) (w : World) (width' : Q) :
  s.(width) = Some width' -> ~ width' == 0 -> ~ nonzero s.(height) ->
  0 < s.(img).(naturalWidth) -> 0 < s.(img).(naturalHeight) ->
  let nW := s.(img).(naturalWidth) in
  let nH := s.(img).(naturalHeight) in
  let cw := resolvedWidth s in
  let ch := resolvedHeight s in
  cw <= width'
  /\ (forall m, s.(maxHeight) = Some m -> ~ m == 0 -> ch <= m)
  /\ ((cw = width' /\ ch <= cw * nH / nW <= ch + 1)
      \/ (s.(maxHeight) = Some ch /\ cw <= ch * nW / nH <= cw + 1)).
Proof.
  intros Hw Hw0 Hh HnW HnH nW nH cw ch.
  assert (F : truthy_opt s.(height) = false) by now apply not_nonzero_falsy.
  assert (T : truthy_opt s.(width) = true).
  { rewrite Hw. now apply truthy_true. }
  assert (NW : ~ nW == 0) by (unfold nW; intros E; lra).
  assert (NH : ~ nH == 0) by (unfold nH; intros E; lra).
  pose proof (Math_floor_bounds (width' / nW * nH)) as [B1 B2].
  assert (Q1 : width' / nW * nH == width' * nH / nW) by (field; exact NW).
  unfold cw, ch, resolvedWidth, resolvedHeight, resolveDimensions.
  rewrite T, F. cbn [andb negb]. rewrite Hw. cbn [default]. fold nW nH.
  destruct (truthy_opt s.(maxHeight)
            && gt_num (Math_floor (width' / nW * nH)) (default 0 s.(maxHeight))) eqn:C;
    cbn [fst snd].
  - apply andb_prop in C. destruct C as [C1 C2]. apply gt_num_true in C2.
    destruct s.(maxHeight) as [m |]; [| discriminate]. cbn [default] in *.
    pose proof (Math_floor_bounds (m / nH * nW)) as [D1 D2].
    assert (Q2 : m / nH * nW == m * nW / nH) by (field; exact NH).
    assert (L : m * nW / nH < width').
    { apply (Qmult_lt_r _ _ nH); [exact HnH |].
      setoid_replace (m * nW / nH * nH) with (m * nW) by (field; exact NH).
      assert (M0 : m < width' / nW * nH) by lra.
      assert (M : m * nW < width' / nW * nH * nW)
        by (apply Qmult_lt_r; [exact HnW | exact M0]).
      setoid_replace (width' / nW * nH * nW) with (width' * nH) in M
        by (field; exact NW).
      exact M. }
    split; [lra |]. split.
    + intros m' E _. injection E as <-. lra.
    + right. split; [reflexivity |]. rewrite <- Q2. split; lra.
  - split; [lra |]. split.
    + intros m E Hm0. rewrite E in C. cbn [truthy_opt default] in C.
      apply truthy_true in Hm0. rewrite Hm0 in C. cbn [andb] in C.
      now apply gt_num_false in C.
    + left. split; [reflexivity |]. rewrite <- Q1. split; lra.
Qed.

(** ** Pressing: hit testing and corner selection *)

(** The test of the loop in [#getSelectedCornerIndex]: the pointer is on the
    handle of [corner]. *)
Definition onHandle (P : Platform) (mouseX mouseY radius : Q) (corner : Position) : bool :=
  le_num (P.(Math_sqrt) ((mouseX - corner.(x)) ^ 2 + (mouseY - corner.(y)) ^ 2)) radius.

Lemma firstCornerWithin_cons (P : Platform) (mouseX mouseY radius : Q)
    (c : Position) (cs : list Position) (k : Z) :
  firstCornerWithin P mouseX mouseY radius (c :: cs) k
  = if onHandle P mouseX mouseY radius c then k
    else firstCornerWithin P mouseX mouseY radius cs (k + 1)%Z.
Proof. reflexivity. Qed.

Lemma firstCornerWithin_first (P : Platform) (mouseX mouseY radius : Q)
    (cs : list Position) (k : Z) :
  let i := firstCornerWithin P mouseX mouseY radius cs k in
  (0 <= k)%Z ->
  (i = (-1)%Z /\ Forall (fun c => onHandle P mouseX mouseY radius c = false) cs)
  \/ ((k <= i < k + Z.of_nat (List.length cs))%Z
      /\ exists c,
           nth_error cs (Z.to_nat (i - k)) = Some c
           /\ onHandle P mouseX mouseY radius c = true
           /\ Forall (fun c => onHandle P mouseX mouseY radius c = false)
                (firstn (Z.to_nat (i - k)) cs)).
Proof.
  revert k. induction cs as [| c cs IH]; intros k i Hk.
  - left. split; [reflexivity | constructor].
  - unfold i. rewrite firstCornerWithin_cons.
    destruct (onHandle P mouseX mouseY radius c) eqn:E.
    + right. split; [cbn [List.length]; lia |].
      exists c. rewrite Z.sub_diag. cbn [Z.to_nat nth_error firstn].
      split; [reflexivity |]. split; [exact E | constructor].
    + destruct (IH (k + 1)%Z) as [[A F] | [B (c' & N & H & F)]]; [lia | |].
      * left. split; [exact A |]. constructor; assumption.
      * right. split; [cbn [List.length]; lia |].
        exists c'.
        replace (Z.to_nat (firstCornerWithin P mouseX mouseY radius cs (k + 1) - k))
          with (S (Z.to_nat (firstCornerWithin P mouseX mouseY radius cs (k + 1) - (k + 1))))
          by lia.
        cbn [nth_error firstn]. split; [exact N |]. split; [exact H |].
        constructor; assumption.
Qed.

(** X6: [#getSelectedCornerIndex] returns [-1] when the pointer is on no handle,
    and otherwise the index of the first corner, in the order of the array,
    whose handle the pointer is on. *)
Theorem selected_corner_is_first_on_handle (P : Platform) (mouseX mouseY : Q)
    (s : Scanner) (cs : list Position) :
  s.(corners) = Some cs ->
  exists i,
    getSelectedCornerIndex P mouseX mouseY s = Normal i
    /\ ((i = (-1)%Z
         /\ Forall (fun c => onHandle P mouseX mouseY s.(cornerRadius) c = false) cs)
        \/ ((0 <= i < Z.of_nat (List.length cs))%Z
            /\ exists c,
                 nth_error cs (Z.to_nat i) = Some c
                 /\ onHandle P mouseX mouseY s.(cornerRadius) c = true
                 /\ Forall (fun c => onHandle P mouseX mouseY s.(cornerRadius) c = false)
                      (firstn (Z.to_nat i) cs))).
Proof.
  intros Hc. unfold getSelectedCornerIndex. rewrite Hc.
  eexists. split; [reflexivity |].
  pose proof (@firstCornerWithin_first P mouseX mouseY s.(cornerRadius) cs 0%Z) as H.
  cbv zeta in H. rewrite Z.sub_0_r, Z.add_0_l in H. apply H. lia.
Qed.

(** The polygon that [#isTouchInsideCropBox] tests: the box with each of its
    corners moved by [touchOffset] in both axes, towards the inside of an
    upright box. *)
Definition insetBox (c0 c1 c2 c3 : Position) : list Position :=
  [ {| x := c0.(x) + touchOffset; y := c0.(y) + touchOffset |};
    {| x := c1.(x) - touchOffset; y := c1.(y) + touchOffset |};
    {| x := c2.(x) - touchOffset; y := c2.(y) - touchOffset |};
    {| x := c3.(x) + touchOffset; y := c3.(y) - touchOffset |} ].

Lemma isTouchInsideCropBox_four (P : Platform) (touchX touchY : Q) (s : Scanner)
    (c0 c1 c2 c3 : Position) (rest : list Position) :
  s.(corners) = Some (c0 :: c1 :: c2 :: c3 :: rest) ->
  exists path,
    isTouchInsideCropBox P touchX touchY s
    = (Normal (P.(isPointInPath) (insetBox c0 c1 c2 c3) touchX touchY), emit path s).
Proof.
  intros Hc. unfold isTouchInsideCropBox. cbv zeta.
  change (corners (emit ?l s)) with (corners s). rewrite Hc.
  cbn [corner_at at_index nth_error].
  change (corners (emit ?l (emit ?k s))) with (corners s). rewrite Hc.
  cbn [corner_at at_index nth_error].
  change (corners (emit ?l (emit ?k (emit ?j s)))) with (corners s). rewrite Hc.
  cbn [corner_at at_index nth_error].
  change (corners (emit ?l (emit ?k (emit ?j (emit ?i s))))) with (corners s). rewrite Hc.
  cbn [corner_at at_index nth_error].
  rewrite !emit_emit. eexists. reflexivity.
Qed.

(** X7: a press on a box of four corners either starts a whole-box drag, when
    the pointer is inside the inset polygon and no drag is active, recording
    the pointer position and leaving the selected index alone; or it sets
    the selected index to what [#getSelectedCornerIndex] finds, leaving the
    drag flag and the recorded position alone.  It never moves a corner. *)
Theorem press_starts_drag_or_selects_corner (P : Platform) (touchX touchY : Q)
    (s : Scanner) (c0 c1 c2 c3 : Position) (rest : list Position) :
  s.(corners) = Some (c0 :: c1 :: c2 :: c3 :: rest) ->
  let inside := P.(isPointInPath) (insetBox c0 c1 c2 c3) touchX touchY in
  let s' := snd (afterTouchStart P touchX touchY s) in
  fst (afterTouchStart P touchX touchY s) = Normal tt
  /\ s'.(corners) = s.(corners)
  /\ (inside = true -> s.(move).(active) = false ->
      s'.(move) = {| active := true; prevTouch := {| x := touchX; y := touchY |} |}
      /\ s'.(selectedCornerIndex) = s.(selectedCornerIndex))
  /\ (inside = false \/ s.(move).(active) = true ->
      s'.(move) = s.(move)
      /\ s'.(selectedCornerIndex)
         = firstCornerWithin P touchX touchY s.(cornerRadius)
             (c0 :: c1 :: c2 :: c3 :: rest) 0).
Proof.
  intros Hc inside s'.
  destruct (isTouchInsideCropBox_four P touchX touchY s Hc) as [path E].
  unfold s', afterTouchStart. rewrite E. fold inside.
  unfold getSelectedCornerIndex.
  change (corners (emit path s)) with (corners s). rewrite Hc.
  change (active (move (emit path s))) with (active (move s)).
  destruct inside, (active (move s)); cbn [andb negb fst snd];
    (split; [reflexivity |]); (split; [exact Hc || (symmetry; exact Hc) || now rewrite Hc |]);
    split; intros; try discriminate; try (destruct H; discriminate);
    split; reflexivity.
Qed.

(** ** Before an image has loaded *)

(** No corners, no drag, no corner selected: the state of a new instance. *)
Definition Idle (s : Scanner) : Prop :=
  s.(corners) = None
  /\ s.(move).(active) = false
  /\ s.(selectedCornerIndex) = (-1)%Z.

(** What a pointer handler may change of an instance that has no corners:
    the commands sent to the overlay context, and nothing else. *)
Definition onlyDrew (s s' : Scanner) : Prop :=
  exists path, s' = emit path s.

Lemma emit_nil (s : Scanner) : emit [] s = s.
Proof. unfold emit, set_overlayCtx. rewrite app_nil_r. destruct s. reflexivity. Qed.

Lemma onlyDrew_refl (s : Scanner) : onlyDrew s s.
Proof. exists []. symmetry. apply emit_nil. Qed.

Lemma handleTouchEnd_Idle (s : Scanner) : Idle s -> handleTouchEnd s = s.
Proof.
  intros (_ & Ha & Hi). unfold handleTouchEnd, set_active, set_selectedCornerIndex, set_move.
  destruct s as [? ? ? ? ? ? ? ? ? ? ? ? ? ? ? ? [a p] ? i ? ? ? ? ?].
  cbn [move active selectedCornerIndex prevTouch] in *. now subst.
Qed.

Lemma onlyDrew_trans (a b c : Scanner) : onlyDrew a b -> onlyDrew b c -> onlyDrew a c.
Proof.
  intros [p ->] [q ->]. exists (p ++ q). apply emit_emit.
Qed.

Lemma Idle_emit (path : list Ctx.DrawCmd) (s : Scanner) : Idle s -> Idle (emit path s).
Proof. intros H. exact H. Qed.

Lemma run_Idle (P : Platform) (h : Handler) (event : PointerEvent)
    (s : Scanner) (w : World) :
  Idle s -> onlyDrew s (snd (run P h event s w)).
Proof.
  intros (Hc & Ha & Hi).
  assert (S : forall tx ty, onlyDrew s (snd (afterTouchStart P tx ty s))).
  { intros tx ty. unfold afterTouchStart, isTouchInsideCropBox. cbv zeta.
    change (corners (emit ?l s)) with (corners s). rewrite Hc.
    cbn [corner_at snd]. eexists. reflexivity. }
  assert (M : forall tx ty, onlyDrew s (snd (afterTouchMove tx ty s w))).
  { intros tx ty. unfold afterTouchMove. rewrite Ha, Hi. cbn [Z.eqb negb snd].
    apply onlyDrew_refl. }
  destruct h; cbn [run].
  - unfold handleTouchStart. apply S.
  - unfold handleTouchMove. apply M.
  - cbn [snd]. rewrite handleTouchEnd_Idle; [apply onlyDrew_refl | now split].
  - unfold handleMouseDown. apply S.
  - unfold handleMouseMove. apply M.
Qed.

(** X8: until an image has loaded, pointer events cannot start an interaction:
    whatever listeners are called, the instance still has no corners, no
    active drag and no selected corner afterwards, and nothing of it has
    changed but the path commands sent to the overlay context. *)
Theorem pointer_events_before_load (P : Platform) (ty : EventType)
    (event : PointerEvent) (s : Scanner) (w : World) :
  Idle s ->
  Idle (dispatchEvent P ty event s w)
  /\ onlyDrew s (dispatchEvent P ty event s w).
Proof.
  unfold dispatchEvent.
  generalize (filter (fun l => Nat.eqb l.(target) s.(overlayCanvas).(el)
                               && EventType_eqb l.(type) ty) w.(listeners)).
  intros ls. revert s.
  assert (G : forall s0 s, Idle s -> onlyDrew s0 s ->
                Idle (invokeAll P ls event s w) /\ onlyDrew s0 (invokeAll P ls event s w)).
  { induction ls as [| l ls IH]; intros s0 s I D; cbn [invokeAll].
    - now split.
    - assert (D' : onlyDrew s (snd (invoke P l.(callback) event s w))).
      { destruct l.(callback) as [h | fid h]; cbn [invoke].
        - apply onlyDrew_refl.
        - now apply run_Idle. }
      apply IH.
      + destruct D' as [path ->]. now apply Idle_emit.
      + exact (onlyDrew_trans D D'). }
  intros s I. apply G; [exact I | apply onlyDrew_refl].
Qed.

(** ** Cropping needs four corners *)

(** X9: with fewer than four corners, and so before an image has loaded, [crop]
    throws a [TypeError], and [getBlob] and [getFile] return a promise that
    is rejected with it; the instance and the browser are as they were. *)
Theorem crop_needs_four_corners (P : Platform) (s : Scanner) (w : World) :
  (List.length (default [] s.(corners)) < 4)%nat ->
  crop P s w = (Throw TypeError, s, w)
  /\ getBlob P s w = (Normal (rejected (thrown TypeError)), s, w)
  /\ getFile P s w = (Normal (rejected (thrown TypeError)), s, w).
Proof.
  intros H.
  assert (E : applyPerspectiveTransform P s.(corners) s w = (Throw TypeError, s, w)).
  { unfold applyPerspectiveTransform.
    destruct s.(corners) as [[| p0 [| p1 [| p2 [| p3 rest]]]] |]; try reflexivity.
    cbn [default List.length] in H. lia. }
  unfold crop, getBlob, getFile. rewrite E. repeat split.
Qed.

(** ** Dragging: what is never moved *)

Lemma update_at_other {A} (i j : nat) (f : A -> A) (l : list A) :
  i <> j -> nth_error (update_at i f l) j = nth_error l j.
Proof.
  revert i j. induction l as [| a l IH]; intros i j N; [now destruct i |].
  destruct i as [| i], j as [| j]; cbn [update_at nth_error]; try reflexivity.
  - contradiction.
  - apply IH. lia.
Qed.

Lemma update_at_length {A} (i : nat) (f : A -> A) (l : list A) :
  List.length (update_at i f l) = List.length l.
Proof.
  revert i. induction l as [| a l IH]; intros i; [now destruct i |].
  destruct i; cbn [update_at List.length]; [reflexivity | now rewrite IH].
Qed.

(** X10: a corner drag never moves a corner other than the selected one, and
    never changes the number of corners. *)
Theorem corner_drag_moves_only_selected (s : Scanner) (w : World) (touchX touchY : Q) :
  s.(move).(active) = false ->
  let before := default [] s.(corners) in
  let after := default [] (snd (afterTouchMove touchX touchY s w)).(corners) in
  List.length after = List.length before
  /\ forall j, Z.of_nat j <> s.(selectedCornerIndex) ->
       nth_error after j = nth_error before j.
Proof.
  intros Ha before after. unfold after, before, afterTouchMove. rewrite Ha.
  destruct (negb (Z.eqb s.(selectedCornerIndex) (-1))); [| now split].
  destruct s.(corners) as [cs |] eqn:Hc; [| cbn [snd]; rewrite Hc; now split].
  destruct (cropBoxIsTooSmall _ s) as [[|] | e]; cbn [snd]; rewrite ?Hc;
    try (now split).
  destruct ((0 <=? s.(selectedCornerIndex))%Z
            && (Z.to_nat s.(selectedCornerIndex) <? List.length cs)%nat) eqn:R;
    [| cbn [snd]; rewrite Hc; now split].
  destruct (drawCropBox_only_draws
              (set_corners
                 (Some (update_at (Z.to_nat s.(selectedCornerIndex))
                          (fun _ => {| x := clampX s touchX; y := clampY s touchY |}) cs))
                 s) w) as [log E].
  rewrite E. cbn [corners emit set_overlayCtx set_corners default].
  split; [apply update_at_length |].
  intros j N. apply update_at_other.
  apply andb_prop in R. destruct R as [R _]. apply Z.leb_le in R. lia.
Qed.

(** ** Loading *)



(** ** The source points of the crop *)

(** X15: the source points that [#applyPerspectiveTransform] hands to the engine
    are the corners less the corner radius, in device pixels: display
    coordinates times the pixel ratio. *)
Theorem source_points_in_device_pixels (points : list Position) (s : Scanner)
    (w : World) :
  ~ s.(canvas).(el_width) == 0 -> ~ s.(canvas).(el_height) == 0 ->
  ~ w.(devicePixelRatio) == 0 ->
  Forall2 Qeq (srcTri points s w)
    (flat_map (fun point =>
                 [ (point.(x) - s.(cornerRadius)) * w.(devicePixelRatio);
                   (point.(y) - s.(cornerRadius)) * w.(devicePixelRatio) ]) points).
Proof.
  intros Hw Hh Hd. unfold srcTri.
  induction points as [| p points IH]; cbn [flat_map app]; [constructor |].
  constructor; [field; split; assumption |].
  constructor; [field; split; assumption |].
  exact IH.
Qed.

(** X16: cropping the box that a load without [initialCorners] makes reads the
    whole backing store: the source points are its four corners. *)
Theorem default_box_samples_whole_image (s : Scanner) (w : World) :
  s.(initialCorners) = None ->
  ~ w.(devicePixelRatio) == 0 ->
  ~ resolvedWidth s == 0 -> ~ resolvedHeight s == 0 ->
  let s' := snd (fst (img_onload s w)) in
  exists cs,
    s'.(corners) = Some cs
    /\ Forall2 Qeq (srcTri cs s' w)
         (dstTri (s'.(canvas).(el_width), s'.(canvas).(el_height))).
Proof.
  intros Hi Hd Hw Hh s'.
  destruct (img_onload_fields s w) as (Hc & _ & _ & Hcv & Hr & _).
  destruct (initializeCanvasDimensions_fields s w)
    as (_ & _ & Ew & Eh & _ & Hr1 & Hi1 & _ & _ & Hdpr & _).
  fold s' in Hc, Hcv, Hr.
  set (s1 := fst (initializeCanvasDimensions s w)) in *.
  set (w1 := snd (initializeCanvasDimensions s w)) in *.
  rewrite Hi1, Hi in Hc. unfold initializeCorners in Hc.
  cbn [corners set_corners] in Hc. rewrite Ew, Eh, Hdpr, Hr1 in Hc.
  eexists. split; [exact Hc |].
  unfold srcTri, dstTri. rewrite Hcv, Hr, Ew, Eh.
  cbn [flat_map app x y fst snd].
  set (d := w.(devicePixelRatio)) in *. set (r := s.(cornerRadius)).
  set (cw := resolvedWidth s) in *. set (ch := resolvedHeight s) in *.
  repeat constructor; field; auto.
Qed.

(** ** The boundary test, read as geometry *)

(** X17: on the boundary that the layout makes, [#isPointOnBorder] holds exactly
    for the points of the closed rectangle that lie on one of its sides; in
    particular a point outside the rectangle is not reported. *)
Theorem boundary_test_on_layout_rectangle (s : Scanner) (cw ch : Q) (p : Position) :
  Geometry s cw ch -> 0 <= cw -> 0 <= ch ->
  let r := s.(cornerRadius) in
  isPointOnBorder p (default [] s.(canvasBorderPoints)) = true <->
  (r <= p.(x) <= cw + r /\ r <= p.(y) <= ch + r)
  /\ (p.(x) == r \/ p.(x) == cw + r \/ p.(y) == r \/ p.(y) == ch + r).
Proof.
  intros (Hb & _) Hw Hh r. rewrite Hb. cbn [default].
  exact (isPointOnBorder_rectangle p s.(cornerRadius) Hw Hh).
Qed.

(** ** Mounting and unmounting *)

(** The elements that the constructor makes are the next four of the
    document, in the order image, canvas, container, overlay; the browser
    is otherwise changed by the six registrations and the three
    [appendChild] only. *)
Lemma constructor_structure (options : ScannerOptions) (w w1 : World) (s : Scanner) :
  constructor options w = (Normal s, w1) ->
  let n := w.(nextNode) in
  exists wd,
    w1 = appendChild options.(opt_parent) (2 + n)%nat
           (appendChild (2 + n)%nat (3 + n)%nat (appendChild (2 + n)%nat (1 + n)%nat
              (registerAll (3 + n)%nat wd)))
    /\ wd.(childNodes) = w.(childNodes)
    /\ wd.(listeners) = w.(listeners)
    /\ wd.(nextFn) = w.(nextFn)
    /\ s.(img).(img_el) = n
    /\ s.(canvas).(el) = (1 + n)%nat
    /\ s.(relativePostionedDiv) = (2 + n)%nat
    /\ s.(overlayCanvas).(el) = (3 + n)%nat
    /\ s.(parent) = options.(opt_parent).
Proof.
  unfold constructor.
  destruct (has_key _ && has_key _); [discriminate |].
  destruct (truthy_opt _ && truthy_opt _); [discriminate |].
  destruct (truthy_opt _ && truthy_opt _); [discriminate |].
  unfold createElement. cbv beta iota zeta. intros E. injection E as Es Ew.
  eexists. split; [symmetry; unfold registerAll; exact Ew |].
  rewrite <- Es. repeat split.
Qed.

Lemma listen_childNodes (t : node) (ty : EventType) (h : Handler) (w : World) :
  (listen t ty h w).(childNodes) = w.(childNodes).
Proof.
  unfold listen, bind, addEventListener.
  destruct (existsb _ _); reflexivity.
Qed.

Lemma registerAll_childNodes (o : node) (w : World) :
  (registerAll o w).(childNodes) = w.(childNodes).
Proof. unfold registerAll. now rewrite !listen_childNodes. Qed.

Lemma appendChild_childNodes (p c : node) (w : World) :
  (appendChild p c w).(childNodes)
  = filter (fun e => negb (Nat.eqb (snd e) c)) w.(childNodes) ++ [(p, c)].
Proof. reflexivity. Qed.

Lemma filter_all {A} (f : A -> bool) (l : list A) :
  (forall a, In a l -> f a = true) -> filter f l = l.
Proof.
  induction l as [| a l IH]; intros H; [reflexivity |].
  cbn [filter]. rewrite (H a) by now left.
  f_equal. apply IH. intros b Hb. apply H. now right.
Qed.

Lemma filter_none {A} (f : A -> bool) (l : list A) :
  (forall a, In a l -> f a = false) -> filter f l = [].
Proof.
  induction l as [| a l IH]; intros H; [reflexivity |].
  cbn [filter]. rewrite (H a) by now left.
  apply IH. intros b Hb. apply H. now right.
Qed.

Lemma destroy_childNodes (s : Scanner) (w : World) :
  (is_child s.(parent) s.(relativePostionedDiv) w = true ->
   fst (fst (destroy s w)) = Normal tt
   /\ (snd (destroy s w)).(childNodes)
      = filter (fun e => negb (Nat.eqb (fst e) s.(parent)
                               && Nat.eqb (snd e) s.(relativePostionedDiv)))
          w.(childNodes))
  /\ (is_child s.(parent) s.(relativePostionedDiv) w = false ->
      fst (fst (destroy s w)) = Throw NotFoundError
      /\ (snd (destroy s w)).(childNodes) = w.(childNodes)).
Proof.
  unfold destroy, removeChild.
  set (w' := removeEventListener _ mouseup _ _).
  change (is_child (parent s) (relativePostionedDiv s) w')
    with (is_child (parent s) (relativePostionedDiv s) w).
  split; intros E; rewrite E; split; reflexivity.
Qed.

(** Comparisons of two elements that are a known distance apart. *)
Ltac settle_eqb :=
  repeat match goal with
  | |- context [Nat.eqb ?a ?b] =>
      first [ replace (Nat.eqb a b) with false by (symmetry; apply Nat.eqb_neq; lia)
            | replace (Nat.eqb a b) with true by (symmetry; apply Nat.eqb_eq; lia) ]
  end.

(** X18: in a document whose elements were all made before, construction adds
    exactly three edges to the tree: the canvas and the overlay under the
    container, in this order, and the container as the last child of the
    parent.  [destroy] takes the container from the parent again, so the
    tree is what it was, with the detached container still holding its two
    canvases; a second [destroy] throws a [NotFoundError]. *)
Theorem mount_and_unmount (options : ScannerOptions) (w w1 : World) (s : Scanner) :
  constructor options w = (Normal s, w1) ->
  (forall e, In e w.(childNodes) -> (snd e < w.(nextNode))%nat) ->
  let n := w.(nextNode) in
  let w2 := snd (destroy s w1) in
  w1.(childNodes)
  = w.(childNodes) ++ [ ((2 + n)%nat, (1 + n)%nat); ((2 + n)%nat, (3 + n)%nat);
                        (options.(opt_parent), (2 + n)%nat) ]
  /\ fst (fst (destroy s w1)) = Normal tt
  /\ w2.(childNodes)
     = w.(childNodes) ++ [ ((2 + n)%nat, (1 + n)%nat); ((2 + n)%nat, (3 + n)%nat) ]
  /\ fst (fst (destroy s w2)) = Throw NotFoundError.
Proof.
  intros C WF n w2.
  destruct (constructor_structure options w C)
    as (wd & E & Ec & _ & _ & _ & _ & Er & _ & Ep).
  fold n in E, Er.
  assert (K : forall k, (n <= k)%nat ->
            filter (fun e => negb (Nat.eqb (snd e) k)) w.(childNodes) = w.(childNodes)).
  { intros k Hk. apply filter_all. intros e He.
    apply negb_true_iff, Nat.eqb_neq. specialize (WF e He). fold n in WF.
    unfold node in *. lia. }
  assert (C1 : w1.(childNodes)
               = w.(childNodes) ++ [ ((2 + n)%nat, (1 + n)%nat); ((2 + n)%nat, (3 + n)%nat);
                                     (options.(opt_parent), (2 + n)%nat) ]).
  { rewrite E. rewrite !appendChild_childNodes, registerAll_childNodes, Ec.
    rewrite (K (1 + n)%nat) by lia.
    rewrite !filter_app, (K (3 + n)%nat), (K (2 + n)%nat) by lia.
    repeat (cbn [filter snd negb app]; settle_eqb).
    now rewrite <- !app_assoc. }
  assert (I1 : is_child s.(parent) s.(relativePostionedDiv) w1 = true).
  { unfold is_child. rewrite C1, Ep, Er, existsb_app. apply orb_true_iff. right.
    cbn [existsb fst snd]. settle_eqb. cbn [andb]. now rewrite !orb_true_r. }
  destruct (destroy_childNodes s w1) as [D1 _]. destruct (D1 I1) as [O1 C2]. clear D1.
  fold w2 in C2.
  assert (C2' : w2.(childNodes)
                = w.(childNodes)
                  ++ [ ((2 + n)%nat, (1 + n)%nat); ((2 + n)%nat, (3 + n)%nat) ]).
  { rewrite C2, C1, Ep, Er, filter_app.
    rewrite filter_all.
    - cbn [filter fst snd]. settle_eqb.
      rewrite ?andb_false_r. cbn [negb andb]. reflexivity.
    - intros e He. apply negb_true_iff, andb_false_iff. right.
      apply Nat.eqb_neq. specialize (WF e He). fold n in WF.
      unfold node in *. lia. }
  split; [exact C1 |]. split; [exact O1 |]. split; [exact C2' |].
  destruct (destroy_childNodes s w2) as [_ D2]. apply D2.
  unfold is_child. rewrite C2', Ep, Er, existsb_app.
  apply orb_false_iff. split.
  - apply not_true_iff_false. rewrite existsb_exists. intros (e & He & T).
    apply andb_prop in T. destruct T as [_ T]. apply Nat.eqb_eq in T.
    specialize (WF e He). fold n in WF. unfold node in *. lia.
  - cbn [existsb fst snd]. settle_eqb. now rewrite !andb_false_r.
Qed.

(** ** The wiring of the listeners *)

Lemma existsb_Listener_eqb_false (l : Listener) (ls : list Listener) :
  (forall l', In l' ls -> l'.(target) <> l.(target) \/ l'.(type) <> l.(type)) ->
  existsb (Listener_eqb l) ls = false.
Proof.
  intros H. apply not_true_iff_false. rewrite existsb_exists.
  intros (l' & Hin & E). apply Listener_eqb_eq in E. subst l'.
  destruct (H l Hin) as [N | N]; now apply N.
Qed.

Lemma listen_fresh (t : node) (ty : EventType) (h : Handler) (w : World) :
  (forall l', In l' w.(listeners) -> l'.(target) <> t \/ l'.(type) <> ty) ->
  (listen t ty h w).(listeners)
  = w.(listeners) ++ [ {| target := t; type := ty; callback := BoundFn w.(nextFn) h |} ]
  /\ (listen t ty h w).(nextFn) = S w.(nextFn).
Proof.
  intros H. unfold listen, bind, addEventListener.
  cbn [listeners set_nextFn nextFn].
  rewrite existsb_Listener_eqb_false by exact H.
  split; reflexivity.
Qed.

(** The listener table after the six registrations, on an element that had
    no listener: one bound function per event type, in the order of the
    constructor. *)
Definition boundListeners (o : node) (f : nat) : list Listener :=
  [ {| target := o; type := touchstart; callback := BoundFn f HTouchStart |};
    {| target := o; type := touchmove; callback := BoundFn (1 + f) HTouchMove |};
    {| target := o; type := touchend; callback := BoundFn (2 + f) HTouchEnd |};
    {| target := o; type := mousedown; callback := BoundFn (3 + f) HMouseDown |};
    {| target := o; type := mousemove; callback := BoundFn (4 + f) HMouseMove |};
    {| target := o; type := mouseup; callback := BoundFn (5 + f) HTouchEnd |} ].

Ltac other_listener H :=
  let l' := fresh "l" in
  let Hin := fresh "Hin" in
  intros l' Hin; rewrite ?in_app_iff in Hin; cbn [In] in Hin;
  repeat match type of Hin with
  | _ \/ _ => destruct Hin as [Hin | Hin]
  end;
  first [ left; now apply H
        | contradiction
        | right; subst l'; cbn [type]; discriminate ].

Lemma registerAll_listeners (o : node) (w : World) :
  (forall l, In l w.(listeners) -> l.(target) <> o) ->
  (registerAll o w).(listeners) = w.(listeners) ++ boundListeners o w.(nextFn).
Proof.
  intros H. unfold registerAll.
  set (w1 := listen o touchstart HTouchStart w).
  set (w2 := listen o touchmove HTouchMove w1).
  set (w3 := listen o touchend HTouchEnd w2).
  set (w4 := listen o mousedown HMouseDown w3).
  set (w5 := listen o mousemove HMouseMove w4).
  destruct (@listen_fresh o touchstart HTouchStart w) as [L1 F1];
    [other_listener H |]. fold w1 in L1, F1.
  destruct (@listen_fresh o touchmove HTouchMove w1) as [L2 F2];
    [rewrite L1; other_listener H |]. fold w2 in L2, F2.
  destruct (@listen_fresh o touchend HTouchEnd w2) as [L3 F3];
    [rewrite L2, L1; other_listener H |]. fold w3 in L3, F3.
  destruct (@listen_fresh o mousedown HMouseDown w3) as [L4 F4];
    [rewrite L3, L2, L1; other_listener H |]. fold w4 in L4, F4.
  destruct (@listen_fresh o mousemove HMouseMove w4) as [L5 F5];
    [rewrite L4, L3, L2, L1; other_listener H |]. fold w5 in L5, F5.
  destruct (@listen_fresh o mouseup HTouchEnd w5) as [L6 _];
    [rewrite L5, L4, L3, L2, L1; other_listener H |].
  rewrite L6, L5, L4, L3, L2, L1, F5, F4, F3, F2, F1.
  unfold boundListeners. rewrite <- !app_assoc. reflexivity.
Qed.

Lemma constructor_listeners (options : ScannerOptions) (w w1 : World) (s : Scanner) :
  constructor options w = (Normal s, w1) ->
  (forall l, In l w.(listeners) -> (l.(target) < w.(nextNode))%nat) ->
  (forall l, In l w.(listeners) -> l.(target) <> s.(overlayCanvas).(el))
  /\ w1.(listeners) = w.(listeners) ++ boundListeners s.(overlayCanvas).(el) w.(nextFn).
Proof.
  intros C WF.
  destruct (constructor_structure options w C)
    as (wd & E & _ & El & Ef & _ & _ & _ & Eo & _).
  assert (N : forall l, In l w.(listeners) -> l.(target) <> s.(overlayCanvas).(el)).
  { intros l Hl. specialize (WF l Hl). rewrite Eo. unfold node in *. lia. }
  split; [exact N |].
  rewrite E, !appendChild_listeners, <- Eo.
  rewrite registerAll_listeners by (rewrite El; exact N).
  now rewrite El, Ef.
Qed.

(** With the six bound functions as the only listeners of the overlay, an
    event runs the method bound for its type, once. *)
Lemma dispatchEvent_bound (P : Platform) (base : list Listener) (o : node) (f : nat)
    (ty : EventType) (h : Handler) (event : PointerEvent) (s : Scanner) (w : World) :
  (forall l, In l base -> l.(target) <> o) ->
  w.(listeners) = base ++ boundListeners o f ->
  s.(overlayCanvas).(el) = o ->
  In (ty, h) registered ->
  dispatchEvent P ty event s w = snd (run P h event s w).
Proof.
  intros N L Eo R.
  unfold dispatchEvent. rewrite L, Eo, filter_app.
  rewrite filter_none.
  - unfold registered in R. cbn [In] in R.
    destruct R as [R | [R | [R | [R | [R | [R | []]]]]]]; injection R as <- <-;
      cbn [app filter boundListeners target type EventType_eqb];
      rewrite !Nat.eqb_refl; cbn [andb invokeAll callback invoke]; reflexivity.
  - intros l Hl. apply andb_false_iff. left. apply Nat.eqb_neq. now apply N.
Qed.

(** ** What pointer events never touch *)

(** Every field but the four that interaction writes ([#corners], [#move],
    [#selectedCornerIndex] and the overlay context) is the same. *)
Definition untouchedByPointer (s s' : Scanner) : Prop :=
  s'.(parent) = s.(parent)
  /\ s'.(relativePostionedDiv) = s.(relativePostionedDiv)
  /\ s'.(canvas) = s.(canvas)
  /\ s'.(width) = s.(width)
  /\ s'.(height) = s.(height)
  /\ s'.(maxWidth) = s.(maxWidth)
  /\ s'.(maxHeight) = s.(maxHeight)
  /\ s'.(ctx) = s.(ctx)
  /\ s'.(canvasBorderPoints) = s.(canvasBorderPoints)
  /\ s'.(img) = s.(img)
  /\ s'.(cornerRadius) = s.(cornerRadius)
  /\ s'.(cornerColor) = s.(cornerColor)
  /\ s'.(cropBoxColor) = s.(cropBoxColor)
  /\ s'.(backdropColor) = s.(backdropColor)
  /\ s'.(minCropBoxWidth) = s.(minCropBoxWidth)
  /\ s'.(minCropBoxHeight) = s.(minCropBoxHeight)
  /\ s'.(overlayCanvas) = s.(overlayCanvas)
  /\ s'.(cropBoxBorderWidth) = s.(cropBoxBorderWidth)
  /\ s'.(cropBoxBorderColor) = s.(cropBoxBorderColor)
  /\ s'.(initialCorners) = s.(initialCorners).

Lemma untouchedByPointer_refl (s : Scanner) : untouchedByPointer s s.
Proof. repeat split. Qed.

Lemma untouchedByPointer_trans (a b c : Scanner) :
  untouchedByPointer a b -> untouchedByPointer b c -> untouchedByPointer a c.
Proof.
  unfold untouchedByPointer.
  intros (A1 & A2 & A3 & A4 & A5 & A6 & A7 & A8 & A9 & A10 & A11 & A12 & A13 & A14
          & A15 & A16 & A17 & A18 & A19 & A20)
         (B1 & B2 & B3 & B4 & B5 & B6 & B7 & B8 & B9 & B10 & B11 & B12 & B13 & B14
          & B15 & B16 & B17 & B18 & B19 & B20).
  repeat split; etransitivity; eassumption.
Qed.

Lemma drawCropBox_untouched (s : Scanner) (w : World) :
  untouchedByPointer s (snd (drawCropBox s w)).
Proof.
  destruct (drawCropBox_only_draws s w) as [rest E]. rewrite E. repeat split.
Qed.

Lemma isTouchInsideCropBox_onlyDrew (P : Platform) (s : Scanner) (touchX touchY : Q) :
  onlyDrew s (snd (isTouchInsideCropBox P touchX touchY s)).
Proof.
  unfold isTouchInsideCropBox. cbv zeta.
  change (corners (emit ?l s)) with (corners s).
  destruct (corner_at s.(corners) 0); [| eexists; reflexivity].
  change (corners (emit ?l ?t)) with (corners t).
  change (corners (emit ?l s)) with (corners s).
  destruct (corner_at s.(corners) 1); [| rewrite !emit_emit; eexists; reflexivity].
  change (corners (emit ?l ?t)) with (corners t).
  change (corners (emit ?l ?t)) with (corners t).
  change (corners (emit ?l s)) with (corners s).
  destruct (corner_at s.(corners) 2); [| rewrite !emit_emit; eexists; reflexivity].
  change (corners (emit ?l ?t)) with (corners t).
  change (corners (emit ?l ?t)) with (corners t).
  change (corners (emit ?l ?t)) with (corners t).
  change (corners (emit ?l s)) with (corners s).
  destruct (corner_at s.(corners) 3); rewrite !emit_emit; eexists; reflexivity.
Qed.

Lemma afterTouchStart_untouched (P : Platform) (s : Scanner) (touchX touchY : Q) :
  untouchedByPointer s (snd (afterTouchStart P touchX touchY s)).
Proof.
  unfold afterTouchStart.
  destruct (isTouchInsideCropBox_onlyDrew P s touchX touchY) as [path E].
  destruct (isTouchInsideCropBox P touchX touchY s) as [[inside | e] s1];
    cbn [snd] in *; subst s1; [| repeat split].
  destruct (inside && negb _); [repeat split |].
  destruct (getSelectedCornerIndex P touchX touchY _); repeat split.
Qed.

Lemma moveCropBox_untouched (s : Scanner) (w : World) (touchX touchY : Q) :
  untouchedByPointer s (snd (moveCropBox touchX touchY s w)).
Proof.
  unfold moveCropBox.
  destruct s.(corners) as [cs |]; [| apply untouchedByPointer_refl].
  destruct (translatedCorners touchX touchY s cs) as [| t ts];
    destruct s.(canvasBorderPoints) as [border |];
    try apply untouchedByPointer_refl;
    (eapply untouchedByPointer_trans; [| apply drawCropBox_untouched]);
    destruct (negb _); repeat split.
Qed.

Lemma afterTouchMove_untouched (s : Scanner) (w : World) (touchX touchY : Q) :
  untouchedByPointer s (snd (afterTouchMove touchX touchY s w)).
Proof.
  unfold afterTouchMove.
  destruct s.(move).(active); [apply moveCropBox_untouched |].
  destruct (negb _); [| apply untouchedByPointer_refl].
  destruct s.(corners) as [cs |]; [| apply untouchedByPointer_refl].
  destruct (cropBoxIsTooSmall _ s) as [[|] | e]; try apply untouchedByPointer_refl.
  destruct (_ && _); [| apply untouchedByPointer_refl].
  eapply untouchedByPointer_trans; [| apply drawCropBox_untouched].
  repeat split.
Qed.

Lemma run_untouched (P : Platform) (h : Handler) (event : PointerEvent)
    (s : Scanner) (w : World) :
  untouchedByPointer s (snd (run P h event s w)).
Proof.
  destruct h; cbn [run].
  - unfold handleTouchStart. apply afterTouchStart_untouched.
  - unfold handleTouchMove. apply afterTouchMove_untouched.
  - cbn [snd]. repeat split.
  - unfold handleMouseDown. apply afterTouchStart_untouched.
  - unfold handleMouseMove. apply afterTouchMove_untouched.
Qed.

Lemma dispatchEvent_untouched (P : Platform) (ty : EventType)
    (event : PointerEvent) (s : Scanner) (w : World) :
  untouchedByPointer s (dispatchEvent P ty event s w).
Proof.
  unfold dispatchEvent.
  generalize (filter (fun l => Nat.eqb l.(target) s.(overlayCanvas).(el)
                               && EventType_eqb l.(type) ty) w.(listeners)).
  intros ls.
  assert (G : forall s0 s, untouchedByPointer s0 s ->
                untouchedByPointer s0 (invokeAll P ls event s w)).
  { induction ls as [| l ls IH]; intros s0 s1 U; cbn [invokeAll]; [exact U |].
    apply IH. apply (untouchedByPointer_trans U).
    destruct l.(callback) as [h | fid h]; cbn [invoke].
    - apply untouchedByPointer_refl.
    - apply run_untouched. }
  apply G, untouchedByPointer_refl.
Qed.

(** X19: a pointer event changes the crop box, the interaction state and
    the drawing on the overlay, and nothing else: the image is not drawn
    again, neither canvas is resized, and the boundary, the image and the
    options stay as they are, whatever listeners are called and whether or
    not an image has loaded; the browser is as it was. *)
Theorem pointer_events_keep_layout (P : Platform) (ty : EventType)
    (event : PointerEvent) (s : Scanner) (w : World) :
  let st := step P (pointer ty event) (s, w) in
  untouchedByPointer s (fst st) /\ snd st = w.
Proof.
  intros st. unfold st. cbn [step fst snd].
  split; [apply dispatchEvent_untouched | reflexivity].
Qed.

(** ** Every state of an instance *)

(** The fields that hold the options and the elements of the instance. *)
Definition sameOptions (s s' : Scanner) : Prop :=
  s'.(parent) = s.(parent)
  /\ s'.(relativePostionedDiv) = s.(relativePostionedDiv)
  /\ s'.(canvas).(el) = s.(canvas).(el)
  /\ s'.(overlayCanvas).(el) = s.(overlayCanvas).(el)
  /\ s'.(img).(img_el) = s.(img).(img_el)
  /\ s'.(width) = s.(width)
  /\ s'.(height) = s.(height)
  /\ s'.(maxWidth) = s.(maxWidth)
  /\ s'.(maxHeight) = s.(maxHeight)
  /\ s'.(cornerRadius) = s.(cornerRadius)
  /\ s'.(cornerColor) = s.(cornerColor)
  /\ s'.(cropBoxColor) = s.(cropBoxColor)
  /\ s'.(backdropColor) = s.(backdropColor)
  /\ s'.(minCropBoxWidth) = s.(minCropBoxWidth)
  /\ s'.(minCropBoxHeight) = s.(minCropBoxHeight)
  /\ s'.(cropBoxBorderWidth) = s.(cropBoxBorderWidth)
  /\ s'.(cropBoxBorderColor) = s.(cropBoxBorderColor)
  /\ s'.(initialCorners) = s.(initialCorners).

Lemma sameOptions_refl (s : Scanner) : sameOptions s s.
Proof. repeat split. Qed.

Lemma sameOptions_trans (a b c : Scanner) :
  sameOptions a b -> sameOptions b c -> sameOptions a c.
Proof.
  unfold sameOptions.
  intros (A1 & A2 & A3 & A4 & A5 & A6 & A7 & A8 & A9 & A10 & A11 & A12 & A13 & A14
          & A15 & A16 & A17 & A18)
         (B1 & B2 & B3 & B4 & B5 & B6 & B7 & B8 & B9 & B10 & B11 & B12 & B13 & B14
          & B15 & B16 & B17 & B18).
  repeat split; etransitivity; eassumption.
Qed.

Lemma untouchedByPointer_sameOptions (s s' : Scanner) :
  untouchedByPointer s s' -> sameOptions s s'.
Proof.
  unfold untouchedByPointer, sameOptions.
  intros (A1 & A2 & A3 & A4 & A5 & A6 & A7 & A8 & A9 & A10 & A11 & A12 & A13 & A14
          & A15 & A16 & A17 & A18 & A19 & A20).
  rewrite A3, A10, A17. repeat split; assumption.
Qed.

Lemma img_onload_sameOptions (s : Scanner) (w : World) :
  sameOptions s (snd (fst (img_onload s w))).
Proof.
  unfold img_onload.
  assert (I : sameOptions s (fst (initializeCanvasDimensions s w))).
  { unfold initializeCanvasDimensions.
    destruct (resolveDimensions s) as [[cw ch] warn]. repeat split. }
  destruct (initializeCanvasDimensions s w) as [s1 w1]. cbn [fst] in I.
  destruct (drawCropBox_only_draws
              (drawImage (initializeCorners s1.(initialCorners) s1 w1)) w1) as [log E].
  destruct (drawCropBox _ w1) as [r s3]. cbn [fst snd] in *. subst s3.
  apply (sameOptions_trans I). destruct s1.(initialCorners); repeat split.
Qed.

Lemma step_sameOptions (P : Platform) (e : Event) (s : Scanner) (w : World) :
  sameOptions s (fst (step P e (s, w))).
Proof.
  destruct e; try (rewrite step_call_frame by tauto; apply sameOptions_refl).
  - cbn [step fst]. repeat split.
  - cbn [step]. destruct s.(img).(onload); [| apply sameOptions_refl].
    pose proof (img_onload_sameOptions (set_natural naturalWidth' naturalHeight' s) w) as I.
    destruct (img_onload _ w) as [[r s1] w1]. cbn [fst snd] in *.
    refine (sameOptions_trans _ I). repeat split.
  - apply sameOptions_refl.
  - cbn [step fst]. apply untouchedByPointer_sameOptions, dispatchEvent_untouched.
Qed.

(** X20: the options of an instance are fixed at construction: in every state
    that calls and events lead to, the dimensions asked for, the radius,
    the colours, the minimum sizes, the border and [initialCorners] are
    what the constructor stored, and the instance still has the same
    parent, container, canvases and image element. *)
Theorem options_never_change (P : Platform) (options : ScannerOptions)
    (w0 w1 : World) (s0 : Scanner) (st : Scanner * World) :
  constructor options w0 = (Normal s0, w1) ->
  reachable P options w0 st ->
  sameOptions s0 (fst st).
Proof.
  intros C R. induction R as [s w C' | e [s w] R IH].
  - rewrite C in C'. injection C' as <- _. apply sameOptions_refl.
  - exact (sameOptions_trans IH (step_sameOptions P e s w)).
Qed.

Lemma removeEventListener_absent (t : node) (ty : EventType) (f : FnRef) (w : World) :
  ~ In {| target := t; type := ty; callback := f |} w.(listeners) ->
  (removeEventListener t ty f w).(listeners) = w.(listeners).
Proof.
  intros H. unfold removeEventListener. cbn [listeners set_listeners].
  apply filter_all. intros l Hl. apply negb_true_iff, not_true_iff_false.
  intros E. apply Listener_eqb_eq in E. subst l. contradiction.
Qed.

Lemma destroy_listeners (s : Scanner) (w : World) :
  (forall ty h, ~ In {| target := s.(overlayCanvas).(el); type := ty;
                        callback := MethodOf h |} w.(listeners)) ->
  (snd (destroy s w)).(listeners) = w.(listeners).
Proof.
  intros H. unfold destroy.
  set (o := s.(overlayCanvas).(el)) in *.
  set (w1 := removeEventListener o touchstart (MethodOf HTouchStart) w).
  set (w2 := removeEventListener o touchmove (MethodOf HTouchMove) w1).
  set (w3 := removeEventListener o touchend (MethodOf HTouchEnd) w2).
  set (w4 := removeEventListener o mousedown (MethodOf HMouseDown) w3).
  set (w5 := removeEventListener o mousemove (MethodOf HMouseMove) w4).
  set (w6 := removeEventListener o mouseup (MethodOf HTouchEnd) w5).
  assert (L1 : w1.(listeners) = w.(listeners))
    by (apply removeEventListener_absent, H).
  assert (L2 : w2.(listeners) = w.(listeners))
    by (rewrite <- L1; apply removeEventListener_absent; rewrite L1; apply H).
  assert (L3 : w3.(listeners) = w.(listeners))
    by (rewrite <- L2; apply removeEventListener_absent; rewrite L2; apply H).
  assert (L4 : w4.(listeners) = w.(listeners))
    by (rewrite <- L3; apply removeEventListener_absent; rewrite L3; apply H).
  assert (L5 : w5.(listeners) = w.(listeners))
    by (rewrite <- L4; apply removeEventListener_absent; rewrite L4; apply H).
  assert (L6 : w6.(listeners) = w.(listeners))
    by (rewrite <- L5; apply removeEventListener_absent; rewrite L5; apply H).
  unfold removeChild. destruct (is_child _ _ w6); cbn [snd]; exact L6.
Qed.

Lemma img_onload_listeners (s : Scanner) (w : World) :
  (snd (img_onload s w)).(listeners) = w.(listeners).
Proof.
  unfold img_onload.
  assert (I : (snd (initializeCanvasDimensions s w)).(listeners) = w.(listeners)).
  { unfold initializeCanvasDimensions.
    destruct (resolveDimensions s) as [[cw ch] [|]]; reflexivity. }
  destruct (initializeCanvasDimensions s w) as [s1 w1].
  destruct (drawCropBox _ w1) as [r s3]. exact I.
Qed.

Lemma applyPerspectiveTransform_listeners (P : Platform)
    (points : option (list Position)) (s : Scanner) (w : World) :
  (snd (applyPerspectiveTransform P points s w)).(listeners) = w.(listeners).
Proof.
  unfold applyPerspectiveTransform.
  destruct points as [[| p0 [| p1 [| p2 [| p3 rest]]]] |]; reflexivity.
Qed.

Lemma step_listeners (P : Platform) (e : Event) (s : Scanner) (w : World) :
  (forall ty h, ~ In {| target := s.(overlayCanvas).(el); type := ty;
                        callback := MethodOf h |} w.(listeners)) ->
  (snd (step P e (s, w))).(listeners) = w.(listeners).
Proof.
  intros H. destruct e; cbn [step]; try reflexivity.
  - destruct s.(img).(onload); [| reflexivity].
    pose proof (img_onload_listeners (set_natural naturalWidth' naturalHeight' s) w) as I.
    now destruct (img_onload _ w) as [[r s1] w1].
  - unfold crop.
    pose proof (applyPerspectiveTransform_listeners P s.(corners) s w) as A.
    now destruct (applyPerspectiveTransform P s.(corners) s w) as [[[c | e] s1] w1].
  - unfold getBlob.
    pose proof (applyPerspectiveTransform_listeners P s.(corners) s w) as A.
    destruct (applyPerspectiveTransform P s.(corners) s w) as [[[c | e] s1] w1];
      [destruct (P.(toBlob) c) |]; exact A.
  - unfold getFile.
    pose proof (applyPerspectiveTransform_listeners P s.(corners) s w) as A.
    destruct (applyPerspectiveTransform P s.(corners) s w) as [[[c | e] s1] w1];
      [destruct (P.(toBlob) c) |]; exact A.
  - pose proof (destroy_listeners s w H) as D.
    now destruct (destroy s w) as [[r s1] w1].
Qed.

(** X21: the listener table is settled at construction.  In a document whose
    listeners were all on elements made before, every state that calls and
    events lead to, [destroy] included, has the listeners that were there
    before and the six bound functions on the overlay, and nothing else;
    so in every such state an event on the overlay runs the method bound
    for its type. *)
Theorem listener_table_never_changes (P : Platform) (options : ScannerOptions)
    (w0 : World) (st : Scanner * World) :
  (forall l, In l w0.(listeners) -> (l.(target) < w0.(nextNode))%nat) ->
  reachable P options w0 st ->
  (snd st).(listeners)
  = w0.(listeners) ++ boundListeners (fst st).(overlayCanvas).(el) w0.(nextFn)
  /\ forall ty h event,
       In (ty, h) registered ->
       dispatchEvent P ty event (fst st) (snd st)
       = snd (run P h event (fst st) (snd st)).
Proof.
  intros WF R.
  assert (K : (snd st).(listeners)
              = w0.(listeners) ++ boundListeners (fst st).(overlayCanvas).(el) w0.(nextFn)
              /\ forall l, In l w0.(listeners) -> l.(target) <> (fst st).(overlayCanvas).(el)).
  { induction R as [s w C | e [s w] R [L N]]; cbn [fst snd] in *.
    - destruct (constructor_listeners options w0 C WF) as [N L]. now split.
    - destruct (step_sameOptions P e s w) as (_ & _ & _ & Eo & _).
      rewrite Eo. split; [| exact N].
      rewrite step_listeners; [exact L |].
      intros ty h Hin. rewrite L in Hin. apply in_app_or in Hin.
      destruct Hin as [Hin | Hin].
      + now apply (N _ Hin).
      + unfold boundListeners in Hin. cbn [In] in Hin.
        repeat (destruct Hin as [Hin | Hin]; [discriminate Hin |]). exact Hin. }
  destruct K as [L N]. split; [exact L |].
  intros ty h event Hin.
  now apply (@dispatchEvent_bound P w0.(listeners) (fst st).(overlayCanvas).(el) w0.(nextFn)).
Qed.

(** ** A new instance *)

Lemma keep_truthy_cases (o : option Q) :
  (keep_truthy o = None /\ ~ nonzero o) \/ (keep_truthy o = o /\ nonzero o).
Proof.
  unfold keep_truthy. destruct (truthy_opt o) eqn:E.
  - right. split; [reflexivity | now apply truthy_opt_nonzero].
  - left. split; [reflexivity |]. rewrite <- truthy_opt_nonzero. congruence.
Qed.

Lemma nonzero_None : ~ nonzero None.
Proof. intros (a & E & _). discriminate. Qed.

(** X22: what the constructor leaves: no corners, no drag, no corner selected,
    no boundary, and an image without handlers.  Each of [width], [height],
    [maxWidth] and [maxHeight] is stored as the option gives it when that is
    a number other than zero, and is unset otherwise; a dimension and its
    maximum are never both stored; the minimum sizes are stored as given,
    zero included, with 100 for a missing one. *)
Theorem new_instance_state (options : ScannerOptions) (w w1 : World) (s : Scanner) :
  constructor options w = (Normal s, w1) ->
  Idle s
  /\ s.(canvasBorderPoints) = None
  /\ s.(img).(onload) = false
  /\ Forall (fun o => o = None \/ nonzero o)
       [s.(width); s.(height); s.(maxWidth); s.(maxHeight)]
  /\ ~ (nonzero s.(width) /\ nonzero s.(maxWidth))
  /\ ~ (nonzero s.(height) /\ nonzero s.(maxHeight))
  /\ s.(minCropBoxWidth) = default 100 options.(opt_minCropBoxWidth)
  /\ s.(minCropBoxHeight) = default 100 options.(opt_minCropBoxHeight)
  /\ s.(canvas).(style_padding) = Some s.(cornerRadius)
  /\ Forall (fun d : option Q * option Q =>
               (nonzero (snd d) -> fst d = snd d) /\ (~ nonzero (snd d) -> fst d = None))
       [ (s.(width), options.(opt_width)); (s.(height), options.(opt_height));
         (s.(maxWidth), options.(opt_maxWidth)); (s.(maxHeight), options.(opt_maxHeight)) ].
Proof.
  unfold constructor.
  destruct (has_key _ && has_key _); [discriminate |].
  destruct (truthy_opt options.(opt_width) && truthy_opt options.(opt_maxWidth)) eqn:A;
    [discriminate |].
  destruct (truthy_opt options.(opt_height) && truthy_opt options.(opt_maxHeight)) eqn:B;
    [discriminate |].
  unfold createElement. cbv beta iota zeta. intros E. injection E as Es _.
  rewrite <- Es.
  cbn [Idle corners move active selectedCornerIndex canvasBorderPoints img onload
       width height maxWidth maxHeight minCropBoxWidth minCropBoxHeight canvas
       style_padding set_style_padding cornerRadius].
  assert (L : forall o, (nonzero o -> keep_truthy o = o)
                        /\ (~ nonzero o -> keep_truthy o = None)).
  { intros o. destruct (keep_truthy_cases o) as [[K N] | [K N]]; rewrite K; tauto. }
  split; [repeat split |]. split; [reflexivity |]. split; [reflexivity |].
  split.
  { assert (KT : forall o, keep_truthy o = None \/ nonzero (keep_truthy o)).
    { intros o. destruct (keep_truthy_cases o) as [[K _] | [K N]]; rewrite K; tauto. }
    repeat (apply Forall_cons; [apply KT |]). apply Forall_nil. }
  split.
  { intros [H1 H2].
    destruct (keep_truthy_cases options.(opt_width)) as [[K _] | [_ N1]];
      [rewrite K in H1; now apply nonzero_None |].
    destruct (keep_truthy_cases options.(opt_maxWidth)) as [[K _] | [_ N2]];
      [rewrite K in H2; now apply nonzero_None |].
    apply truthy_opt_nonzero in N1, N2. rewrite N1, N2 in A. discriminate. }
  split.
  { intros [H1 H2].
    destruct (keep_truthy_cases options.(opt_height)) as [[K _] | [_ N1]];
      [rewrite K in H1; now apply nonzero_None |].
    destruct (keep_truthy_cases options.(opt_maxHeight)) as [[K _] | [_ N2]];
      [rewrite K in H2; now apply nonzero_None |].
    apply truthy_opt_nonzero in N1, N2. rewrite N1, N2 in B. discriminate. }
  split; [reflexivity |]. split; [reflexivity |]. split; [reflexivity |].
  repeat (apply Forall_cons; [apply L |]). apply Forall_nil.
Qed.

(** ** The promises *)

(** X23: with four corners or more, the three methods that produce an image
    encode one and the same output canvas.  [getBlob] and [getFile] fulfil
    when the encoder gives a blob, the file being named
    [cropped-image.png], and otherwise reject with a message that is a
    string; one element is made for the output and is not attached. *)
Theorem output_methods_share_one_canvas (P : Platform) (s : Scanner) (w : World)
    (p0 p1 p2 p3 : Position) (rest : list Position) :
  s.(corners) = Some (p0 :: p1 :: p2 :: p3 :: rest) ->
  exists c,
    let w' := set_nextNode (S w.(nextNode)) w in
    crop P s w = (Normal (P.(toDataURL) c), s, w')
    /\ getBlob P s w
       = (Normal match P.(toBlob) c with
                 | Some blob => fulfilled blob
                 | None => rejected (message "Error getting blob.")
                 end, s, w')
    /\ getFile P s w
       = (Normal match P.(toBlob) c with
                 | Some blob => fulfilled {| bits := blob; name := "cropped-image.png" |}
                 | None => rejected (message "Error getting file.")
                 end, s, w').
Proof.
  intros Hc. unfold crop, getBlob, getFile, applyPerspectiveTransform, createElement.
  rewrite Hc. cbv beta iota zeta.
  eexists. split; [reflexivity |].
  split; destruct (P.(toBlob) _); reflexivity.
Qed.

(** ** What #drawCropBox draws *)

(** The compositing mode of a context after a sequence of calls. *)
Fixpoint compositeAfter (mode : string) (log : list Ctx.DrawCmd) : string :=
  match log with
  | [] => mode
  | Ctx.setGlobalCompositeOperation op :: log' => compositeAfter op log'
  | _ :: log' => compositeAfter mode log'
  end.

(** The circles among a sequence of calls: centre and radius. *)
Definition circles (log : list Ctx.DrawCmd) : list (Q * Q * Q) :=
  flat_map (fun c => match c with
                     | Ctx.arc px py radius => [(px, py, radius)]
                     | _ => []
                     end) log.

Lemma compositeAfter_app (mode : string) (a b : list Ctx.DrawCmd) :
  compositeAfter mode (a ++ b) = compositeAfter (compositeAfter mode a) b.
Proof.
  revert mode. induction a as [| c a IH]; intros mode; [reflexivity |].
  destruct c; cbn [app compositeAfter]; apply IH.
Qed.

Lemma circles_app (a b : list Ctx.DrawCmd) : circles (a ++ b) = circles a ++ circles b.
Proof. unfold circles. apply flat_map_app. Qed.

Lemma polygon_plain (c0 : Position) (rest : list Position) (mode : string) :
  compositeAfter mode (polygon c0 rest) = mode /\ circles (polygon c0 rest) = [].
Proof.
  unfold polygon. cbn [compositeAfter circles flat_map app].
  induction rest as [| c rest [IH1 IH2]]; [now split |].
  cbn [map app compositeAfter flat_map]. split; assumption.
Qed.

Lemma handles_plain (r : Q) (cs : list Position) (mode : string) :
  let handles :=
    flat_map (fun corner => [Ctx.beginPath; Ctx.arc corner.(x) corner.(y) r; Ctx.fill]) cs in
  compositeAfter mode handles = mode
  /\ circles handles = map (fun c => (c.(x), c.(y), r)) cs.
Proof.
  induction cs as [| c cs [IH1 IH2]]; [now split |].
  cbn [flat_map app compositeAfter map]. split; [exact IH1 |].
  unfold circles in *. cbn [flat_map app]. now rewrite IH2.
Qed.

(** X24: when there is a corner, [#drawCropBox] returns normally, having
    drawn one circle per corner, in the order of the array, at the corner
    and of the corner radius, and no other circle; and whatever the
    compositing mode was and whether it punched the box out of the backdrop
    or filled it with a colour, it leaves the overlay context in
    [source-over]. *)
Theorem drawCropBox_draws_handles (s : Scanner) (w : World) (c0 : Position)
    (rest : list Position) :
  s.(corners) = Some (c0 :: rest) ->
  exists log,
    drawCropBox s w = (Normal tt, emit log s)
    /\ circles log = map (fun c => (c.(x), c.(y), s.(cornerRadius))) (c0 :: rest)
    /\ forall mode, compositeAfter mode log = "source-over"%string.
Proof.
  intros Hc. unfold drawCropBox. cbv zeta.
  destruct (handles_plain s.(cornerRadius) (c0 :: rest) "source-over") as [H1 H2].
  destruct (negb (truthy_str _)); rewrite !emit_emit;
    change (corners (emit ?l s)) with (corners s); rewrite Hc;
    rewrite !emit_emit; (eexists; split; [reflexivity |]);
    change (cornerRadius (emit ?l s)) with (cornerRadius s);
    (split;
     [ rewrite !circles_app;
       rewrite (proj2 (polygon_plain c0 rest "")), H2;
       change (circles (Ctx.beginPath :: polygon c0 rest)) with (circles (polygon c0 rest));
       rewrite (proj2 (polygon_plain c0 rest ""));
       cbn [circles flat_map app]; now rewrite app_nil_r
     | intros mode; rewrite !compositeAfter_app;
       cbn [compositeAfter];
       rewrite ?(proj1 (polygon_plain c0 rest _));
       cbn [compositeAfter]; rewrite H1;
       rewrite ?(proj1 (polygon_plain c0 rest _)); reflexivity ]).
Qed.

(** * More scenarios *)

(** [{ parent, height: 300 }] *)
Definition height300 : ScannerOptions :=
  {| opt_parent := 0%nat;
     opt_width := None; opt_height := Some 300;
     opt_maxWidth := None; opt_maxHeight := None;
     opt_cornerRadius := None; opt_cornerColor := None;
     opt_cropBoxColor := absent; opt_backdropColor := absent;
     opt_minCropBoxWidth := None; opt_minCropBoxHeight := None;
     opt_cropBoxBorderWidth := None; opt_cropBoxBorderColor := None;
     opt_initialCorners := None |}.

(** [{ parent, maxWidth: 500, maxHeight: 500 }] *)
Definition bothMaxima : ScannerOptions :=
  {| opt_parent := 0%nat;
     opt_width := None; opt_height := None;
     opt_maxWidth := Some 500; opt_maxHeight := Some 500;
     opt_cornerRadius := None; opt_cornerColor := None;
     opt_cropBoxColor := absent; opt_backdropColor := absent;
     opt_minCropBoxWidth := None; opt_minCropBoxHeight := None;
     opt_cropBoxBorderWidth := None; opt_cropBoxBorderColor := None;
     opt_initialCorners := None |}.

Definition fresh300 : Scanner * World :=
  Eval vm_compute in
    (value (fst (constructor height300 browser)), snd (constructor height300 browser)).

Definition freshBothMaxima : Scanner * World :=
  Eval vm_compute in
    (value (fst (constructor bothMaxima browser)), snd (constructor bothMaxima browser)).

(** The instance, the image of 800 by 600 on its way. *)
Definition awaiting (st : Scanner * World) : Scanner :=
  set_natural 800 600 (loadImg "page.png" (fst st)).

Ltac not_zero := let H := fresh in intros H; vm_compute in H; discriminate H.

Ltac unset := let a := fresh in let E := fresh in intros (a & E & _); discriminate E.

(** With both maxima and no dimension, the image of 800 by 600 is laid out
    at its own size and the warning is logged. *)
Lemma natural_size_layout_witness :
  let s' := fst (initializeCanvasDimensions (awaiting freshBothMaxima)
                   (snd freshBothMaxima)) in
  let w' := snd (initializeCanvasDimensions (awaiting freshBothMaxima)
                   (snd freshBothMaxima)) in
  s'.(canvas).(style_width) = Some 800
  /\ s'.(canvas).(style_height) = Some 600
  /\ w'.(console) = [maxIgnoredWarning].
Proof.
  intros s' w'.
  assert (Hw : ~ nonzero (awaiting freshBothMaxima).(width)) by unset.
  assert (Hh : ~ nonzero (awaiting freshBothMaxima).(height)) by unset.
  destruct (@natural_size_layout (awaiting freshBothMaxima) (snd freshBothMaxima) Hw Hh)
    as (Sw & Sh & W & _).
  split; [exact Sw |]. split; [exact Sh |].
  apply W. split; apply nonzero_Some; not_zero.
Defined.

(** [width = 400] and an image of 800 by 600: the canvas is 400 wide and
    its height is within one pixel of 300. *)
Lemma width_only_keeps_aspect_ratio_witness :
  let s := awaiting fresh400 in
  resolvedWidth s <= 400
  /\ ((resolvedWidth s = 400
       /\ resolvedHeight s <= resolvedWidth s * 600 / 800 <= resolvedHeight s + 1)
      \/ (s.(maxHeight) = Some (resolvedHeight s)
          /\ resolvedWidth s <= resolvedHeight s * 800 / 600 <= resolvedWidth s + 1)).
Proof.
  intros s.
  assert (Hw : s.(width) = Some 400) by reflexivity.
  assert (N0 : ~ 400 == 0) by not_zero.
  assert (Hh : ~ nonzero s.(height)) by unset.
  assert (P1 : 0 < s.(img).(naturalWidth)) by decide_num.
  assert (P2 : 0 < s.(img).(naturalHeight)) by decide_num.
  destruct (@width_only_keeps_aspect_ratio s (snd fresh400) 400 Hw N0 Hh P1 P2)
    as (A & _ & B).
  split; [exact A | exact B].
Defined.

(** On the centred box, a pointer at [(162, 62)] is on the handle of the
    second corner, and of no earlier one. *)
Lemma selected_corner_is_first_on_handle_witness :
  getSelectedCornerIndex sample 162 62 (fst loadedCentred) = Normal 1%Z
  /\ exists i,
       getSelectedCornerIndex sample 162 62 (fst loadedCentred) = Normal i
       /\ ((i = (-1)%Z
            /\ Forall (fun c => onHandle sample 162 62 12 c = false) centredCorners)
           \/ ((0 <= i < 4)%Z
               /\ exists c,
                    nth_error centredCorners (Z.to_nat i) = Some c
                    /\ onHandle sample 162 62 12 c = true
                    /\ Forall (fun c => onHandle sample 162 62 12 c = false)
                         (firstn (Z.to_nat i) centredCorners))).
Proof.
  split; [vm_compute; reflexivity |].
  assert (Hc : (fst loadedCentred).(corners) = Some centredCorners) by reflexivity.
  exact (@selected_corner_is_first_on_handle sample 162 62 (fst loadedCentred)
           centredCorners Hc).
Defined.

(** The centred box pressed in its middle: a whole-box drag starts at the
    pointer position, and no corner is selected. *)
Lemma press_starts_drag_or_selects_corner_witness :
  let s := fst loadedCentred in
  let s' := snd (afterTouchStart sample 112 112 s) in
  s'.(move) = {| active := true; prevTouch := {| x := 112; y := 112 |} |}
  /\ s'.(selectedCornerIndex) = (-1)%Z
  /\ s'.(corners) = s.(corners).
Proof.
  intros s s'.
  assert (Hc : s.(corners)
               = Some [ nth 0 centredCorners origin; nth 1 centredCorners origin;
                        nth 2 centredCorners origin; nth 3 centredCorners origin ])
    by reflexivity.
  destruct (@press_starts_drag_or_selects_corner sample 112 112 s _ _ _ _ _ Hc)
    as (_ & K & D & _).
  fold s' in K, D.
  destruct D as [M I]; [vm_compute; reflexivity | reflexivity |].
  split; [exact M |]. split; [exact I | exact K].
Defined.

(** A new instance: a press on the overlay changes nothing but the path of
    the overlay context. *)
Lemma pointer_events_before_load_witness :
  Idle (dispatchEvent sample mousedown (at_ 112 112) (fst fresh) (snd fresh))
  /\ onlyDrew (fst fresh)
       (dispatchEvent sample mousedown (at_ 112 112) (fst fresh) (snd fresh)).
Proof.
  apply pointer_events_before_load. repeat split.
Defined.

(** A new instance has no corners: [crop] throws, the promises reject. *)
Lemma crop_needs_four_corners_witness :
  crop sample (fst fresh) (snd fresh) = (Throw TypeError, fst fresh, snd fresh)
  /\ getBlob sample (fst fresh) (snd fresh)
     = (Normal (rejected (thrown TypeError)), fst fresh, snd fresh)
  /\ getFile sample (fst fresh) (snd fresh)
     = (Normal (rejected (thrown TypeError)), fst fresh, snd fresh).
Proof.
  apply crop_needs_four_corners. cbn. lia.
Defined.

(** The centred box held by its top-left handle and dragged to [(50, 50)]:
    the three other corners are where they were. *)
Lemma corner_drag_moves_only_selected_witness :
  let after :=
    default [] (snd (afterTouchMove 50 50 (fst cornerHeld) (snd cornerHeld))).(corners) in
  List.length after = 4%nat
  /\ nth_error after 1 = nth_error centredCorners 1
  /\ nth_error after 2 = nth_error centredCorners 2
  /\ nth_error after 3 = nth_error centredCorners 3.
Proof.
  intros after.
  assert (Ha : (fst cornerHeld).(move).(active) = false) by reflexivity.
  destruct (@corner_drag_moves_only_selected (fst cornerHeld) (snd cornerHeld) 50 50 Ha)
    as [L N].
  fold after in L, N.
  split; [rewrite L; reflexivity |].
  split; [rewrite (N 1%nat) by discriminate; reflexivity |].
  split; [rewrite (N 2%nat) by discriminate; reflexivity |].
  rewrite (N 3%nat) by discriminate; reflexivity.
Defined.

Lemma loaded_geometry : Geometry (fst loaded) 200 200.
Proof. split; [| split]; vm_compute; reflexivity. Defined.

Definition fullCorners : list Position :=
  Eval vm_compute in default [] (fst loaded).(corners).

(** The centred box on the canvas of 200 by 200 at pixel ratio 1: the source
    points are the corners less the radius of 12. *)
Lemma source_points_in_device_pixels_witness :
  Forall2 Qeq (srcTri centredCorners (fst loadedCentred) (snd loadedCentred))
    (flat_map (fun point => [ (point.(x) - 12) * 1; (point.(y) - 12) * 1 ])
       centredCorners).
Proof.
  apply source_points_in_device_pixels; not_zero.
Defined.

(** The image of 200 by 200 with the default options: the source points of
    a crop are the corners of the backing store. *)
Lemma default_box_samples_whole_image_witness :
  let s := set_natural 200 200 (loadImg "page.png" (fst fresh)) in
  let s' := snd (fst (img_onload s (snd fresh))) in
  exists cs,
    s'.(corners) = Some cs
    /\ Forall2 Qeq (srcTri cs s' (snd fresh))
         (dstTri (s'.(canvas).(el_width), s'.(canvas).(el_height))).
Proof.
  intros s s'.
  apply default_box_samples_whole_image; [reflexivity | not_zero | not_zero | not_zero].
Defined.

(** On the canvas of 200 by 200, the point [(12, 50)] is on the left side
    of the boundary. *)
Lemma boundary_test_on_layout_rectangle_witness :
  isPointOnBorder {| x := 12; y := 50 |}
    (default [] (fst loaded).(canvasBorderPoints)) = true.
Proof.
  assert (H0 : 0 <= 200) by decide_num.
  apply (@boundary_test_on_layout_rectangle (fst loaded) 200 200
           {| x := 12; y := 50 |} loaded_geometry H0 H0).
  split; [decide_num |]. left. decide_num.
Defined.

(** In the sample browser, whose document holds the parent only: after
    construction the container (3) holds the canvas (2) and the overlay (4)
    and is under the parent (0); after [destroy] it is not, and a second
    [destroy] throws. *)
Lemma mount_and_unmount_witness :
  let w2 := snd (destroy (fst fresh) (snd fresh)) in
  (snd fresh).(childNodes) = [ (3%nat, 2%nat); (3%nat, 4%nat); (0%nat, 3%nat) ]
  /\ fst (fst (destroy (fst fresh) (snd fresh))) = Normal tt
  /\ w2.(childNodes) = [ (3%nat, 2%nat); (3%nat, 4%nat) ]
  /\ fst (fst (destroy (fst fresh) w2)) = Throw NotFoundError.
Proof.
  apply (@mount_and_unmount defaults browser (snd fresh) (fst fresh)
           fresh_is_constructed).
  intros e [].
Defined.

(** After an image has loaded into the default instance, the options are
    those of the new instance. *)
Lemma options_never_change_witness :
  sameOptions (fst fresh) (fst loadedSmall).
Proof.
  exact (@options_never_change sample defaults browser (snd fresh) (fst fresh)
           loadedSmall fresh_is_constructed loadedSmall_reachable).
Defined.

(** While the centred box is dragged, the listeners of the browser are the
    six of the constructor, and a [mouseup] releases. *)
Lemma listener_table_never_changes_witness :
  (snd dragging).(listeners) = boundListeners 4%nat 0%nat
  /\ dispatchEvent sample mouseup (at_ 112 112) (fst dragging) (snd dragging)
     = handleTouchEnd (fst dragging).
Proof.
  assert (WF : forall l, In l browser.(listeners) -> (l.(target) < browser.(nextNode))%nat)
    by (intros l []).
  destruct (@listener_table_never_changes sample centred browser dragging WF
              dragging_reachable) as [L D].
  split; [exact L |].
  apply (D mouseup HTouchEnd (at_ 112 112)).
  unfold registered. do 5 right. left. reflexivity.
Defined.

(** The default instance. *)
Lemma new_instance_state_witness :
  Idle (fst fresh)
  /\ (fst fresh).(canvasBorderPoints) = None
  /\ (fst fresh).(minCropBoxWidth) = 100
  /\ (fst fresh).(canvas).(style_padding) = Some 12
  /\ (fst fresh).(width) = None.
Proof.
  destruct (@new_instance_state defaults browser (snd fresh) (fst fresh)
              fresh_is_constructed) as (I & B & _ & _ & _ & _ & M & _ & Pd & L).
  split; [exact I |]. split; [exact B |]. split; [exact M |]. split; [exact Pd |].
  apply Forall_inv in L. destruct L as [_ L]. apply L. apply nonzero_None.
Defined.

(** The box over the whole image of 200 by 200: the three methods encode
    the same canvas, and the promises fulfil on the sample platform. *)
Lemma output_methods_share_one_canvas_witness :
  exists c,
    crop sample (fst loaded) (snd loaded)
    = (Normal (sample_toDataURL c), fst loaded, set_nextNode 6%nat (snd loaded))
    /\ getBlob sample (fst loaded) (snd loaded)
       = (Normal (fulfilled tt), fst loaded, set_nextNode 6%nat (snd loaded))
    /\ getFile sample (fst loaded) (snd loaded)
       = (Normal (fulfilled {| bits := tt; name := "cropped-image.png" |}),
          fst loaded, set_nextNode 6%nat (snd loaded)).
Proof.
  assert (Hc : (fst loaded).(corners)
               = Some [ nth 0 fullCorners origin; nth 1 fullCorners origin;
                        nth 2 fullCorners origin; nth 3 fullCorners origin ])
    by reflexivity.
  destruct (@output_methods_share_one_canvas sample (fst loaded) (snd loaded)
              _ _ _ _ _ Hc) as (c & C & B & F).
  exists c. split; [exact C |]. split; [exact B | exact F].
Defined.

(** The box over the whole image of 200 by 200 is drawn with four handles,
    and the context is left in [source-over]. *)
Lemma drawCropBox_draws_handles_witness :
  exists log,
    drawCropBox (fst loaded) (snd loaded) = (Normal tt, emit log (fst loaded))
    /\ List.length (circles log) = 4%nat
    /\ compositeAfter "destination-out" log = "source-over"%string.
Proof.
  assert (Hc : (fst loaded).(corners)
               = Some [ nth 0 fullCorners origin; nth 1 fullCorners origin;
                        nth 2 fullCorners origin; nth 3 fullCorners origin ])
    by reflexivity.
  destruct (@drawCropBox_draws_handles (fst loaded) (snd loaded) _ _ Hc)
    as (log & D & C & M).
  exists log. split; [exact D |]. split; [rewrite C; reflexivity | apply M].
Defined.

(** * The machine: properties

    What the class does on doubles and with the integer attributes of the
    canvas element.  The theorems hold for every rounding of the four
    operations; the scenarios below run them on the doubles of
    JavaScript. *)

(** ** Layout *)

(** What [#initializeCanvasDimensions] leaves, from the numbers [lw] and [lh]
    of its branch: the canvas is as wide as the integer that the [width]
    attribute made of [lw], the overlay and the backing store are computed
    from that integer, and the boundary from [lw] itself. *)
Lemma machine_layout (A : Arithmetic) (s : Scanner) (w : World) :
  let s' := fst (Machine.initializeCanvasDimensions A s w) in
  let w' := snd (Machine.initializeCanvasDimensions A s w) in
  let lw := fst (fst (Machine.resolveDimensions A s)) in
  let lh := snd (fst (Machine.resolveDimensions A s)) in
  let r := s.(cornerRadius) in
  let dw := unsignedLong 300 lw in
  let dh := unsignedLong 150 lh in
  s'.(canvas).(style_width) = Some dw
  /\ s'.(canvas).(style_height) = Some dh
  /\ s'.(canvas).(el_width) = unsignedLong 300 (Machine.mul A dw w.(devicePixelRatio))
  /\ s'.(canvas).(el_height) = unsignedLong 150 (Machine.mul A dh w.(devicePixelRatio))
  /\ s'.(overlayCanvas).(el_width)
     = unsignedLong 300 (Machine.add A dw (Machine.mul A 2 r))
  /\ s'.(overlayCanvas).(el_height)
     = unsignedLong 150 (Machine.add A dh (Machine.mul A 2 r))
  /\ s'.(canvasBorderPoints) = Some (Machine.borderPoints A r lw lh)
  /\ s'.(cornerRadius) = r
  /\ s'.(initialCorners) = s.(initialCorners)
  /\ s'.(corners) = s.(corners)
  /\ s'.(move) = s.(move)
  /\ s'.(selectedCornerIndex) = s.(selectedCornerIndex)
  /\ w'.(devicePixelRatio) = w.(devicePixelRatio).
Proof.
  cbv zeta. unfold Machine.initializeCanvasDimensions.
  destruct (Machine.resolveDimensions A s) as [[lw lh] warn]. cbn -[Qmult Qplus unsignedLong].
  destruct warn; repeat split; reflexivity.
Qed.

(** The height that the first branch computes from [width]: the quotient is
    rounded, then the product, and [Math.floor] takes the integer below. *)
Definition heightFor (A : Arithmetic) (width' nW nH : Q) : Q :=
  Math_floor (A.(round) (A.(round) (width' / nW) * nH)).

(** The width it computes from [maxHeight] when that height is too large. *)
Definition widthFor (A : Arithmetic) (maxHeight' nW nH : Q) : Q :=
  Math_floor (A.(round) (A.(round) (maxHeight' / nH) * nW)).


(** X1: with only [height] set (to a number other than zero) the branch
    computes the width [Math.floor((height / naturalHeight) * naturalWidth)],
    the quotient and the product each rounded to a double; when [maxWidth]
    is set and that width exceeds it, the width is [maxWidth] and the
    height is [Math.floor((maxWidth / naturalWidth) * naturalHeight)],
    rounded likewise.  The canvas takes these numbers through its integer
    attributes. *)
Theorem height_only_layout_rounded (A : Arithmetic) (s : Scanner) (w : World)
    (height' : Q) :
  s.(height) = Some height' -> ~ height' == 0 -> ~ nonzero s.(width) ->
  ~ s.(img).(naturalWidth) == 0 -> ~ s.(img).(naturalHeight) == 0 ->
  let nW := s.(img).(naturalWidth) in
  let nH := s.(img).(naturalHeight) in
  let s' := fst (Machine.initializeCanvasDimensions A s w) in
  let wd := widthFor A height' nW nH in
  let lw := fst (fst (Machine.resolveDimensions A s)) in
  let lh := snd (fst (Machine.resolveDimensions A s)) in
  ((~ nonzero s.(maxWidth) \/ exists m, s.(maxWidth) = Some m /\ wd <= m) ->
     lw = wd /\ lh = height')
  /\ (forall m, s.(maxWidth) = Some m -> ~ m == 0 -> m < wd ->
     lw = m /\ lh = heightFor A m nW nH)
  /\ s'.(canvas).(style_width) = Some (unsignedLong 300 lw)
  /\ s'.(canvas).(style_height) = Some (unsignedLong 150 lh).
Proof.
  intros Hh Hh0 Hw _ _ nW nH s' wd lw lh.
  destruct (machine_layout A s w) as (Sw & Sh & _).
  fold s' lw lh in Sw, Sh.
  assert (F : truthy_opt s.(width) = false) by now apply not_nonzero_falsy.
  assert (T : truthy_opt s.(height) = true).
  { rewrite Hh. now apply truthy_true. }
  assert (R : Machine.resolveDimensions A s
              = if truthy_opt s.(maxWidth) && gt_num wd (default 0 s.(maxWidth))
                then (default 0 s.(maxWidth),
                      heightFor A (default 0 s.(maxWidth)) nW nH, false)
                else (wd, height', false)).
  { unfold Machine.resolveDimensions. rewrite F, T, Hh. reflexivity. }
  split; [| split].
  - intros M. unfold lw, lh. rewrite R.
    destruct M as [M | (m & E & Hm)].
    + rewrite (not_nonzero_falsy M). split; reflexivity.
    + rewrite E. cbn [default]. apply gt_num_false in Hm.
      rewrite Hm, andb_false_r. split; reflexivity.
  - intros m E Hm Hlt. unfold lw, lh. rewrite R, E. cbn [truthy_opt default].
    apply truthy_true in Hm. apply gt_num_true in Hlt. rewrite Hm, Hlt.
    split; reflexivity.
  - split; assumption.
Qed.

(** X2: with both [width] and [height] set (to numbers other than zero) the
    branch takes them as they are, whatever the size of the image; the
    canvas has their integer parts as its size, while the boundary is made
    of the numbers themselves; nothing is logged. *)
Theorem both_dimensions_layout_rounded (A : Arithmetic) (s : Scanner) (w : World)
    (width' height' : Q) :
  s.(width) = Some width' -> ~ width' == 0 ->
  s.(height) = Some height' -> ~ height' == 0 ->
  let s' := fst (Machine.initializeCanvasDimensions A s w) in
  let r := s.(cornerRadius) in
  s'.(canvas).(style_width) = Some (unsignedLong 300 width')
  /\ s'.(canvas).(style_height) = Some (unsignedLong 150 height')
  /\ s'.(canvas).(el_width)
     = unsignedLong 300 (A.(round) (unsignedLong 300 width' * w.(devicePixelRatio)))
  /\ s'.(canvas).(el_height)
     = unsignedLong 150 (A.(round) (unsignedLong 150 height' * w.(devicePixelRatio)))
  /\ s'.(canvasBorderPoints)
     = Some [ {| x := r; y := r |};
              {| x := A.(round) (width' + r); y := r |};
              {| x := A.(round) (width' + r); y := A.(round) (height' + r) |};
              {| x := r; y := A.(round) (height' + r) |} ]
  /\ snd (Machine.initializeCanvasDimensions A s w) = w.
Proof.
  intros Hw Hw0 Hh Hh0 s' r.
  assert (Tw : truthy_opt s.(width) = true) by (rewrite Hw; now apply truthy_true).
  assert (Th : truthy_opt s.(height) = true) by (rewrite Hh; now apply truthy_true).
  assert (R : Machine.resolveDimensions A s = (width', height', false)).
  { unfold Machine.resolveDimensions. rewrite Tw, Th, Hw, Hh. reflexivity. }
  unfold s', Machine.initializeCanvasDimensions. rewrite R.
  repeat split.
Qed.

(** X4: in every branch the sizes come from the two numbers [lw] and [lh] of
    the branch as follows.  The canvas element takes their integer parts
    [dw] and [dh] (the [width] and [height] attributes are integers), and
    its style is [dw] by [dh]; the overlay is [dw + 2 * cornerRadius] by
    [dh + 2 * cornerRadius] and the backing store [dw] and [dh] times the
    pixel ratio, each through the attributes again; the boundary is the
    rectangle from the radius to [lw] and [lh] plus the radius.  The layout
    leaves the crop box and the interaction state as they were, and of the
    browser it changes the console at most. *)
Theorem layout_sizes_through_attributes (A : Arithmetic) (s : Scanner) (w : World) :
  let s' := fst (Machine.initializeCanvasDimensions A s w) in
  let w' := snd (Machine.initializeCanvasDimensions A s w) in
  let r := s.(cornerRadius) in
  exists lw lh,
    let dw := unsignedLong 300 lw in
    let dh := unsignedLong 150 lh in
    s'.(canvas).(style_width) = Some dw
    /\ s'.(canvas).(style_height) = Some dh
    /\ s'.(canvas).(el_width) = unsignedLong 300 (A.(round) (dw * w.(devicePixelRatio)))
    /\ s'.(canvas).(el_height) = unsignedLong 150 (A.(round) (dh * w.(devicePixelRatio)))
    /\ s'.(overlayCanvas).(el_width)
       = unsignedLong 300 (A.(round) (dw + A.(round) (2 * r)))
    /\ s'.(overlayCanvas).(el_height)
       = unsignedLong 150 (A.(round) (dh + A.(round) (2 * r)))
    /\ s'.(canvasBorderPoints)
       = Some [ {| x := r; y := r |};
                {| x := A.(round) (lw + r); y := r |};
                {| x := A.(round) (lw + r); y := A.(round) (lh + r) |};
                {| x := r; y := A.(round) (lh + r) |} ]
    /\ s'.(corners) = s.(corners)
    /\ s'.(move) = s.(move)
    /\ s'.(selectedCornerIndex) = s.(selectedCornerIndex)
    /\ s'.(canvas).(el) = s.(canvas).(el)
    /\ s'.(overlayCanvas).(el) = s.(overlayCanvas).(el)
    /\ set_console w.(console) w' = w.
Proof.
  cbv zeta. unfold Machine.initializeCanvasDimensions.
  destruct (Machine.resolveDimensions A s) as [[lw lh] warn].
  exists lw, lh. destruct w. destruct warn; repeat split.
Qed.

(** ** Rendering and pressing change the overlay context only *)

Lemma machine_drawCropBox_only_draws (A : Arithmetic) (s : Scanner) (w : World) :
  exists rest,
    snd (Machine.drawCropBox A s w)
    = emit (Ctx.clearRect 0 0 s.(overlayCanvas).(el_width)
                              s.(overlayCanvas).(el_height) :: rest) s.
Proof.
  unfold Machine.drawCropBox. cbv zeta.
  destruct (negb (truthy_str _)); rewrite !emit_emit;
    change (corners (emit ?l s)) with (corners s);
    destruct s.(corners) as [[| c0 rest] |]; cbn [snd];
    rewrite ?emit_emit; eexists; reflexivity.
Qed.



(** ** The padded region *)

(** The bounds that both drags clamp to. *)
Definition regionRight (A : Arithmetic) (s : Scanner) : Q :=
  Machine.sub A s.(overlayCanvas).(el_width) s.(cornerRadius).

Definition regionBottom (A : Arithmetic) (s : Scanner) : Q :=
  Machine.sub A s.(overlayCanvas).(el_height) s.(cornerRadius).









(** ** Pointer moves *)

(** What [#moveCropBox] leaves, once the corners and the boundary exist:
    the translated corners or the old ones, the new pointer position, and a
    redraw. *)
Lemma machine_moveCropBox_result (A : Arithmetic) (touchX touchY : Q)
    (s : Scanner) (w : World) (cs border : list Position) :
  s.(corners) = Some cs -> s.(canvasBorderPoints) = Some border ->
  let translated := Machine.translatedCorners A touchX touchY s cs in
  let kept :=
    if negb (existsb (fun t => Machine.isPointOnBorder A t border) translated)
    then set_corners (Some translated) s else s in
  exists rest,
    snd (Machine.moveCropBox A touchX touchY s w)
    = emit (Ctx.clearRect 0 0 s.(overlayCanvas).(el_width)
                              s.(overlayCanvas).(el_height) :: rest)
           (set_prevTouch touchX touchY kept).
Proof.
  intros Hc Hb translated kept. unfold Machine.moveCropBox. rewrite Hc, Hb.
  fold translated. cbn [default].
  destruct (machine_drawCropBox_only_draws A (set_prevTouch touchX touchY kept) w)
    as [rest R].
  exists rest.
  replace (el_width (overlayCanvas s))
    with (el_width (overlayCanvas (set_prevTouch touchX touchY kept)))
    by (unfold kept; destruct (negb _); reflexivity).
  replace (el_height (overlayCanvas s))
    with (el_height (overlayCanvas (set_prevTouch touchX touchY kept)))
    by (unfold kept; destruct (negb _); reflexivity).
  rewrite <- R. destruct translated; reflexivity.
Qed.

(** The corners after [#moveCropBox], in every case: the old ones, or the
    translated ones, each of them clamped. *)
Lemma machine_moveCropBox_corners (A : Arithmetic) (touchX touchY : Q)
    (s : Scanner) (w : World) :
  let s' := snd (Machine.moveCropBox A touchX touchY s w) in
  s'.(overlayCanvas) = s.(overlayCanvas)
  /\ s'.(cornerRadius) = s.(cornerRadius)
  /\ (s'.(corners) = s.(corners)
      \/ exists cs, s.(corners) = Some cs
           /\ s'.(corners) = Some (Machine.translatedCorners A touchX touchY s cs)).
Proof.
  cbv zeta. unfold Machine.moveCropBox.
  destruct s.(corners) as [cs |] eqn:Hc; [| cbn [snd]; repeat split; now left].
  set (translated := Machine.translatedCorners A touchX touchY s cs).
  assert (D : forall s1, s1.(overlayCanvas) = s.(overlayCanvas) ->
                s1.(cornerRadius) = s.(cornerRadius) ->
                (s1.(corners) = Some cs \/ s1.(corners) = Some translated) ->
                let s' := snd (Machine.drawCropBox A (set_prevTouch touchX touchY s1) w) in
                s'.(overlayCanvas) = s.(overlayCanvas)
                /\ s'.(cornerRadius) = s.(cornerRadius)
                /\ (s'.(corners) = Some cs
                    \/ exists cs0, Some cs = Some cs0
                         /\ s'.(corners)
                            = Some (Machine.translatedCorners A touchX touchY s cs0))).
  { intros s1 Ho Hr Hk. cbv zeta.
    destruct (machine_drawCropBox_only_draws A (set_prevTouch touchX touchY s1) w)
      as [rest ->].
    cbn [emit set_overlayCtx set_prevTouch set_move overlayCanvas cornerRadius corners].
    split; [exact Ho |]. split; [exact Hr |].
    destruct Hk as [Hk | Hk]; [left; exact Hk |].
    right. exists cs. split; [reflexivity | exact Hk]. }
  assert (K : forall b : bool,
            let s1 := if b then set_corners (Some translated) s else s in
            s1.(overlayCanvas) = s.(overlayCanvas)
            /\ s1.(cornerRadius) = s.(cornerRadius)
            /\ (s1.(corners) = Some cs \/ s1.(corners) = Some translated)).
  { intros [|]; cbn; repeat split; auto. }
  destruct translated as [| t ts] eqn:Et.
  - destruct (K (negb (existsb
               (fun t => Machine.isPointOnBorder A t (default [] s.(canvasBorderPoints)))
               []))) as (Ko & Kr & Kc).
    exact (D _ Ko Kr Kc).
  - destruct s.(canvasBorderPoints) as [border |] eqn:Hb.
    + destruct (K (negb (existsb
                 (fun t0 => Machine.isPointOnBorder A t0 (default [] (Some border)))
                 (t :: ts)))) as (Ko & Kr & Kc).
      exact (D _ Ko Kr Kc).
    + cbn [snd]. split; [reflexivity |]. split; [reflexivity |]. now left.
Qed.











(** ** The crop box under the drags *)





(** X11: a whole-box move is all or nothing: afterwards the corners are the
    old ones, or every corner is its translation by the pointer delta, the
    sums rounded and each coordinate clamped to the padded region.  The
    overlay and the radius are as they were. *)
Theorem whole_box_move_all_or_nothing (A : Arithmetic) (touchX touchY : Q)
    (s : Scanner) (w : World) :
  let s' := snd (Machine.moveCropBox A touchX touchY s w) in
  let dx := A.(round) (touchX - s.(move).(prevTouch).(x)) in
  let dy := A.(round) (touchY - s.(move).(prevTouch).(y)) in
  let r := s.(cornerRadius) in
  let right := A.(round) (s.(overlayCanvas).(el_width) - r) in
  let bottom := A.(round) (s.(overlayCanvas).(el_height) - r) in
  s'.(overlayCanvas) = s.(overlayCanvas)
  /\ s'.(cornerRadius) = r
  /\ (s'.(corners) = s.(corners)
      \/ exists cs, s.(corners) = Some cs
           /\ s'.(corners)
              = Some (map (fun c =>
                             {| x := Math_max r (Math_min (A.(round) (c.(x) + dx)) right);
                                y := Math_max r (Math_min (A.(round) (c.(y) + dy)) bottom) |})
                          cs)).
Proof.
  exact (machine_moveCropBox_corners A touchX touchY s w).
Qed.

(** ** The whole-box drag *)

(** The rectangle with the corners [tl] and [br], clockwise from [tl]. *)
Definition rectangle (tl br : Position) : list Position :=
  [ tl; {| x := br.(x); y := tl.(y) |}; br; {| x := tl.(x); y := br.(y) |} ].

(** A point on a segment is within the bounds of its end points, whatever
    the rounding. *)
Lemma machine_onSegment_bounds (A : Arithmetic) (p a b : Position) :
  Machine.onSegment A p a b = true ->
  Math_min a.(x) b.(x) <= p.(x) <= Math_max a.(x) b.(x)
  /\ Math_min a.(y) b.(y) <= p.(y) <= Math_max a.(y) b.(y).
Proof.
  unfold Machine.onSegment. intros H. num_prop. tauto.
Qed.

Lemma machine_isPointOnBorder_rectangle (A : Arithmetic) (p tl br : Position) :
  Machine.isPointOnBorder A p (rectangle tl br)
  = Machine.onSegment A p tl {| x := br.(x); y := tl.(y) |}
    || (Machine.onSegment A p {| x := br.(x); y := tl.(y) |} br
        || (Machine.onSegment A p br {| x := tl.(x); y := br.(y) |}
            || (Machine.onSegment A p {| x := tl.(x); y := br.(y) |} tl || false))).
Proof. reflexivity. Qed.

(** A point that passes the boundary test of a rectangle is within its
    sides. *)
Lemma on_rectangle_within (A : Arithmetic) (p tl br : Position) :
  tl.(x) <= br.(x) -> tl.(y) <= br.(y) ->
  Machine.isPointOnBorder A p (rectangle tl br) = true ->
  tl.(x) <= p.(x) <= br.(x) /\ tl.(y) <= p.(y) <= br.(y).
Proof.
  intros Hx Hy. rewrite machine_isPointOnBorder_rectangle. intros H.
  repeat (apply orb_prop in H; destruct H as [H | H]);
    try discriminate H;
    apply machine_onSegment_bounds in H; cbn [x y] in H;
    destruct H as [Bx By]; revert Bx By; minmax; intros; lra.
Qed.

(** A point strictly inside a rectangle fails its boundary test. *)
Lemma inside_rectangle_not_on_border (A : Arithmetic) (p tl br : Position) :
  strictlyInside (rectangle tl br) p ->
  Machine.isPointOnBorder A p (rectangle tl br) = false.
Proof.
  intros S. unfold strictlyInside, rectangle in S. destruct S as [Sx Sy].
  apply not_true_iff_false. rewrite machine_isPointOnBorder_rectangle. intros H.
  repeat (apply orb_prop in H; destruct H as [H | H]);
    try discriminate H;
    apply machine_onSegment_bounds in H; cbn [x y] in H;
    destruct H as [Bx By]; revert Bx By; minmax; intros; lra.
Qed.

(** A corner moved by the delta of the pointer, as [#moveCropBox] computes
    it before clamping: both sums are rounded. *)
Definition moved (A : Arithmetic) (dx dy : Q) (c : Position) : Position :=
  {| x := Machine.add A c.(x) dx; y := Machine.add A c.(y) dy |}.

(** C2, as the code has it, on a layout whose boundary is a rectangle
    within the bounds of the clamping.  While a whole-box drag is active, a
    pointer move that takes every corner, moved by the delta as the doubles
    compute it, strictly inside the boundary stores exactly these moved
    corners; a move that takes a moved corner to a point that passes the
    boundary test leaves all corners where they were.  In both cases the
    pointer position is recorded and the overlay is redrawn. *)
Theorem whole_box_drag_rounded (A : Arithmetic) (s : Scanner) (w : World)
    (touchX touchY : Q) (cs : list Position) (tl br : Position) :
  s.(move).(active) = true ->
  s.(corners) = Some cs ->
  s.(canvasBorderPoints) = Some (rectangle tl br) ->
  s.(cornerRadius) <= tl.(x) <= br.(x) -> br.(x) <= regionRight A s ->
  s.(cornerRadius) <= tl.(y) <= br.(y) -> br.(y) <= regionBottom A s ->
  let dx := Machine.sub A touchX s.(move).(prevTouch).(x) in
  let dy := Machine.sub A touchY s.(move).(prevTouch).(y) in
  let s' := snd (Machine.afterTouchMove A touchX touchY s w) in
  (Forall (fun c => strictlyInside (rectangle tl br) (moved A dx dy c)) cs ->
     s'.(corners) = Some (map (moved A dx dy) cs))
  /\ (Exists (fun c => Machine.isPointOnBorder A (moved A dx dy c) (rectangle tl br) = true)
        cs ->
      s'.(corners) = Some cs)
  /\ s'.(move).(prevTouch) = {| x := touchX; y := touchY |}
  /\ exists rest,
       s'.(overlayCtx)
       = s.(overlayCtx)
         ++ Ctx.clearRect 0 0 s.(overlayCanvas).(el_width)
                              s.(overlayCanvas).(el_height) :: rest.
Proof.
  intros Ha Hc Hb [Rx Bx] Hx [Ry By] Hy dx dy s'.
  destruct (machine_moveCropBox_result A touchX touchY s w Hc Hb) as [rest R].
  assert (E : s' = snd (Machine.moveCropBox A touchX touchY s w)).
  { unfold s', Machine.afterTouchMove. now rewrite Ha. }
  rewrite R in E. clear R.
  assert (T : forall c,
            tl.(x) <= (moved A dx dy c).(x) <= br.(x) ->
            tl.(y) <= (moved A dx dy c).(y) <= br.(y) ->
            {| x := Machine.clampX A s (Machine.add A c.(x) dx);
               y := Machine.clampY A s (Machine.add A c.(y) dy) |}
            = moved A dx dy c).
  { intros c Ix Iy. cbn [moved x y] in Ix, Iy.
    unfold Machine.clampX, Machine.clampY, regionRight, regionBottom in *.
    rewrite !clamp_id; [reflexivity | lra | lra]. }
  repeat split.
  - intros F.
    assert (M : Machine.translatedCorners A touchX touchY s cs = map (moved A dx dy) cs).
    { unfold Machine.translatedCorners. fold dx dy. apply map_ext_in. intros c Hin.
      rewrite Forall_forall in F. destruct (F c Hin) as [Ix Iy].
      cbn [rectangle] in Ix, Iy. apply T; lra. }
    rewrite M in E.
    assert (B : existsb (fun t => Machine.isPointOnBorder A t (rectangle tl br))
                  (map (moved A dx dy) cs) = false).
    { apply not_true_iff_false. intros X. apply existsb_exists in X.
      destruct X as (t & Hin & Ht). apply in_map_iff in Hin.
      destruct Hin as (c & <- & Hin). rewrite Forall_forall in F.
      rewrite (inside_rectangle_not_on_border A (F c Hin)) in Ht. discriminate Ht. }
    rewrite B in E. rewrite E. reflexivity.
  - intros X. apply Exists_exists in X. destruct X as (c & Hin & Hon).
    assert (B : existsb (fun t => Machine.isPointOnBorder A t (rectangle tl br))
                  (Machine.translatedCorners A touchX touchY s cs) = true).
    { apply existsb_exists. exists (moved A dx dy c). split; [| exact Hon].
      unfold Machine.translatedCorners. fold dx dy. apply in_map_iff.
      exists c. split; [| exact Hin].
      assert (Hxx : tl.(x) <= br.(x)) by lra. assert (Hyy : tl.(y) <= br.(y)) by lra.
      destruct (@on_rectangle_within A _ _ _ Hxx Hyy Hon) as [Ix Iy].
      now apply T. }
    rewrite B in E. rewrite E. exact Hc.
  - rewrite E. destruct (negb _); reflexivity.
  - exists rest. rewrite E. destruct (negb _); reflexivity.
Qed.

(** ** Loading again *)

Lemma machine_img_onload_fields (A : Arithmetic) (s : Scanner) (w : World) :
  let s1 := fst (Machine.initializeCanvasDimensions A s w) in
  let w1 := snd (Machine.initializeCanvasDimensions A s w) in
  let s' := snd (fst (Machine.img_onload A s w)) in
  s'.(corners) = (Machine.initializeCorners A s.(initialCorners) s1 w1).(corners)
  /\ s'.(canvasBorderPoints) = s1.(canvasBorderPoints)
  /\ s'.(overlayCanvas) = s1.(overlayCanvas)
  /\ s'.(canvas) = s1.(canvas)
  /\ s'.(move) = s.(move)
  /\ s'.(selectedCornerIndex) = s.(selectedCornerIndex).
Proof.
  destruct (machine_layout A s w)
    as (_ & _ & _ & _ & _ & _ & _ & _ & Hi & _ & Hm & Hs & _).
  unfold Machine.img_onload.
  destruct (Machine.initializeCanvasDimensions A s w) as [s1 w1]. cbn [fst snd] in *.
  destruct (machine_drawCropBox_only_draws A
              (drawImage (Machine.initializeCorners A s1.(initialCorners) s1 w1)) w1)
    as [log E].
  destruct (Machine.drawCropBox A _ w1) as [r s3]. cbn [fst snd] in *. subst s3.
  rewrite <- Hi, <- Hm, <- Hs.
  destruct s1.(initialCorners); repeat split; reflexivity.
Qed.

(** C9, as the code has it: when the image of another [loadImg] has loaded,
    the canvas, the overlay, the boundary and the corners are what the
    layout and the initialisation of the corners compute for that image,
    and the drag flag, the recorded pointer position and the selected corner
    are as they were; the handler of a pointer release sets the flag to
    false and the index to -1. *)
Theorem reload_leaves_the_drag_state (P : Platform) (A : Arithmetic)
    (s : Scanner) (w : World) (imgSrc : string) (nw nh : Q) :
  let loading := loadImg imgSrc s in
  let st' :=
    Machine.step P A (img_load nw nh) (Machine.step P A (call_loadImg imgSrc) (s, w)) in
  let s1 := fst (Machine.initializeCanvasDimensions A (set_natural nw nh loading) w) in
  let w1 := snd (Machine.initializeCanvasDimensions A (set_natural nw nh loading) w) in
  ((fst st').(move) = s.(move)
   /\ (fst st').(selectedCornerIndex) = s.(selectedCornerIndex))
  /\ ((fst st').(canvas) = s1.(canvas)
      /\ (fst st').(overlayCanvas) = s1.(overlayCanvas)
      /\ (fst st').(canvasBorderPoints) = s1.(canvasBorderPoints)
      /\ (fst st').(corners)
         = (Machine.initializeCorners A s.(initialCorners) s1 w1).(corners))
  /\ (forall event : PointerEvent,
        let released := snd (Machine.run P A HTouchEnd event s w) in
        released.(move).(active) = false
        /\ released.(selectedCornerIndex) = (-1)%Z).
Proof.
  intros loading st' s1 w1.
  pose proof (machine_img_onload_fields A (set_natural nw nh loading) w)
    as (Hc & Hb & Ho & Hv & Hm & Hi).
  fold s1 w1 in Hc, Hb, Ho, Hv.
  assert (E : fst st' = snd (fst (Machine.img_onload A (set_natural nw nh loading) w))).
  { unfold st'. cbn [Machine.step]. fold loading.
    change (onload (img (loadImg imgSrc s))) with true. cbv iota.
    now destruct (Machine.img_onload A (set_natural nw nh loading) w) as [[r s2] w2]. }
  rewrite E. split; [split; assumption |]. split.
  - repeat split; assumption.
  - intros event. split; reflexivity.
Qed.

(** ** The crop *)




(** ** The states of an instance *)

Lemma machine_reachable_run_events (P : Platform) (A : Arithmetic)
    (options : ScannerOptions) (w0 : World) (es : list Event) (st : Scanner * World) :
  Machine.reachable P A options w0 st ->
  Machine.reachable P A options w0 (Machine.run_events P A es st).
Proof.
  revert st. induction es as [| e es IH]; intros st R;
    cbn [Machine.run_events fold_left].
  - exact R.
  - apply IH. now apply Machine.reach_step.
Qed.

(** * The machine: scenarios

    The machine model on the doubles of JavaScript, with the platform of the
    scenarios above. *)

Definition machine_step : Event -> Scanner * World -> Scanner * World :=
  Machine.step sample double.

Definition machine_run : list Event -> Scanner * World -> Scanner * World :=
  Machine.run_events sample double.

Definition machine_reachable : ScannerOptions -> World -> Scanner * World -> Prop :=
  Machine.reachable sample double.

Lemma machine_reachable_run (options : ScannerOptions) (w0 : World) (es : list Event)
    (s : Scanner) (w : World) (st : Scanner * World) :
  constructor options w0 = (Normal s, w) ->
  machine_run es (s, w) = st ->
  machine_reachable options w0 st.
Proof.
  intros C <-. apply machine_reachable_run_events. now apply Machine.reach_new.
Qed.

(** A browser at another pixel ratio. *)
Definition browserAt (ratio : Q) : World :=
  {| devicePixelRatio := ratio;
     clientRect := {| rect_left := 0; rect_top := 0 |};
     nextNode := 1; nextFn := 0;
     childNodes := []; listeners := []; console := [] |}.

(** Corner [i] of an instance with corners. *)
Definition cornerOf (st : Scanner * World) (i : nat) : Position :=
  nth i (default [] (fst st).(corners)) origin.

(** ** Instances *)



(** [{ parent, width: 200.5, height: 200.5 }] *)
Definition fractional : ScannerOptions :=
  {| opt_parent := 0%nat;
     opt_width := Some (401 # 2); opt_height := Some (401 # 2);
     opt_maxWidth := None; opt_maxHeight := None;
     opt_cornerRadius := None; opt_cornerColor := None;
     opt_cropBoxColor := absent; opt_backdropColor := absent;
     opt_minCropBoxWidth := None; opt_minCropBoxHeight := None;
     opt_cropBoxBorderWidth := None; opt_cropBoxBorderColor := None;
     opt_initialCorners := None |}.

Definition freshFractional : Scanner * World :=
  Eval vm_compute in
    (value (fst (constructor fractional browser)), snd (constructor fractional browser)).


(** [{ parent }] and the centred box, at pixel ratio 1.5. *)
Definition freshAtRatio : Scanner * World :=
  Eval vm_compute in
    (value (fst (constructor defaults (browserAt (3 # 2)))),
     snd (constructor defaults (browserAt (3 # 2)))).

Definition freshCentredAtRatio : Scanner * World :=
  Eval vm_compute in
    (value (fst (constructor centred (browserAt (3 # 2)))),
     snd (constructor centred (browserAt (3 # 2)))).

(** [{ parent }] at the pixel ratio [60 / 55], as a double. *)
Definition freshAtOddRatio : Scanner * World :=
  Eval vm_compute in
    (value (fst (constructor defaults (browserAt (binary64 (60 # 55))))),
     snd (constructor defaults (browserAt (binary64 (60 # 55))))).


Definition machineLoadedCentred : Scanner * World :=
  Eval vm_compute in
    machine_run [call_loadImg "page.png"; img_load 200 200] freshCentred.

Definition machineDragging : Scanner * World :=
  Eval vm_compute in machine_step (pointer mousedown (at_ 112 112)) machineLoadedCentred.


Definition machineShortTopHeld : Scanner * World :=
  Eval vm_compute in
    machine_run [call_loadImg "page.png"; img_load 300 300;
                 pointer mousedown (at_ 62 12)] freshShortTop.

(** The canvas of 200.5 by 200.5 with the box over it, pressed in its
    middle. *)
Definition draggingFractional : Scanner * World :=
  Eval vm_compute in
    machine_run [call_loadImg "page.png"; img_load 300 300;
                 pointer mousedown (at_ 112 112)] freshFractional.

(** An image of 201 by 201 at pixel ratio 1.5, with the default options and
    with the centred box; an image of 242 by 242 at the ratio [60 / 55]. *)
Definition loadedAtRatio : Scanner * World :=
  Eval vm_compute in
    machine_run [call_loadImg "page.png"; img_load 201 201] freshAtRatio.

Definition loadedCentredAtRatio : Scanner * World :=
  Eval vm_compute in
    machine_run [call_loadImg "page.png"; img_load 201 201] freshCentredAtRatio.

Definition loadedAtOddRatio : Scanner * World :=
  Eval vm_compute in
    machine_run [call_loadImg "page.png"; img_load 242 242] freshAtOddRatio.


Definition machineCentredCorners : list Position :=
  Eval vm_compute in default [] (fst machineDragging).(corners).


Lemma machineDragging_reachable : machine_reachable centred browser machineDragging.
Proof.
  apply (@machine_reachable_run centred browser
           [call_loadImg "page.png"; img_load 200 200; pointer mousedown (at_ 112 112)]
           (fst freshCentred) (snd freshCentred)); vm_compute; reflexivity.
Qed.


Lemma machineShortTopHeld_reachable :
  machine_reachable shortTop browser machineShortTopHeld.
Proof.
  apply (@machine_reachable_run shortTop browser
           [call_loadImg "page.png"; img_load 300 300; pointer mousedown (at_ 62 12)]
           (fst freshShortTop) (snd freshShortTop)); vm_compute; reflexivity.
Qed.

Lemma draggingFractional_reachable :
  machine_reachable fractional browser draggingFractional.
Proof.
  apply (@machine_reachable_run fractional browser
           [call_loadImg "page.png"; img_load 300 300; pointer mousedown (at_ 112 112)]
           (fst freshFractional) (snd freshFractional)); vm_compute; reflexivity.
Qed.


(** ** Where the specification and the code part, on the machine *)



(** C2 as stated fails, in two ways.  On the canvas of 200.5 by 200.5 the
    boundary reaches to 212.5 and the clamping to 212 (the canvas element is
    200 wide, the overlay 224): the box over the canvas, dragged from
    [(112, 112)] to [(112.25, 112.25)], has every moved corner strictly
    inside the boundary, and its right and bottom sides are stored at 212,
    not at 212.25.  On the canvas of 200 by 200 the centred box, dragged
    from [(112, 112)] to [(122.2, 112)], is stored with its left side moved
    by less than its right side: the sums are rounded. *)
Lemma whole_box_drag_clamps_and_rounds :
  (let s := fst draggingFractional in
   let dx := Machine.sub double (449 # 4) s.(move).(prevTouch).(x) in
   let dy := Machine.sub double (449 # 4) s.(move).(prevTouch).(y) in
   let after :=
     fst (machine_step (pointer mousemove (at_ (449 # 4) (449 # 4))) draggingFractional) in
   machine_reachable fractional browser draggingFractional
   /\ s.(move).(active) = true
   /\ (exists cs border,
         s.(corners) = Some cs /\ s.(canvasBorderPoints) = Some border
         /\ Forall (fun c => strictlyInside border (moved double dx dy c)) cs
         /\ after.(corners) <> Some (map (moved double dx dy) cs))
   /\ after.(corners)
      = Some [ {| x := 49 # 4; y := 49 # 4 |}; {| x := 212; y := 49 # 4 |};
               {| x := 212; y := 212 |}; {| x := 49 # 4; y := 212 |} ])
  /\ (let touch := at_ (binary64 (1222 # 10)) 112 in
      let before (i : nat) := cornerOf machineDragging i in
      let after (i : nat) :=
        cornerOf (machine_step (pointer mousemove touch) machineDragging) i in
      machine_reachable centred browser machineDragging
      /\ (fst machineDragging).(move).(active) = true
      /\ (after 1%nat).(x) - (before 1%nat).(x) < (after 0%nat).(x) - (before 0%nat).(x)).
Proof.
  split.
  - cbv zeta. split; [exact draggingFractional_reachable |].
    split; [reflexivity |]. split.
    + eexists. eexists. split; [reflexivity |]. split; [reflexivity |]. split.
      * repeat constructor; vm_compute; reflexivity.
      * intros H. vm_compute in H. discriminate H.
    + vm_compute. reflexivity.
  - cbv zeta. split; [exact machineDragging_reachable |].
    split; [reflexivity |]. vm_compute. reflexivity.
Qed.

(** C3, on the code.  The box with a top edge from [(62, 12)] to
    [(112, 12)] is held at its top-left corner, the minimum width being 105,
    and the pointer moves to [(0, 12)], left of the region.
    [#afterTouchMove] tests the corners with the pointer position as it
    came ([112 - 0 >= 105]: not too small), then stores the position clamped
    to [(12, 12)]: the box it has committed fails its own check
    ([112 - 12 < 105]). *)
Theorem corner_drag_commits_a_rejected_box :
  let s := fst machineShortTopHeld in
  let w := snd machineShortTopHeld in
  let after := snd (Machine.afterTouchMove double 0 12 s w) in
  machine_reachable shortTop browser machineShortTopHeld
  /\ s.(move).(active) = false
  /\ s.(selectedCornerIndex) = 0%Z
  /\ s.(minCropBoxWidth) = 105
  /\ s.(corners)
     = Some [ {| x := 62; y := 12 |}; {| x := 112; y := 12 |};
              {| x := 212; y := 212 |}; {| x := 12; y := 212 |} ]
  /\ Machine.cropBoxIsTooSmall double (candidate 0 0 12 (default [] s.(corners))) s
     = Normal false
  /\ after = fst (machine_step (pointer mousemove (at_ 0 12)) machineShortTopHeld)
  /\ after.(corners)
     = Some [ {| x := 12; y := 12 |}; {| x := 112; y := 12 |};
              {| x := 212; y := 212 |}; {| x := 12; y := 212 |} ]
  /\ Machine.cropBoxIsTooSmall double (default [] after.(corners)) after = Normal true.
Proof.
  cbv zeta. split; [exact machineShortTopHeld_reachable |].
  repeat (split; [vm_compute; reflexivity |]). vm_compute. reflexivity.
Qed.

(** C7, on the code: at pixel ratio 1.5 an image of 201 by 201 is laid out
    on a canvas of 201 by 201 whose backing store, 301.5 wide, is cut to 301
    by the [width] attribute; [#initializeCorners] divides that 301 by the
    ratio.  The default bottom-right corner is at 212.67 and not on the
    padded canvas corner [(213, 213)], and the corner at 25% is at 62.17 and
    not at [(25 / 100) * 201 + 12].  At the ratio [60 / 55] an image of 242
    by 242 has its default bottom-right corner at 254.00000000000003, beyond
    the boundary, whose right side is at 254. *)
Theorem initial_corners_miss_the_canvas :
  (machine_reachable defaults (browserAt (3 # 2)) loadedAtRatio
   /\ (fst loadedAtRatio).(initialCorners) = None
   /\ (fst loadedAtRatio).(canvas).(style_width) = Some 201
   /\ (fst loadedAtRatio).(canvas).(style_height) = Some 201
   /\ (fst loadedAtRatio).(canvas).(el_width) = 301
   /\ (fst loadedAtRatio).(canvas).(el_height) = 301
   /\ (fst loadedAtRatio).(canvasBorderPoints)
      = Some [ {| x := 12; y := 12 |}; {| x := 213; y := 12 |};
               {| x := 213; y := 213 |}; {| x := 12; y := 213 |} ]
   /\ (cornerOf loadedAtRatio 2).(x) < 213
   /\ (cornerOf loadedAtRatio 2).(y) < 213)
  /\ (machine_reachable centred (browserAt (3 # 2)) loadedCentredAtRatio
      /\ nth_error (default [] (fst loadedCentredAtRatio).(initialCorners)) 0
         = Some {| x := 25; y := 25 |}
      /\ (fst loadedCentredAtRatio).(canvas).(style_width) = Some 201
      /\ (fst loadedCentredAtRatio).(canvas).(style_height) = Some 201
      /\ (cornerOf loadedCentredAtRatio 0).(x) < (25 / 100) * 201 + 12
      /\ (cornerOf loadedCentredAtRatio 0).(y) < (25 / 100) * 201 + 12)
  /\ (machine_reachable defaults (browserAt (binary64 (60 # 55))) loadedAtOddRatio
      /\ (fst loadedAtOddRatio).(canvasBorderPoints)
         = Some [ {| x := 12; y := 12 |}; {| x := 254; y := 12 |};
                  {| x := 254; y := 254 |}; {| x := 12; y := 254 |} ]
      /\ 254 < (cornerOf loadedAtOddRatio 2).(x)
      /\ 254 < (cornerOf loadedAtOddRatio 2).(y)).
Proof.
  cbv zeta. split; [| split].
  - split.
    + apply (@machine_reachable_run defaults (browserAt (3 # 2))
               [call_loadImg "page.png"; img_load 201 201]
               (fst freshAtRatio) (snd freshAtRatio)); vm_compute; reflexivity.
    + repeat split; vm_compute; reflexivity.
  - split.
    + apply (@machine_reachable_run centred (browserAt (3 # 2))
               [call_loadImg "page.png"; img_load 201 201]
               (fst freshCentredAtRatio) (snd freshCentredAtRatio));
        vm_compute; reflexivity.
    + repeat split; vm_compute; reflexivity.
  - split.
    + apply (@machine_reachable_run defaults (browserAt (binary64 (60 # 55)))
               [call_loadImg "page.png"; img_load 242 242]
               (fst freshAtOddRatio) (snd freshAtOddRatio)); vm_compute; reflexivity.
    + repeat split; vm_compute; reflexivity.
Qed.

(** C9 as stated fails: a whole-box drag is active when another image is
    loaded, and it is still active when that image has loaded. *)
Lemma reload_during_a_drag :
  let reloaded :=
    machine_run [call_loadImg "next.png"; img_load 300 300] machineDragging in
  machine_reachable centred browser machineDragging
  /\ (fst machineDragging).(move).(active) = true
  /\ (fst reloaded).(move).(active) = true
  /\ (fst reloaded).(selectedCornerIndex) = (fst machineDragging).(selectedCornerIndex)
  /\ (fst reloaded).(corners) <> (fst machineDragging).(corners).
Proof.
  split; [exact machineDragging_reachable |].
  split; [reflexivity |].
  split; [vm_compute; reflexivity |].
  split; [vm_compute; reflexivity |].
  intros H. vm_compute in H. discriminate H.
Qed.

(** ** The theorems at work, on the machine *)



(** The centred box on the canvas of 200 by 200, held at [(112, 112)]: the
    move to [(122, 117)] takes every corner by [(10, 5)]; the move to
    [(62, 112)] would put the left corners on the left side of the boundary
    and moves nothing. *)
Lemma whole_box_drag_rounded_witness :
  let s := fst machineDragging in
  let w := snd machineDragging in
  (snd (Machine.afterTouchMove double 122 117 s w)).(corners)
  = Some (map (moved double 10 5) machineCentredCorners)
  /\ (snd (Machine.afterTouchMove double 62 112 s w)).(corners)
     = Some machineCentredCorners.
Proof.
  intros s w.
  assert (Ha : s.(move).(active) = true) by reflexivity.
  assert (Hc : s.(corners) = Some machineCentredCorners) by reflexivity.
  assert (Hb : s.(canvasBorderPoints)
               = Some (rectangle {| x := 12; y := 12 |} {| x := 212; y := 212 |}))
    by reflexivity.
  assert (Bx : s.(cornerRadius) <= 12 <= 212) by (split; decide_num).
  assert (Rx : 212 <= regionRight double s) by decide_num.
  assert (Ry : 212 <= regionBottom double s) by decide_num.
  split.
  - destruct (@whole_box_drag_rounded double s w 122 117 machineCentredCorners
                _ _ Ha Hc Hb Bx Rx Bx Ry) as (Acc & _).
    rewrite Acc; [vm_compute; reflexivity |].
    repeat constructor; vm_compute; reflexivity.
  - destruct (@whole_box_drag_rounded double s w 62 112 machineCentredCorners
                _ _ Ha Hc Hb Bx Rx Bx Ry) as (_ & Rej & _).
    apply Rej. apply Exists_cons_hd. vm_compute. reflexivity.
Defined.


(** [height = 300] and an image of 318 by 106: the quotient [300 / 106] is
    rounded down, its product with 318 is below 900, and the canvas is 899
    wide. *)
Lemma height_only_layout_rounded_witness :
  let s := set_natural 318 106 (loadImg "page.png" (fst fresh300)) in
  let s' := fst (Machine.initializeCanvasDimensions double s (snd fresh300)) in
  s'.(canvas).(style_width) = Some 899
  /\ s'.(canvas).(style_height) = Some 300.
Proof.
  intros s s'.
  assert (Hh : s.(height) = Some 300) by reflexivity.
  assert (Hw : ~ nonzero s.(width)) by apply nonzero_None.
  assert (N0 : ~ 300 == 0) by (intros H; vm_compute in H; discriminate H).
  assert (N1 : ~ s.(img).(naturalWidth) == 0) by (intros H; vm_compute in H; discriminate H).
  assert (N2 : ~ s.(img).(naturalHeight) == 0) by (intros H; vm_compute in H; discriminate H).
  destruct (@height_only_layout_rounded double s (snd fresh300) 300 Hh N0 Hw N1 N2)
    as (B & _ & Sw & Sh).
  fold s' in Sw, Sh.
  destruct B as [Lw Lh]; [left; apply nonzero_None |].
  rewrite Sw, Sh, Lw, Lh. split; vm_compute; reflexivity.
Defined.

(** [width = 200.5] and [height = 200.5]: the canvas is 200 by 200, and the
    boundary reaches to 212.5. *)
Lemma both_dimensions_layout_rounded_witness :
  let s := set_natural 300 300 (loadImg "page.png" (fst freshFractional)) in
  let s' := fst (Machine.initializeCanvasDimensions double s (snd freshFractional)) in
  s'.(canvas).(style_width) = Some 200
  /\ s'.(canvas).(style_height) = Some 200
  /\ s'.(canvas).(el_width) = 200
  /\ s'.(canvasBorderPoints)
     = Some [ {| x := 12; y := 12 |}; {| x := 425 # 2; y := 12 |};
              {| x := 425 # 2; y := 425 # 2 |}; {| x := 12; y := 425 # 2 |} ].
Proof.
  intros s s'.
  assert (Hw : s.(width) = Some (401 # 2)) by reflexivity.
  assert (Hh : s.(height) = Some (401 # 2)) by reflexivity.
  assert (N0 : ~ 401 # 2 == 0) by (intros H; vm_compute in H; discriminate H).
  destruct (@both_dimensions_layout_rounded double s (snd freshFractional)
              (401 # 2) (401 # 2) Hw N0 Hh N0) as (Sw & Sh & Ew & _ & Hb & _).
  fold s' in Sw, Sh, Ew, Hb. rewrite Sw, Sh, Ew, Hb.
  repeat (split; [vm_compute; reflexivity |]). vm_compute. reflexivity.
Defined.
